(** * socialbot: the multi-platform posting coordinator

    A shallow embedding of [post_manager.py] (class [PostManager]) together
    with the parts of [llm_generator.py], [post_to_twitter.py],
    [post_to_linkedin.py], [post_to_reddit.py], [utils.py] and [config.py]
    that it drives.

    Python values are modelled as follows.
    - [str] is [string]; [len], slicing and [in] are the functions of the
      section "Python strings" below.
    - A [dict] is an insertion-ordered association list with unique keys,
      read with [dict_get] and updated with [dict_set].
    - Code that calls the outside world (the language model, the three
      remote platforms, the SQLite log) runs in the monad [M]: it threads a
      state made of the trace of calls issued so far and a clock, and ends
      by returning, by raising a Python exception, or by never returning. *)

From Stdlib Require Import String Ascii List Bool Arith PeanoNat Lia.
From Stdlib Require Import DecimalString Permutation.
Import ListNotations.

Open Scope string_scope.
Open Scope list_scope.

Infix "+++" := String.append (right associativity, at level 60).

(* ------------------------------------------------------------------ *)
(** ** Python strings *)

(** [len(s)], counted in the characters of the embedding.  Python counts
    the code points of a [str]; the two agree on ASCII text, and the
    statements below hold for every string of the embedding. *)
Definition len (s : string) : nat := String.length s.

(** [s[:n]]. *)
Definition slice_to (n : nat) (s : string) : string := substring 0 n s.

(** [k in s] for two strings: [k] occurs in [s] as a contiguous run. *)
Fixpoint str_in (k s : string) : bool :=
  prefix k s ||
  match s with
  | EmptyString => false
  | String _ s' => str_in k s'
  end.

(** Truth value of a string: only the empty string is false. *)
Definition truthy (s : string) : bool := negb (s =? "").

(** Truth value of an [Optional[str]]. *)
Definition truthy_opt (c : option string) : bool :=
  match c with
  | Some s => truthy s
  | None => false
  end.

(** [str(n)] for a non-negative integer. *)
Definition str_of_nat (n : nat) : string :=
  NilEmpty.string_of_uint (Nat.to_uint n).

(** ASCII lower-casing, used where a concrete [str.lower] is needed. *)
Definition lower_ascii (c : ascii) : ascii :=
  let n := nat_of_ascii c in
  if ((65 <=? n) && (n <=? 90))%nat then ascii_of_nat (n + 32) else c.

Fixpoint ascii_lower (s : string) : string :=
  match s with
  | EmptyString => EmptyString
  | String c s' => String (lower_ascii c) (ascii_lower s')
  end.

(* ------------------------------------------------------------------ *)
(** ** Python dictionaries *)

Definition dict (V : Type) : Type := list (string * V).

Section Dict.
Context {V : Type}.

(** [d.get(k)]: [None] when the key is missing. *)
Fixpoint dict_get (d : dict V) (k : string) : option V :=
  match d with
  | [] => None
  | (k', v) :: d' => if k' =? k then Some v else dict_get d' k
  end.

(** [d[k] = v]: an existing key keeps its position, a new key goes last. *)
Fixpoint dict_set (d : dict V) (k : string) (v : V) : dict V :=
  match d with
  | [] => [(k, v)]
  | (k', v') :: d' =>
      if k' =? k then (k', v) :: d' else (k', v') :: dict_set d' k v
  end.

Definition keys (d : dict V) : list string := map fst d.
Definition values (d : dict V) : list V := map snd d.
End Dict.

(** [d.get(k, False)] on a dictionary of booleans. *)
Definition dict_get_bool (d : dict bool) (k : string) : bool :=
  match dict_get d k with
  | Some b => b
  | None => false
  end.

(* ------------------------------------------------------------------ *)
(** ** config.py *)

Record settings : Type := {
  enabled : bool;
  max_length : nat;
  tone : string
}.

Definition PLATFORMS : dict settings :=
  [ ("twitter",  {| enabled := true; max_length := 280;
                    tone := "concise and engaging" |});
    ("linkedin", {| enabled := true; max_length := 3000;
                    tone := "professional and insightful" |});
    ("reddit",   {| enabled := true; max_length := 10000;
                    tone := "casual and informative" |}) ].

(** [config.PLATFORMS[platform]['enabled']]. *)
Definition platform_enabled (platform : string) : bool :=
  match dict_get PLATFORMS platform with
  | Some s => enabled s
  | None => false
  end.

(* ------------------------------------------------------------------ *)
(** ** utils.py: truncate_content *)

(** [truncate_content(content, max_length, platform)].  The limits of
    [config.PLATFORMS] are 280, 3000 and 10000, for which
    [max_length - 10] and [max_length - 3] are positive.  For a limit
    below 10 (or 3) the Python slice [content[:max_length - 10]] has a
    negative bound and counts from the end of the string; the subtraction
    on [nat] stops at 0 and does not follow the source there. *)
Definition truncate_content (content : string) (max_length : nat)
    (platform : string) : string :=
  if (len content <=? max_length)%nat then content
  else if platform =? "twitter" then slice_to (max_length - 10) content +++ "..."
  else slice_to (max_length - 3) content +++ "...".

(* ------------------------------------------------------------------ *)
(** ** post_to_reddit.py: get_suitable_subreddits and _generate_title *)

Definition subreddit_mapping : dict (list string) :=
  [ ("ai", ["artificial"; "MachineLearning"; "singularity"; "technology"]);
    ("technology", ["technology"; "programming"; "coding"; "tech"]);
    ("business", ["business"; "entrepreneur"; "startups"; "investing"]);
    ("education", ["education"; "teaching"; "learning"; "studytips"]);
    ("science", ["science"; "askscience"; "EverythingScience"]);
    ("programming", ["programming"; "coding"; "learnprogramming"; "webdev"]);
    ("finance", ["personalfinance"; "investing"; "financialindependence"]);
    ("health", ["health"; "fitness"; "nutrition"; "wellness"]);
    ("gaming", ["gaming"; "games"; "pcgaming"; "nintendo"]);
    ("music", ["music"; "WeAreTheMusicMakers"; "edmproduction"]);
    ("art", ["art"; "drawing"; "painting"; "design"]);
    ("photography", ["photography"; "photocritique"; "itookapicture"]) ].

Definition default_subreddits : list string :=
  ["test"; "CasualConversation"; "discussion"].

Section Routing.
(** Python's [str.lower]; the routing results hold for any case mapping. *)
Variable str_lower : string -> string.

(** One turn of the loop over [subreddit_mapping.items()]. *)
Definition extend_if_match (topic_lower : string)
    (suitable : list string) (entry : string * list string) : list string :=
  if str_in (fst entry) topic_lower then suitable ++ snd entry else suitable.

Definition get_suitable_subreddits (topic : string) : list string :=
  let topic_lower := str_lower topic in
  let suitable_subreddits :=
    fold_left (extend_if_match topic_lower) subreddit_mapping [] in
  let suitable_subreddits :=
    match suitable_subreddits with
    | [] => default_subreddits
    | _ :: _ => suitable_subreddits
    end in
  firstn 3 suitable_subreddits.

(** The subreddit [_post_to_single_platform] posts to:
    [subreddits[0] if subreddits else "test"]. *)
Definition choose_subreddit (original_idea : string) : string :=
  match get_suitable_subreddits original_idea with
  | s :: _ => s
  | [] => "test"
  end.

(** The routing rule in the words of the specification: the subreddits of
    every table key contained in the lower-cased idea, in table order, or
    the fixed default list when no key is contained. *)
Definition candidates_spec (idea : string) : list string :=
  let matched :=
    flat_map (fun entry : string * list string =>
                if str_in (fst entry) (str_lower idea) then snd entry else [])
             subreddit_mapping in
  if (length matched =? 0)%nat then default_subreddits else matched.
End Routing.

Definition _generate_title (idea : string) : string :=
  if (len idea <=? 100)%nat then "Discussion: " +++ idea
  else "Discussion: " +++ slice_to 97 idea +++ "...".

(* ------------------------------------------------------------------ *)
(** ** Exceptions, outcomes and the trace of calls *)

(** The exception classes the [except] clauses of the adapters tell apart.
    [HTTPError] is a subclass of [RequestException]; every class below is a
    subclass of [Exception].  There is no class for the
    [praw.exceptions.InvalidSubreddit] that [post_to_reddit] names: the
    module [praw.exceptions] has no such attribute. *)
Inductive exn_class : Type :=
  | TooManyRequests
  | Forbidden
  | BadRequest
  | HTTPError (status_code : nat)
  | RequestException
  | RedditAPIException
  | TimeoutError
  | OtherException.

(** An exception object: its class and [str(e)]. *)
Record exn : Type := {
  exn_kind : exn_class;
  exn_str : string
}.

(** The per-platform result dictionaries: [{"success": True, ...}] with its
    other items, or [{"success": False, "error": error}]. *)
Inductive outcome : Type :=
  | Success (fields : list (string * string))
  | Failure (error : string).

(** [result.get('success', False)]. *)
Definition succeeded (o : outcome) : bool :=
  match o with
  | Success _ => true
  | Failure _ => false
  end.

(** Calls recorded in the trace, in the order they are issued. *)
Inductive event : Type :=
  | CallGeneratePosts (idea : string)
  | CallGenerateSingle (idea platform : string)
  | CallAdapter (platform content original_idea : string)
                (subreddit : option string)
  | CallRemote (platform text : string)
  | CallLogPost (platform content original_idea status : string).

(** What an outside call answers: a value or a raised exception. *)
Inductive reply (A : Type) : Type :=
  | Reply (a : A)
  | Throw (e : exn).
Arguments Reply {A} a.
Arguments Throw {A} e.

(** Everything outside the repository, each answer possibly depending on
    the calls issued so far.
    - [generate_single_post]: [LLMGenerator._generate_single_post].
    - [create_tweet]: [client.create_tweet]; [Some id] when [response.data]
      is truthy.
    - [ugc_posts]: the POST to [/ugcPosts] with [raise_for_status] and
      [response.json().get('id')].
    - [subreddit_submit]: [reddit.subreddit(name).submit(...)]; [Some (id,
      permalink)] when the submission is truthy.
    - [db_insert]: the SQLite statements of [log_post].
    - [latency]: the time a pool worker needs to run the publish task of a
      platform; [None] when the task never returns. *)
Record World : Type := {
  str_lower : string -> string;
  generate_single_post : list event -> string -> string -> reply string;
  create_tweet : list event -> string -> reply (option string);
  ugc_posts : list event -> string -> reply (option string);
  subreddit_submit :
    list event -> string -> string -> string -> reply (option (string * string));
  db_insert : list event -> string -> string -> string -> string -> reply unit;
  latency : list event -> string -> option nat
}.

(* ------------------------------------------------------------------ *)
(** ** The monad of effectful code *)

Record state : Type := {
  trace : list event;
  clock : nat
}.

Inductive result (A : Type) : Type :=
  | Returns (a : A)
  | Raises (e : exn)
  | Blocks.
Arguments Returns {A} a.
Arguments Raises {A} e.
Arguments Blocks {A}.

Definition M (A : Type) : Type := state -> result A * state.

Definition ret {A : Type} (a : A) : M A := fun st => (Returns a, st).

Definition bind {A B : Type} (m : M A) (f : A -> M B) : M B :=
  fun st =>
    match m st with
    | (Returns a, st') => f a st'
    | (Raises e, st') => (Raises e, st')
    | (Blocks, st') => (Blocks, st')
    end.

(** [try: m except Exception as e: h e]. *)
Definition try_except {A : Type} (m : M A) (h : exn -> M A) : M A :=
  fun st =>
    match m st with
    | (Raises e, st') => h e st'
    | other => other
    end.

Definition block {A : Type} : M A := fun st => (Blocks, st).

Definition emit (ev : event) : M unit :=
  fun st => (Returns tt, {| trace := trace st ++ [ev]; clock := clock st |}).

(** A call to the outside that answers or raises.  A call that never
    comes back is not one of the answers of an oracle: it is told by the
    [latency] of the worker that runs it, which is [None] for such a
    worker (see [executor_submit] and [collect_loop]). *)
Definition ask {A : Type} (oracle : list event -> reply A) : M A :=
  fun st =>
    match oracle (trace st) with
    | Reply a => (Returns a, st)
    | Throw e => (Raises e, st)
    end.

(** [raise e]. *)
Definition raise {A : Type} (e : exn) : M A := fun st => (Raises e, st).

Declare Scope monad_scope.
Delimit Scope monad_scope with monad.
Notation "x <- m ;; k" := (bind m (fun x => k))
  (at level 100, m at next level, right associativity) : monad_scope.
Notation "m ;; k" := (bind m (fun _ => k))
  (at level 100, right associativity) : monad_scope.
Open Scope monad_scope.

(* ------------------------------------------------------------------ *)
(** ** The adapters and the generator *)

Record TwitterPoster : Type := {
  client : bool                    (* [self.client is not None] *)
}.

(** [user_id] is [None] also when [__init__] returned before setting it. *)
Record LinkedInPoster : Type := {
  access_token : option string;
  user_id : option string
}.

Record RedditPoster : Type := {
  reddit : bool                    (* [self.reddit is not None] *)
}.

Section Adapters.
Variable w : World.

(** utils.py, [log_post]. *)
Definition log_post (platform content original_idea status : string)
    : M unit :=
  emit (CallLogPost platform content original_idea status) ;;
  ask (fun tr => db_insert w tr platform content original_idea status).

(** The common tail of every failure path of an adapter. *)
Definition log_failure (platform content original_idea error_msg : string)
    : M outcome :=
  log_post platform content original_idea "failed" ;;
  ret (Failure error_msg).

(** post_to_twitter.py, [TwitterPoster.post_tweet]. *)
Definition post_tweet (self : TwitterPoster)
    (content original_idea : string) : M outcome :=
  emit (CallAdapter "twitter" content original_idea None) ;;
  if negb (client self) then
    log_failure "twitter" content original_idea "Twitter API not initialized"
  else
    let content := truncate_content content 280 "twitter" in
    try_except
      (emit (CallRemote "twitter" content) ;;
       response_data <- ask (fun tr => create_tweet w tr content) ;;
       match response_data with
       | Some tweet_id =>
           let tweet_url := "https://twitter.com/user/status/" +++ tweet_id in
           log_post "twitter" content original_idea "success" ;;
           ret (Success [("tweet_id", tweet_id); ("url", tweet_url);
                         ("content", content)])
       | None =>
           log_failure "twitter" content original_idea
                       "No data returned from Twitter API"
       end)
      (fun e =>
         log_failure "twitter" content original_idea
           match exn_kind e with
           | TooManyRequests => "Twitter API rate limit exceeded"
           | Forbidden => "Twitter API access forbidden: " +++ exn_str e
           | BadRequest => "Twitter API bad request: " +++ exn_str e
           | _ => "Unexpected error posting to Twitter: " +++ exn_str e
           end).

(** post_to_linkedin.py, [LinkedInPoster.post_to_linkedin]. *)
Definition post_to_linkedin (self : LinkedInPoster)
    (content original_idea : string) : M outcome :=
  emit (CallAdapter "linkedin" content original_idea None) ;;
  if negb (truthy_opt (access_token self)) || negb (truthy_opt (user_id self))
  then
    log_failure "linkedin" content original_idea
                "LinkedIn API not properly initialized"
  else
    let content := truncate_content content 3000 "linkedin" in
    try_except
      (emit (CallRemote "linkedin" content) ;;
       post_id <- ask (fun tr => ugc_posts w tr content) ;;
       if truthy_opt post_id then
         let post_id := match post_id with Some i => i | None => "" end in
         let post_url := "https://www.linkedin.com/feed/update/" +++ post_id in
         log_post "linkedin" content original_idea "success" ;;
         ret (Success [("post_id", post_id); ("url", post_url);
                       ("content", content)])
       else
         log_failure "linkedin" content original_idea
                     "No post ID returned from LinkedIn API")
      (fun e =>
         log_failure "linkedin" content original_idea
           match exn_kind e with
           | HTTPError status_code =>
               if (status_code =? 401)%nat then
                 "LinkedIn API authentication failed. Please check your access token."
               else if (status_code =? 403)%nat then
                 "LinkedIn API access forbidden. Check your permissions."
               else if (status_code =? 429)%nat then
                 "LinkedIn API rate limit exceeded."
               else "LinkedIn API HTTP error: " +++ str_of_nat status_code
           | RequestException =>
               "LinkedIn API request failed: " +++ exn_str e
           | _ => "Unexpected error posting to LinkedIn: " +++ exn_str e
           end).

(** What Python raises when it evaluates [praw.exceptions.InvalidSubreddit]. *)
Definition no_InvalidSubreddit : exn :=
  {| exn_kind := OtherException;
     exn_str := "module 'praw.exceptions' has no attribute 'InvalidSubreddit'" |}.

(** post_to_reddit.py, [RedditPoster.post_to_reddit], called without a
    title.  An exception raised in the [try] block is first matched against
    [praw.exceptions.RedditAPIException].  When it is of another class,
    Python goes on to the clause [except praw.exceptions.InvalidSubreddit]
    and evaluates that expression, which raises [AttributeError]: the
    exception leaves the [try] statement, and neither that clause nor the
    [except Exception] clause below it runs. *)
Definition post_to_reddit (self : RedditPoster)
    (content original_idea subreddit_name : string) : M outcome :=
  emit (CallAdapter "reddit" content original_idea (Some subreddit_name)) ;;
  if negb (reddit self) then
    log_failure "reddit" content original_idea "Reddit API not initialized"
  else
    let content := truncate_content content 10000 "reddit" in
    try_except
      (let title := _generate_title original_idea in
       emit (CallRemote "reddit" content) ;;
       submission <-
         ask (fun tr => subreddit_submit w tr subreddit_name title content) ;;
       match submission with
       | Some (submission_id, permalink) =>
           let post_url := "https://reddit.com" +++ permalink in
           log_post "reddit" content original_idea "success" ;;
           ret (Success [("submission_id", submission_id); ("url", post_url);
                         ("subreddit", subreddit_name); ("title", title);
                         ("content", content)])
       | None =>
           log_failure "reddit" content original_idea
                       "No submission returned from Reddit API"
       end)
      (fun e =>
         match exn_kind e with
         | RedditAPIException =>
             log_failure "reddit" content original_idea
                         ("Reddit API error: " +++ exn_str e)
         | _ => raise no_InvalidSubreddit
         end).

(** llm_generator.py, [LLMGenerator._generate_single_post]. *)
Definition _generate_single_post (idea platform : string) : M string :=
  emit (CallGenerateSingle idea platform) ;;
  ask (fun tr => generate_single_post w tr idea platform).

(** One turn of the loop of [generate_posts] over
    [config.PLATFORMS.items()]. *)
Definition generate_step (idea : string) (posts : dict (option string))
    (item : string * settings) : M (dict (option string)) :=
  let platform := fst item in
  if enabled (snd item) then
    try_except
      (post_content <- _generate_single_post idea platform ;;
       ret (dict_set posts platform (Some post_content)))
      (fun _ => ret (dict_set posts platform None))
  else ret posts.

Fixpoint generate_loop (idea : string) (items : list (string * settings))
    (posts : dict (option string)) : M (dict (option string)) :=
  match items with
  | [] => ret posts
  | item :: rest =>
      posts' <- generate_step idea posts item ;;
      generate_loop idea rest posts'
  end.

(** llm_generator.py, [LLMGenerator.generate_posts]. *)
Definition generate_posts (idea : string) : M (dict (option string)) :=
  emit (CallGeneratePosts idea) ;;
  generate_loop idea PLATFORMS [].
End Adapters.

(* ------------------------------------------------------------------ *)
(** ** post_manager.py: PostManager *)

Record PostManager : Type := {
  twitter_poster : TwitterPoster;
  linkedin_poster : LinkedInPoster;
  reddit_poster : RedditPoster
}.

Definition is_not_None {A : Type} (x : option A) : bool :=
  match x with
  | Some _ => true
  | None => false
  end.

(** [PostManager._check_platform_availability]. *)
Definition _check_platform_availability (self : PostManager) : dict bool :=
  let availability : dict bool := [] in
  let availability :=
    dict_set availability "twitter"
      (platform_enabled "twitter" && client (twitter_poster self)) in
  let availability :=
    dict_set availability "linkedin"
      (platform_enabled "linkedin"
       && is_not_None (access_token (linkedin_poster self))
       && is_not_None (user_id (linkedin_poster self))) in
  let availability :=
    dict_set availability "reddit"
      (platform_enabled "reddit" && reddit (reddit_poster self)) in
  availability.

(** [self.available_platforms]: set once by [__init__] from the three
    posters, which no later code changes. *)
Definition available_platforms (self : PostManager) : dict bool :=
  _check_platform_availability self.

(** A future of the thread pool: the platform it was submitted for
    ([future_to_platform]), the time at which its task is done ([None]: it
    never is) and what the task returned or raised. *)
Record future : Type := {
  fut_platform : string;
  fut_done : option nat;
  fut_value : result outcome
}.

(** The dictionaries [process_idea] and [retry_failed_posts] return. *)
Record summary : Type := {
  successful_posts : nat;
  total_platforms : nat;
  summary_idea : string
}.

Inductive aggregated : Type :=
  | Aborted (error : string)
      (* [{"success": False, "error": error}] *)
  | Posted (success : bool) (results : dict outcome) (s : summary)
      (* [{"success": ..., "results": ..., "summary": ...}] *)
  | NothingToRetry (message : string)
      (* [{"success": True, "message": message}] *)
  | Retried (success : bool) (results : dict outcome)
            (retried_platforms : list string).
      (* [{"success": ..., "results": ..., "retried_platforms": ...}] *)

(** [original_results.get("results", {})]. *)
Definition results_of (r : aggregated) : dict outcome :=
  match r with
  | Posted _ results _ => results
  | Retried _ results _ => results
  | Aborted _ => []
  | NothingToRetry _ => []
  end.

(** [r.get("success", False)] on a returned dictionary. *)
Definition overall_success (r : aggregated) : bool :=
  match r with
  | Posted success _ _ => success
  | Retried success _ _ => success
  | Aborted _ => false
  | NothingToRetry _ => true
  end.

(** ** concurrent.futures *)

(** [future.result(timeout=t)]: the value of a future that is done or gets
    done within [t]; [TimeoutError] after [t] otherwise. *)
Definition future_result (timeout : nat) (f : future) : M outcome :=
  fun st =>
    match fut_done f with
    | Some t =>
        if (t <=? clock st + timeout)%nat then
          (fut_value f, {| trace := trace st; clock := Nat.max (clock st) t |})
        else
          (Raises {| exn_kind := TimeoutError; exn_str := "" |},
           {| trace := trace st; clock := clock st + timeout |})
    | None =>
        (Raises {| exn_kind := TimeoutError; exn_str := "" |},
         {| trace := trace st; clock := clock st + timeout |})
    end.

(** Whether [f] is done no later than [g]; a future that is never done
    comes after every other. *)
Definition done_before (f g : future) : bool :=
  match fut_done f, fut_done g with
  | Some t, Some u => (t <=? u)%nat
  | Some _, None => true
  | None, Some _ => false
  | None, None => true
  end.

Fixpoint insert_by_done (f : future) (fs : list future) : list future :=
  match fs with
  | [] => [f]
  | g :: fs' =>
      if done_before f g then f :: g :: fs' else g :: insert_by_done f fs'
  end.

(** The order in which [as_completed(fs)], called without a timeout, hands
    out the futures: by completion time.  It hands out a future once it is
    done, so it waits for ever at the first one that never is. *)
Definition as_completed (fs : list future) : list future :=
  fold_right insert_by_done [] fs.

(** The coordinator waits until time [t]. *)
Definition wait_until (t : nat) : M unit :=
  fun st => (Returns tt, {| trace := trace st; clock := Nat.max (clock st) t |}).

Section Coordinator.
Variable w : World.
Variable self : PostManager.

(** The body of the [try] of [_post_to_single_platform]: the call of the
    platform's adapter. *)
Definition call_adapter (platform content original_idea : string)
    : M outcome :=
  if platform =? "twitter" then
    post_tweet w (twitter_poster self) content original_idea
  else if platform =? "linkedin" then
    post_to_linkedin w (linkedin_poster self) content original_idea
  else if platform =? "reddit" then
    let subreddits := get_suitable_subreddits (str_lower w) original_idea in
    let subreddit := match subreddits with
                     | s :: _ => s
                     | [] => "test"
                     end in
    post_to_reddit w (reddit_poster self) content original_idea subreddit
  else ret (Failure ("Unknown platform: " +++ platform)).

(** [PostManager._post_to_single_platform]. *)
Definition _post_to_single_platform (platform content original_idea : string)
    : M outcome :=
  try_except
    (call_adapter platform content original_idea)
    (fun e =>
       ret (Failure ("Error posting to " +++ platform +++ ": " +++ exn_str e))).

(** [executor.submit(self._post_to_single_platform, ...)].  The calls a
    task issues are recorded at its submission; the worker is done
    [latency] after it.  At most three tasks are submitted to the three
    workers (one per available platform), so none waits for a worker.
    A task is evaluated when it is submitted, one task after the other:
    the events of different tasks stand in the trace in the order of
    submission, which the threads of the source do not promise, and a
    worker that never comes back ([latency] is [None]) still has in the
    trace the events its task would issue.  Statements about the events
    of a task are therefore made for a worker that returns, and those
    about a whole fan-out for a run that returns. *)
Definition executor_submit (platform content original_idea : string)
    : M future :=
  fun st =>
    let (r, st') := _post_to_single_platform platform content original_idea st in
    (Returns {| fut_platform := platform;
                fut_done :=
                  match latency w (trace st) platform with
                  | Some d => Some (clock st + d)
                  | None => None
                  end;
                fut_value := r |},
     {| trace := trace st'; clock := clock st |}).

(** The first loop of [_post_to_platforms], over [posts.items()]. *)
Fixpoint submit_loop (original_idea : string)
    (items : list (string * option string))
    (results : dict outcome) (future_to_platform : list future)
    : M (dict outcome * list future) :=
  match items with
  | [] => ret (results, future_to_platform)
  | (platform, content) :: rest =>
      if truthy_opt content
         && dict_get_bool (available_platforms self) platform then
        future <- executor_submit platform
                    (match content with Some c => c | None => "" end)
                    original_idea ;;
        submit_loop original_idea rest results (future_to_platform ++ [future])
      else if negb (truthy_opt content) then
        submit_loop original_idea rest
          (dict_set results platform (Failure "No content generated"))
          future_to_platform
      else
        submit_loop original_idea rest
          (dict_set results platform (Failure "Platform not available"))
          future_to_platform
  end.

(** The second loop of [_post_to_platforms], over
    [as_completed(future_to_platform)]. *)
Fixpoint collect_loop (completed : list future) (results : dict outcome)
    : M (dict outcome) :=
  match completed with
  | [] => ret results
  | future :: rest =>
      match fut_done future with
      | None => block
      | Some t =>
          wait_until t ;;
          let platform := fut_platform future in
          result <-
            try_except (future_result 60 future)
              (fun e =>
                 ret (Failure ("Exception posting to " +++ platform
                               +++ ": " +++ exn_str e))) ;;
          collect_loop rest (dict_set results platform result)
      end
  end.

(** [PostManager._post_to_platforms]. *)
Definition _post_to_platforms (posts : dict (option string))
    (original_idea : string) : M (dict outcome) :=
  submitted <- submit_loop original_idea posts [] [] ;;
  collect_loop (as_completed (snd submitted)) (fst submitted).

(** [PostManager.process_idea]. *)
Definition process_idea (idea : string) : M aggregated :=
  try_except
    (posts <- generate_posts w idea ;;
     if negb (existsb truthy_opt (values posts)) then
       ret (Aborted "Failed to generate any posts")
     else
       results <- _post_to_platforms posts idea ;;
       let success_count := length (filter succeeded (values results)) in
       let total_platforms :=
         length (filter (fun item : string * bool => snd item)
                        (available_platforms self)) in
       ret (Posted (0 <? success_count)%nat results
                   {| successful_posts := success_count;
                      total_platforms := total_platforms;
                      summary_idea := idea |}))
    (fun e => ret (Aborted ("Error processing idea: " +++ exn_str e))).

(** The first loop of [retry_failed_posts]. *)
Definition failed_platforms_of (original_results : aggregated) : list string :=
  map fst (filter (fun item : string * outcome => negb (succeeded (snd item)))
                  (results_of original_results)).

(** [platform_posts.get(platform)]. *)
Definition get_post (platform_posts : dict (option string)) (platform : string)
    : option string :=
  match dict_get platform_posts platform with
  | Some content => content
  | None => None
  end.

(** The second loop of [retry_failed_posts], over [failed_platforms]. *)
Fixpoint regenerate_loop (idea : string) (failed_platforms : list string)
    (posts : dict (option string)) : M (dict (option string)) :=
  match failed_platforms with
  | [] => ret posts
  | platform :: rest =>
      if dict_get_bool (available_platforms self) platform then
        posts' <-
          try_except
            (platform_posts <- generate_posts w idea ;;
             ret (dict_set posts platform (get_post platform_posts platform)))
            (fun _ => ret posts) ;;
        regenerate_loop idea rest posts'
      else regenerate_loop idea rest posts
  end.

(** [PostManager.retry_failed_posts]. *)
Definition retry_failed_posts (original_results : aggregated) (idea : string)
    : M aggregated :=
  let failed_platforms := failed_platforms_of original_results in
  match failed_platforms with
  | [] => ret (NothingToRetry "No failed posts to retry")
  | _ :: _ =>
      posts <- regenerate_loop idea failed_platforms [] ;;
      retry_results <- _post_to_platforms posts idea ;;
      ret (Retried (existsb succeeded (values retry_results))
                   retry_results failed_platforms)
  end.
End Coordinator.

(* ------------------------------------------------------------------ *)
(** ** Observations on traces and results *)

(** The platforms whose adapter was invoked, one entry per invocation. *)
Fixpoint adapter_calls (tr : list event) : list string :=
  match tr with
  | [] => []
  | CallAdapter platform _ _ _ :: tr' => platform :: adapter_calls tr'
  | _ :: tr' => adapter_calls tr'
  end.

(** How many times [generate_posts] was invoked. *)
Fixpoint generator_calls (tr : list event) : nat :=
  match tr with
  | [] => 0
  | CallGeneratePosts _ :: tr' => S (generator_calls tr')
  | _ :: tr' => generator_calls tr'
  end.

(** Calls that are neither an adapter invocation nor [generate_posts]. *)
Definition quiet (ev : event) : bool :=
  match ev with
  | CallAdapter _ _ _ _ => false
  | CallGeneratePosts _ => false
  | _ => true
  end.

(** The test of the first branch of [_post_to_platforms]: the platform has
    content and is available, so a publish task is submitted for it. *)
Definition dispatched (self : PostManager) (item : string * option string)
    : bool :=
  truthy_opt (snd item)
  && dict_get_bool (available_platforms self) (fst item).

(** Every pool worker returns. *)
Definition responsive (w : World) : Prop :=
  forall tr platform, latency w tr platform <> None.

(** A computation that never blocks, leaves the clock alone and issues only
    quiet calls. *)
Definition steady {A : Type} (m : M A) : Prop :=
  forall st,
    fst (m st) <> Blocks /\
    clock (snd (m st)) = clock st /\
    exists evs, trace (snd (m st)) = trace st ++ evs /\ forallb quiet evs = true.

(** A computation that first issues the call [ev] and is steady after it. *)
Definition invokes {A : Type} (ev : event) (m : M A) : Prop :=
  forall st,
    fst (m st) <> Blocks /\
    clock (snd (m st)) = clock st /\
    exists evs,
      trace (snd (m st)) = trace st ++ ev :: evs /\ forallb quiet evs = true.

(** The platforms [_post_to_single_platform] has an adapter for. *)
Definition known_platform (platform : string) : bool :=
  (platform =? "twitter") || (platform =? "linkedin") || (platform =? "reddit").

(** A computation that always returns a value. *)
Definition total {A : Type} (m : M A) : Prop :=
  forall st, exists a, fst (m st) = Returns a.

(** The outcome [_post_to_platforms] writes for a platform it does not
    dispatch. *)
Definition synthetic_failure (content : option string) : outcome :=
  if negb (truthy_opt content) then Failure "No content generated"
  else Failure "Platform not available".

(** [results] after the first loop of [_post_to_platforms]. *)
Fixpoint synthetic_results (self : PostManager)
    (items : list (string * option string)) (results : dict outcome)
    : dict outcome :=
  match items with
  | [] => results
  | item :: rest =>
      synthetic_results self rest
        (if dispatched self item then results
         else dict_set results (fst item) (synthetic_failure (snd item)))
  end.

(** The outcome the second loop of [_post_to_platforms] writes for a
    completed future. *)
Definition outcome_of_future (f : future) : outcome :=
  match fut_value f with
  | Returns o => o
  | Raises e =>
      Failure ("Exception posting to " +++ fut_platform f +++ ": " +++ exn_str e)
  | Blocks => Failure ""
  end.

(** [results] after the second loop, run over futures that are all done. *)
Fixpoint collected_results (completed : list future) (results : dict outcome)
    : dict outcome :=
  match completed with
  | [] => results
  | f :: rest =>
      collected_results rest
        (dict_set results (fut_platform f) (outcome_of_future f))
  end.

(** [content] of a dictionary item known to hold text. *)
Definition text_of (content : option string) : string :=
  match content with
  | Some c => c
  | None => ""
  end.

(** What the first loop of [_post_to_platforms] leaves behind a future it
    submitted for one of [items]: an outcome returned by the dispatch
    boundary for that item, and the completion time the worker's latency
    gives. *)
Definition submitted_for (w : World) (self : PostManager) (idea : string)
    (items : list (string * option string)) (f : future) : Prop :=
  (exists o c stp,
     fut_value f = Returns o /\
     In (fut_platform f, c) items /\
     dispatched self (fut_platform f, c) = true /\
     fst (_post_to_single_platform w self (fut_platform f) (text_of c) idea stp)
     = Returns o) /\
  (exists tr t0,
     fut_done f = match latency w tr (fut_platform f) with
                  | Some d => Some (t0 + d)
                  | None => None
                  end).

(* ------------------------------------------------------------------ *)
(** ** llm_generator.py: the length limit of [_generate_single_post] *)

(** The last step of [_generate_single_post], applied to the stripped
    answer of the model:
    [if len(content) > max_length: content = content[:max_length - 3] + "..."]. *)
Definition limit_content (content : string) (max_length : nat) : string :=
  if (max_length <? len content)%nat
  then slice_to (max_length - 3) content +++ "..."
  else content.

(** The limit each of the three adapters passes to [truncate_content]. *)
Definition adapter_limit (platform : string) : nat :=
  if platform =? "twitter" then 280
  else if platform =? "linkedin" then 3000
  else 10000.

(* ------------------------------------------------------------------ *)
(** ** utils.py and post_manager.py: the Telegram messages *)

(** The line feed, written [\n] in the source. *)
Definition nl : string := String "010"%char EmptyString.

(** utils.py, [format_error_message]. *)
Definition format_error_message (error : string) : string :=
  "❌ **Error**: " +++ error +++ nl +++ nl
  +++ "Please try again or contact support.".

Section Messages.
(** Python's [str.title], applied to the platform names. *)
Variable str_title : string -> string.

(** One turn of the loop of [format_success_message] over
    [results.items()]. *)
Definition format_result (message : string) (item : string * outcome)
    : string :=
  let platform := fst item in
  let message :=
    match snd item with
    | Success fields =>
        let message :=
          message +++ "✅ **" +++ str_title platform
                  +++ "**: Posted successfully" +++ nl in
        match dict_get fields "url" with
        | Some url => message +++ "   🔗 " +++ url +++ nl
        | None => message
        end
    | Failure error =>
        let message :=
          message +++ "❌ **" +++ str_title platform +++ "**: Failed" +++ nl in
        message +++ "   Error: " +++ error +++ nl
    end in
  message +++ nl.

(** utils.py, [format_success_message]. *)
Definition format_success_message (results : dict outcome) : string :=
  fold_left format_result results
    ("🚀 **Posts Generated and Published!**" +++ nl +++ nl).

(** [PostManager.format_telegram_response].  Only the dictionary of a
    generation failure has an ["error"] item. *)
Definition format_telegram_response (results : aggregated) : string :=
  if negb (overall_success results) then
    format_error_message
      match results with
      | Aborted error => error
      | _ => "Unknown error"
      end
  else format_success_message (results_of results).
End Messages.

(* ------------------------------------------------------------------ *)
(** ** bot.py: what the handlers answer *)

(** [s[n:]]. *)
Definition slice_from (n : nat) (s : string) : string :=
  substring n (len s - n) s.

(** [s.startswith(p)]. *)
Definition startswith (s p : string) : bool := prefix p s.

Section Bot.
Variable w : World.
Variable self : PostManager.
Variable str_title : string -> string.

(** [SocialMediaBot.handle_message], from the call of [process_idea] on:
    the text and the [callback_data] of the retry button ([None]: no
    keyboard) that the handler passes to [processing_msg.edit_text]. *)
Definition handle_message (user_message : string)
    : M (string * option string) :=
  try_except
    (results <- process_idea w self user_message ;;
     let response_message := format_telegram_response str_title results in
     let keyboard :=
       if overall_success results then
         let failed_platforms :=
           map fst
             (filter (fun item : string * outcome => negb (succeeded (snd item)))
                     (results_of results)) in
         match failed_platforms with
         | [] => None
         | _ :: _ => Some ("retry:" +++ user_message)
         end
       else None in
     ret (response_message, keyboard))
    (fun e =>
       ret ("❌ **Error**: " +++ exn_str e +++ nl +++ nl
            +++ "Please try again or check `/status` for platform issues.",
            None)).

(** [SocialMediaBot.handle_callback], on the [callback_data] of the pressed
    button: the text of the last [query.edit_message_text], [None] when the
    handler edits nothing. *)
Definition handle_callback (data : string) : M (option string) :=
  if startswith data "retry:" then
    let original_idea := slice_from 6 data in
    try_except
      (results <- process_idea w self original_idea ;;
       let response_message := format_telegram_response str_title results in
       ret (Some ("🔄 **Retry Results:**" +++ nl +++ nl +++ response_message)))
      (fun e => ret (Some ("❌ **Retry Failed**: " +++ exn_str e)))
  else ret None.
End Bot.

(* ------------------------------------------------------------------ *)
(** ** Start-up: the constructors *)

(** config.py: the values [os.getenv] gave at import time. *)
Record Config : Type := {
  OPENROUTER_API_KEY : option string;
  TELEGRAM_BOT_TOKEN : option string;
  TWITTER_API_KEY : option string;
  TWITTER_API_SECRET : option string;
  TWITTER_ACCESS_TOKEN : option string;
  TWITTER_ACCESS_SECRET : option string;
  TWITTER_BEARER_TOKEN : option string;
  LINKEDIN_ACCESS_TOKEN : option string;
  REDDIT_CLIENT_ID : option string;
  REDDIT_SECRET : option string;
  REDDIT_USERNAME : option string;
  REDDIT_PASSWORD : option string
}.

(** What the outside world answers to the calls of the constructors.
    - [sqlite_init]: the SQLite statements of [init_database].
    - [tweepy_init]: [tweepy.Client(...)], [tweepy.OAuthHandler(...)] and
      [tweepy.API(...)].
    - [linkedin_me_id]: the GET of [/me] with [raise_for_status] and
      [user_data.get('id')].
    - [praw_init]: [praw.Reddit(...)] and the truth value of
      [reddit.user.me()]. *)
Record Startup : Type := {
  sqlite_init : reply unit;
  tweepy_init : reply unit;
  linkedin_me_id : reply (option string);
  praw_init : reply bool
}.

(** [all([...])] on a list of [Optional[str]]. *)
Definition all_truthy (l : list (option string)) : bool :=
  forallb truthy_opt l.

(** [TwitterPoster.__init__]. *)
Definition TwitterPoster_init (cfg : Config) (boot : Startup)
    : TwitterPoster :=
  if negb (all_truthy [TWITTER_API_KEY cfg; TWITTER_API_SECRET cfg;
                       TWITTER_ACCESS_TOKEN cfg; TWITTER_ACCESS_SECRET cfg])
  then {| client := false |}
  else
    match tweepy_init boot with
    | Reply _ => {| client := true |}
    | Throw _ => {| client := false |}
    end.

(** [LinkedInPoster._get_user_id]. *)
Definition _get_user_id (boot : Startup) : option string :=
  match linkedin_me_id boot with
  | Reply user_id => user_id
  | Throw _ => None
  end.

(** The attributes a [LinkedInPoster] has after [__init__];
    [attr_user_id = None]: the attribute [user_id] was never assigned. *)
Record LinkedInAttrs : Type := {
  attr_access_token : option string;
  attr_user_id : option (option string)
}.

(** [LinkedInPoster.__init__]. *)
Definition LinkedInPoster_init (cfg : Config) (boot : Startup)
    : LinkedInAttrs :=
  if negb (truthy_opt (LINKEDIN_ACCESS_TOKEN cfg))
  then {| attr_access_token := LINKEDIN_ACCESS_TOKEN cfg;
          attr_user_id := None |}
  else {| attr_access_token := LINKEDIN_ACCESS_TOKEN cfg;
          attr_user_id := Some (_get_user_id boot) |}.

(** [RedditPoster.__init__]. *)
Definition RedditPoster_init (cfg : Config) (boot : Startup)
    : RedditPoster :=
  if negb (all_truthy [REDDIT_CLIENT_ID cfg; REDDIT_SECRET cfg;
                       REDDIT_USERNAME cfg; REDDIT_PASSWORD cfg])
  then {| reddit := false |}
  else
    match praw_init boot with
    | Reply true => {| reddit := true |}
    | Reply false => {| reddit := false |}
    | Throw _ => {| reddit := false |}
    end.

(** [PostManager.__init__]: [init_database()], [LLMGenerator()], the three
    posters and [_check_platform_availability], which reads
    [linkedin_poster.user_id] when LinkedIn is enabled and the access token
    is not [None]. *)
Definition PostManager_init (cfg : Config) (boot : Startup)
    : result PostManager :=
  match sqlite_init boot with
  | Throw e => Raises e
  | Reply _ =>
      if negb (truthy_opt (OPENROUTER_API_KEY cfg)) then
        Raises {| exn_kind := OtherException;
                  exn_str := "OpenRouter API key not found. Please set OPENROUTER_API_KEY in your .env file" |}
      else
        let twitter := TwitterPoster_init cfg boot in
        let linkedin := LinkedInPoster_init cfg boot in
        let reddit := RedditPoster_init cfg boot in
        match attr_user_id linkedin with
        | Some user_id =>
            Returns {| twitter_poster := twitter;
                       linkedin_poster :=
                         {| access_token := attr_access_token linkedin;
                            user_id := user_id |};
                       reddit_poster := reddit |}
        | None =>
            if platform_enabled "linkedin"
               && is_not_None (attr_access_token linkedin)
            then
              Raises {| exn_kind := OtherException;
                        exn_str := "'LinkedInPoster' object has no attribute 'user_id'" |}
            else
              Returns {| twitter_poster := twitter;
                         linkedin_poster :=
                           {| access_token := attr_access_token linkedin;
                              user_id := None |};
                         reddit_poster := reddit |}
        end
  end.

(** utils.py, [validate_api_keys]. *)
Definition validate_api_keys (cfg : Config) : dict bool :=
  let validation : dict bool := [] in
  let validation :=
    dict_set validation "openrouter" (truthy_opt (OPENROUTER_API_KEY cfg)) in
  let validation :=
    dict_set validation "telegram" (truthy_opt (TELEGRAM_BOT_TOKEN cfg)) in
  let validation :=
    dict_set validation "twitter"
      (all_truthy [TWITTER_API_KEY cfg; TWITTER_API_SECRET cfg;
                   TWITTER_ACCESS_TOKEN cfg; TWITTER_ACCESS_SECRET cfg]) in
  let validation :=
    dict_set validation "linkedin" (truthy_opt (LINKEDIN_ACCESS_TOKEN cfg)) in
  let validation :=
    dict_set validation "reddit"
      (all_truthy [REDDIT_CLIENT_ID cfg; REDDIT_SECRET cfg;
                   REDDIT_USERNAME cfg; REDDIT_PASSWORD cfg]) in
  validation.

(** An item of the dictionary [get_platform_status] returns. *)
Record platform_status : Type := {
  status_enabled : bool;
  status_available : bool;
  status_configured : bool
}.

(** [PostManager.get_platform_status]. *)
Definition get_platform_status (cfg : Config) (self : PostManager)
    : dict platform_status :=
  fold_left
    (fun (status : dict platform_status) (platform : string) =>
       dict_set status platform
         {| status_enabled := platform_enabled platform;
            status_available :=
              dict_get_bool (available_platforms self) platform;
            status_configured :=
              if platform =? "twitter" then
                all_truthy [TWITTER_API_KEY cfg; TWITTER_API_SECRET cfg;
                            TWITTER_ACCESS_TOKEN cfg; TWITTER_ACCESS_SECRET cfg]
              else if platform =? "linkedin" then
                truthy_opt (LINKEDIN_ACCESS_TOKEN cfg)
              else if platform =? "reddit" then
                all_truthy [REDDIT_CLIENT_ID cfg; REDDIT_SECRET cfg;
                            REDDIT_USERNAME cfg; REDDIT_PASSWORD cfg]
              else false |})
    ["twitter"; "linkedin"; "reddit"] [].

(** bot.py, [status_command]: the text shown for a platform. *)
Definition status_text (status : platform_status) : string :=
  if status_enabled status && status_configured status
     && status_available status then "Ready"
  else if status_enabled status && status_configured status then
    "Configured but connection failed"
  else if status_enabled status then "Not configured"
  else "Disabled".

(** What the outside world answers to the connection tests.
    - [llm_status_code]: the status code of the POST to
      [/chat/completions].
    - [twitter_get_me]: the truth value of [client.get_me().data].
    - [linkedin_status_code]: the status code of the GET of [/me].
    - [reddit_user_me]: the truth value of [reddit.user.me()]. *)
Record Probes : Type := {
  llm_status_code : reply nat;
  twitter_get_me : reply bool;
  linkedin_status_code : reply nat;
  reddit_user_me : reply bool
}.

(** [LLMGenerator.test_connection]. *)
Definition LLMGenerator_test_connection (probes : Probes) : bool :=
  match llm_status_code probes with
  | Reply status_code => (status_code =? 200)%nat
  | Throw _ => false
  end.

(** [TwitterPoster.test_connection]. *)
Definition TwitterPoster_test_connection (probes : Probes)
    (self : TwitterPoster) : bool :=
  if negb (client self) then false
  else
    match twitter_get_me probes with
    | Reply data => data
    | Throw _ => false
    end.

(** [LinkedInPoster.test_connection]. *)
Definition LinkedInPoster_test_connection (probes : Probes)
    (self : LinkedInPoster) : bool :=
  if negb (truthy_opt (access_token self)) then false
  else
    match linkedin_status_code probes with
    | Reply status_code => (status_code =? 200)%nat
    | Throw _ => false
    end.

(** [RedditPoster.test_connection]. *)
Definition RedditPoster_test_connection (probes : Probes)
    (self : RedditPoster) : bool :=
  if negb (reddit self) then false
  else
    match reddit_user_me probes with
    | Reply user => user
    | Throw _ => false
    end.

(** [PostManager.test_all_connections]. *)
Definition test_all_connections (probes : Probes) (self : PostManager)
    : dict bool :=
  let results : dict bool := [] in
  let results :=
    dict_set results "llm" (LLMGenerator_test_connection probes) in
  let results :=
    dict_set results "twitter"
      (if client (twitter_poster self)
       then TwitterPoster_test_connection probes (twitter_poster self)
       else false) in
  let results :=
    dict_set results "linkedin"
      (if truthy_opt (access_token (linkedin_poster self))
       then LinkedInPoster_test_connection probes (linkedin_poster self)
       else false) in
  let results :=
    dict_set results "reddit"
      (if reddit (reddit_poster self)
       then RedditPoster_test_connection probes (reddit_poster self)
       else false) in
  results.

(* ------------------------------------------------------------------ *)
(** ** More observations on traces *)

(** The texts sent to the remote platforms, with their platform. *)
Fixpoint remote_calls (tr : list event) : list (string * string) :=
  match tr with
  | [] => []
  | CallRemote platform text :: tr' => (platform, text) :: remote_calls tr'
  | _ :: tr' => remote_calls tr'
  end.

(** The rows handed to the SQLite log: platform and status. *)
Fixpoint log_rows (tr : list event) : list (string * string) :=
  match tr with
  | [] => []
  | CallLogPost platform _ _ status :: tr' => (platform, status) :: log_rows tr'
  | _ :: tr' => log_rows tr'
  end.

(** The platforms of the requests made to the language model. *)
Fixpoint llm_requests (tr : list event) : list string :=
  match tr with
  | [] => []
  | CallGenerateSingle _ platform :: tr' => platform :: llm_requests tr'
  | _ :: tr' => llm_requests tr'
  end.

(** The test each adapter makes before it calls its platform:
    [self.client], [self.access_token and self.user_id], [self.reddit]. *)
Definition adapter_initialized (self : PostManager) (platform : string)
    : bool :=
  if platform =? "twitter" then client (twitter_poster self)
  else if platform =? "linkedin" then
    truthy_opt (access_token (linkedin_poster self))
    && truthy_opt (user_id (linkedin_poster self))
  else if platform =? "reddit" then reddit (reddit_poster self)
  else false.

(** The text an adapter sends to its platform: the content cut to the
    adapter's limit. *)
Definition sent_text (platform content : string) : string :=
  truncate_content content (adapter_limit platform) platform.

(** The call with which [_post_to_single_platform] enters the adapter of a
    platform. *)
Definition adapter_entry (w : World) (platform content idea : string)
    : event :=
  CallAdapter platform content idea
    (if platform =? "reddit"
     then Some (choose_subreddit (str_lower w) idea) else None).



(** The outcome of a Reddit publish task whose adapter left through the
    [except] clause that names [praw.exceptions.InvalidSubreddit]. *)
Definition reddit_handler_failure : outcome :=
  Failure ("Error posting to reddit: " +++ exn_str no_InvalidSubreddit).

(** Calls made to generate text. *)
Definition generation_call (ev : event) : bool :=
  match ev with
  | CallGeneratePosts _ => true
  | CallGenerateSingle _ _ => true
  | _ => false
  end.

(** A computation all of whose calls satisfy [P]. *)
Definition emits {A : Type} (P : event -> Prop) (m : M A) : Prop :=
  forall st,
    exists evs, trace (snd (m st)) = trace st ++ evs /\ Forall P evs.

(** A call that hands over a post fit for publishing: an adapter is given
    text, and a remote platform is sent text within the adapter's limit. *)
Definition publishable (ev : event) : Prop :=
  match ev with
  | CallAdapter _ content _ _ => content <> ""
  | CallRemote platform text =>
      text <> "" /\ len text <= adapter_limit platform
  | _ => True
  end.

(** The SQLite log accepts every row. *)
Definition log_works (w : World) : Prop :=
  forall tr platform content idea status,
    db_insert w tr platform content idea status = Reply tt.

(** What the generator stores for a platform: the text, or [None] when the
    request raised. *)
Definition generated (r : reply string) : option string :=
  match r with
  | Reply post_content => Some post_content
  | Throw _ => None
  end.

(** Case analysis on the answers of the outside world to the calls of an
    adapter, in the order the adapter makes them. *)
Ltac run_calls :=
  unfold log_failure, log_post, try_except, bind, emit, ask, ret;
  cbn [trace clock fst snd];
  repeat
    (match goal with
     | |- context [raise _] =>
         match goal with
         | |- context [match exn_kind ?e with _ => _ end] =>
             destruct (exn_kind e) eqn:?; unfold raise
         end
     | |- context [match db_insert ?w' ?tr ?p ?c ?i ?s with _ => _ end] =>
         destruct (db_insert w' tr p c i s) as [[]|?] eqn:?
     | |- context [match create_tweet ?w' ?tr ?c with _ => _ end] =>
         destruct (create_tweet w' tr c) as [[?|]|?] eqn:?
     | |- context [match ugc_posts ?w' ?tr ?c with _ => _ end] =>
         destruct (ugc_posts w' tr c) as [[?|]|?] eqn:?
     | |- context [match subreddit_submit ?w' ?tr ?n ?t ?c with _ => _ end] =>
         destruct (subreddit_submit w' tr n t c) as [[[? ?]|]|?] eqn:?
     | |- context [if truthy_opt (Some ?s) then _ else _] =>
         destruct (truthy_opt (Some s)) eqn:?
     | |- context [if truthy_opt None then _ else _] =>
         change (truthy_opt None) with false
     end; cbn [trace clock fst snd]);
  rewrite <- ?app_assoc; cbn [app].

(* ------------------------------------------------------------------ *)
(** ** Concrete worlds and managers used in the examples *)

Definition st0 : state := {| trace := []; clock := 0 |}.

Definition all_ready : PostManager :=
  {| twitter_poster := {| client := true |};
     linkedin_poster := {| access_token := Some "token"; user_id := Some "u1" |};
     reddit_poster := {| reddit := true |} |}.

Definition reddit_down : PostManager :=
  {| twitter_poster := {| client := true |};
     linkedin_poster := {| access_token := Some "token"; user_id := Some "u1" |};
     reddit_poster := {| reddit := false |} |}.

(** Every outside call answers at once and accepts. *)
Definition happy : World :=
  {| str_lower := ascii_lower;
     generate_single_post := fun _ idea platform =>
       Reply ("Post about " +++ idea +++ " for " +++ platform);
     create_tweet := fun _ _ => Reply (Some "1001");
     ugc_posts := fun _ _ => Reply (Some "urn:li:share:7");
     subreddit_submit := fun _ _ _ _ => Reply (Some ("abc", "/r/x/comments/abc"));
     db_insert := fun _ _ _ _ _ => Reply tt;
     latency := fun _ _ => Some 1 |}.

(** As [happy], but the generator fails for LinkedIn. *)
Definition no_linkedin_text : World :=
  {| str_lower := ascii_lower;
     generate_single_post := fun _ idea platform =>
       if platform =? "linkedin"
       then Throw {| exn_kind := OtherException;
                     exn_str := "Invalid response from LLM API" |}
       else Reply ("Post about " +++ idea);
     create_tweet := create_tweet happy;
     ugc_posts := ugc_posts happy;
     subreddit_submit := subreddit_submit happy;
     db_insert := db_insert happy;
     latency := latency happy |}.

(** As [happy], but the generator fails for every platform. *)
Definition no_text : World :=
  {| str_lower := ascii_lower;
     generate_single_post := fun _ _ _ =>
       Throw {| exn_kind := OtherException;
                exn_str := "Failed to generate content: connection refused" |};
     create_tweet := create_tweet happy;
     ugc_posts := ugc_posts happy;
     subreddit_submit := subreddit_submit happy;
     db_insert := db_insert happy;
     latency := latency happy |}.

(** As [happy], but every statement of the SQLite log fails. *)
Definition log_down : World :=
  {| str_lower := ascii_lower;
     generate_single_post := generate_single_post happy;
     create_tweet := create_tweet happy;
     ugc_posts := ugc_posts happy;
     subreddit_submit := subreddit_submit happy;
     db_insert := fun _ _ _ _ _ =>
       Throw {| exn_kind := OtherException; exn_str := "database is locked" |};
     latency := latency happy |}.

(** As [happy], but the SQLite log fails for the rows of Twitter. *)
Definition twitter_log_down : World :=
  {| str_lower := ascii_lower;
     generate_single_post := generate_single_post happy;
     create_tweet := create_tweet happy;
     ugc_posts := ugc_posts happy;
     subreddit_submit := subreddit_submit happy;
     db_insert := fun _ platform _ _ _ =>
       if platform =? "twitter"
       then Throw {| exn_kind := OtherException;
                     exn_str := "database is locked" |}
       else Reply tt;
     latency := latency happy |}.

(** As [happy], but the Twitter task needs 100 time units. *)
Definition slow_twitter : World :=
  {| str_lower := ascii_lower;
     generate_single_post := generate_single_post happy;
     create_tweet := create_tweet happy;
     ugc_posts := ugc_posts happy;
     subreddit_submit := subreddit_submit happy;
     db_insert := db_insert happy;
     latency := fun _ platform =>
       if platform =? "twitter" then Some 100 else Some 1 |}.

(** As [happy], but the Twitter task never returns. *)
Definition stuck_twitter : World :=
  {| str_lower := ascii_lower;
     generate_single_post := generate_single_post happy;
     create_tweet := create_tweet happy;
     ugc_posts := ugc_posts happy;
     subreddit_submit := subreddit_submit happy;
     db_insert := db_insert happy;
     latency := fun _ platform =>
       if platform =? "twitter" then None else Some 1 |}.

(** A first attempt in which Twitter succeeded and Reddit failed. *)
Definition twitter_ok_reddit_failed : aggregated :=
  Posted true
    [ ("twitter", Success [("tweet_id", "1001")]);
      ("reddit", Failure "Platform not available") ]
    {| successful_posts := 1; total_platforms := 2; summary_idea := "AI" |}.

(** A first attempt in which every platform succeeded. *)
Definition all_succeeded : aggregated :=
  Posted true
    [ ("twitter", Success [("tweet_id", "1001")]);
      ("linkedin", Success [("post_id", "urn:li:share:7")]) ]
    {| successful_posts := 2; total_platforms := 2; summary_idea := "AI" |}.

(** An environment in which every credential is set. *)
Definition full_env : Config :=
  {| OPENROUTER_API_KEY := Some "sk-or-v1";
     TELEGRAM_BOT_TOKEN := Some "123456:ABC";
     TWITTER_API_KEY := Some "key";
     TWITTER_API_SECRET := Some "secret";
     TWITTER_ACCESS_TOKEN := Some "token";
     TWITTER_ACCESS_SECRET := Some "token-secret";
     TWITTER_BEARER_TOKEN := Some "bearer";
     LINKEDIN_ACCESS_TOKEN := Some "token";
     REDDIT_CLIENT_ID := Some "id";
     REDDIT_SECRET := Some "secret";
     REDDIT_USERNAME := Some "user";
     REDDIT_PASSWORD := Some "password" |}.

(** As [full_env], but [LINKEDIN_ACCESS_TOKEN] is set to the empty string
    and no Reddit credential is set. *)
Definition blank_linkedin_env : Config :=
  {| OPENROUTER_API_KEY := Some "sk-or-v1";
     TELEGRAM_BOT_TOKEN := Some "123456:ABC";
     TWITTER_API_KEY := Some "key";
     TWITTER_API_SECRET := Some "secret";
     TWITTER_ACCESS_TOKEN := Some "token";
     TWITTER_ACCESS_SECRET := Some "token-secret";
     TWITTER_BEARER_TOKEN := Some "bearer";
     LINKEDIN_ACCESS_TOKEN := Some "";
     REDDIT_CLIENT_ID := None;
     REDDIT_SECRET := None;
     REDDIT_USERNAME := None;
     REDDIT_PASSWORD := None |}.

(** Every call of the constructors succeeds. *)
Definition startup_ok : Startup :=
  {| sqlite_init := Reply tt;
     tweepy_init := Reply tt;
     linkedin_me_id := Reply (Some "u1");
     praw_init := Reply true |}.

(** As [startup_ok], but the request for the LinkedIn profile fails. *)
Definition startup_linkedin_down : Startup :=
  {| sqlite_init := Reply tt;
     tweepy_init := Reply tt;
     linkedin_me_id :=
       Throw {| exn_kind := RequestException; exn_str := "timed out" |};
     praw_init := Reply true |}.

(** Every connection test succeeds. *)
Definition probes_ok : Probes :=
  {| llm_status_code := Reply 200;
     twitter_get_me := Reply true;
     linkedin_status_code := Reply 200;
     reddit_user_me := Reply true |}.

(** A manager none of whose posters could be initialised. *)
Definition none_ready : PostManager :=
  {| twitter_poster := {| client := false |};
     linkedin_poster := {| access_token := None; user_id := None |};
     reddit_poster := {| reddit := false |} |}.

(* ------------------------------------------------------------------ *)
(** * Properties *)

(** ** Dictionaries *)

Section DictFacts.
Context {V : Type}.
Implicit Types (d : dict V) (k : string) (v : V).

Lemma dict_get_set_eq d k v : dict_get (dict_set d k v) k = Some v.
Proof.
  induction d as [|[k' v'] d IH]; simpl.
  - now rewrite String.eqb_refl.
  - destruct (k' =? k) eqn:E; simpl; rewrite E; auto.
Qed.

Lemma dict_get_set_neq d k k' v :
  k <> k' -> dict_get (dict_set d k v) k' = dict_get d k'.
Proof.
  intros Hne. induction d as [|[k0 v0] d IH]; simpl.
  - apply String.eqb_neq in Hne. now rewrite Hne.
  - destruct (k0 =? k) eqn:E; simpl.
    + apply String.eqb_eq in E. subst k0.
      apply String.eqb_neq in Hne. now rewrite Hne.
    + destruct (k0 =? k'); auto.
Qed.

Lemma keys_dict_set d k v x :
  In x (keys (dict_set d k v)) <-> x = k \/ In x (keys d).
Proof.
  unfold keys. induction d as [|[k0 v0] d IH]; simpl.
  - intuition.
  - destruct (k0 =? k) eqn:E; simpl.
    + apply String.eqb_eq in E. subst k0. intuition.
    + rewrite IH. intuition.
Qed.

Lemma NoDup_keys_dict_set d k v :
  NoDup (keys d) -> NoDup (keys (dict_set d k v)).
Proof.
  unfold keys. induction d as [|[k0 v0] d IH]; simpl; intros Hnd.
  - constructor; [intros [] | constructor].
  - inversion Hnd as [|? ? Hnotin Hnd']; subst.
    destruct (k0 =? k) eqn:E; simpl.
    + constructor; assumption.
    + constructor; [|auto].
      intros Hin. apply (keys_dict_set d k v k0) in Hin.
      destruct Hin as [->|Hin]; [|contradiction].
      now rewrite String.eqb_refl in E.
Qed.

Lemma dict_get_None d k : dict_get d k = None <-> ~ In k (keys d).
Proof.
  unfold keys. induction d as [|[k0 v0] d IH]; simpl.
  - intuition.
  - destruct (k0 =? k) eqn:E.
    + apply String.eqb_eq in E. split; [discriminate | intuition].
    + apply String.eqb_neq in E. rewrite IH. intuition.
Qed.

Lemma dict_get_In d k v :
  NoDup (keys d) -> In (k, v) d -> dict_get d k = Some v.
Proof.
  unfold keys. induction d as [|[k0 v0] d IH]; simpl; intros Hnd Hin.
  - contradiction.
  - inversion Hnd as [|? ? Hnotin Hnd']; subst.
    destruct Hin as [Heq|Hin].
    + inversion Heq; subst. now rewrite String.eqb_refl.
    + destruct (k0 =? k) eqn:E; [|auto].
      apply String.eqb_eq in E. subst k0.
      exfalso. apply Hnotin. apply (in_map fst) in Hin. exact Hin.
Qed.

Lemma dict_get_Some_In d k v : dict_get d k = Some v -> In (k, v) d.
Proof.
  induction d as [|[k0 v0] d IH]; simpl; [discriminate|].
  destruct (k0 =? k) eqn:E.
  - apply String.eqb_eq in E. intros [= ->]. subst. now left.
  - intros H. right. auto.
Qed.
End DictFacts.

(** ** Traces *)

Lemma adapter_calls_app tr1 tr2 :
  adapter_calls (tr1 ++ tr2) = adapter_calls tr1 ++ adapter_calls tr2.
Proof.
  induction tr1 as [|ev tr1 IH]; simpl; [reflexivity|].
  destruct ev; simpl; now rewrite ?IH.
Qed.

Lemma generator_calls_app tr1 tr2 :
  generator_calls (tr1 ++ tr2) = generator_calls tr1 + generator_calls tr2.
Proof.
  induction tr1 as [|ev tr1 IH]; simpl; [reflexivity|].
  destruct ev; simpl; now rewrite ?IH.
Qed.

Lemma quiet_adapter_calls evs :
  forallb quiet evs = true -> adapter_calls evs = [].
Proof.
  induction evs as [|ev evs IH]; simpl; [reflexivity|].
  destruct ev; simpl; intros H; try discriminate; auto.
Qed.

Lemma quiet_generator_calls evs :
  forallb quiet evs = true -> generator_calls evs = 0.
Proof.
  induction evs as [|ev evs IH]; simpl; [reflexivity|].
  destruct ev; simpl; intros H; try discriminate; auto.
Qed.

(** ** The monad: rules for [steady] and [total] *)

Section MonadRules.
Context {A B : Type}.

Lemma steady_ret (a : A) : steady (ret a).
Proof.
  intros st; simpl. repeat split; [discriminate|].
  exists []. now rewrite app_nil_r.
Qed.

Lemma steady_emit (ev : event) : quiet ev = true -> steady (emit ev).
Proof.
  intros Hq st; simpl. repeat split; [discriminate|].
  exists [ev]. simpl. now rewrite Hq.
Qed.

Lemma steady_raise (e : exn) : steady (@raise A e).
Proof.
  intros st. unfold raise. simpl. repeat split; [discriminate|].
  exists []. now rewrite app_nil_r.
Qed.

Lemma steady_ask (oracle : list event -> reply A) : steady (ask oracle).
Proof.
  intros st. unfold ask.
  destruct (oracle (trace st)); simpl; (repeat split; [discriminate|]);
    exists []; now rewrite app_nil_r.
Qed.

Lemma steady_bind (m : M A) (f : A -> M B) :
  steady m -> (forall a, steady (f a)) -> steady (bind m f).
Proof.
  intros Hm Hf st. unfold bind.
  destruct (Hm st) as (Hnb & Hclk & evs & Htr & Hq).
  destruct (m st) as [[a|e|] st1]; simpl in *.
  - destruct (Hf a st1) as (Hnb' & Hclk' & evs' & Htr' & Hq').
    repeat split; [assumption | congruence |].
    exists (evs ++ evs'). rewrite Htr', Htr, app_assoc, forallb_app, Hq, Hq'.
    auto.
  - repeat split; [discriminate | assumption |]. exists evs. auto.
  - now contradiction Hnb.
Qed.

Lemma steady_try (m : M A) (h : exn -> M A) :
  steady m -> (forall e, steady (h e)) -> steady (try_except m h).
Proof.
  intros Hm Hh st. unfold try_except.
  destruct (Hm st) as (Hnb & Hclk & evs & Htr & Hq).
  destruct (m st) as [[a|e|] st1]; simpl in *.
  - repeat split; [discriminate | assumption |]. exists evs. auto.
  - destruct (Hh e st1) as (Hnb' & Hclk' & evs' & Htr' & Hq').
    repeat split; [assumption | congruence |].
    exists (evs ++ evs'). rewrite Htr', Htr, app_assoc, forallb_app, Hq, Hq'.
    auto.
  - now contradiction Hnb.
Qed.

(** A [try] whose handler returns a value always returns one, provided
    its body cannot block. *)
Lemma total_try (m : M A) (h : exn -> A) :
  (forall st, fst (m st) <> Blocks) ->
  total (try_except m (fun e => ret (h e))).
Proof.
  intros Hm st. unfold try_except. specialize (Hm st).
  destruct (m st) as [[a|e|] st1]; simpl in *; eauto.
  now contradiction Hm.
Qed.
(** Such a [try] never raises. *)
Lemma try_never_raises (m : M A) (h : exn -> A) st e :
  fst (try_except m (fun e => ret (h e)) st) <> Raises e.
Proof.
  unfold try_except. destruct (m st) as [[a|e'|] st1]; simpl; discriminate.
Qed.
End MonadRules.

Create HintDb steady.
#[local] Hint Resolve steady_ret steady_emit steady_ask : steady.

Lemma invokes_emit {A : Type} (ev : event) (body : M A) :
  steady body -> invokes ev (emit ev ;; body).
Proof.
  intros Hb st. unfold bind, emit.
  destruct (Hb {| trace := trace st ++ [ev]; clock := clock st |})
    as (Hnb & Hclk & evs & Htr & Hq).
  simpl in *. repeat split; [assumption | assumption |].
  exists evs. rewrite Htr, <- app_assoc. auto.
Qed.

Lemma invokes_try {A : Type} (ev : event) (m : M A) (h : exn -> M A) :
  invokes ev m -> (forall e, steady (h e)) -> invokes ev (try_except m h).
Proof.
  intros Hm Hh st. unfold try_except.
  destruct (Hm st) as (Hnb & Hclk & evs & Htr & Hq).
  destruct (m st) as [[a|e|] st1]; simpl in *.
  - repeat split; [discriminate | assumption |]. exists evs. auto.
  - destruct (Hh e st1) as (Hnb' & Hclk' & evs' & Htr' & Hq').
    repeat split; [assumption | congruence |].
    exists (evs ++ evs').
    rewrite Htr', Htr, <- app_assoc, forallb_app, Hq, Hq'. auto.
  - now contradiction Hnb.
Qed.

(** ** The adapters *)

Section AdapterFacts.
Variable w : World.

Lemma steady_log_post platform content idea status :
  steady (log_post w platform content idea status).
Proof.
  unfold log_post. apply steady_bind; [now apply steady_emit | intros _].
  apply steady_ask.
Qed.

Lemma steady_log_failure platform content idea msg :
  steady (log_failure w platform content idea msg).
Proof.
  unfold log_failure. apply steady_bind; [apply steady_log_post | intros _].
  apply steady_ret.
Qed.

Lemma invokes_post_tweet tp content idea :
  invokes (CallAdapter "twitter" content idea None)
          (post_tweet w tp content idea).
Proof.
  unfold post_tweet. apply invokes_emit.
  destruct (negb (client tp)); [apply steady_log_failure|].
  apply steady_try; [|intros e; apply steady_log_failure].
  apply steady_bind; [now apply steady_emit | intros _].
  apply steady_bind; [apply steady_ask | intros [tweet_id|]].
  - apply steady_bind; [apply steady_log_post | intros _; apply steady_ret].
  - apply steady_log_failure.
Qed.

Lemma invokes_post_to_linkedin lp content idea :
  invokes (CallAdapter "linkedin" content idea None)
          (post_to_linkedin w lp content idea).
Proof.
  unfold post_to_linkedin. apply invokes_emit.
  destruct (negb (truthy_opt (access_token lp))
            || negb (truthy_opt (user_id lp))); [apply steady_log_failure|].
  apply steady_try; [|intros e; apply steady_log_failure].
  apply steady_bind; [now apply steady_emit | intros _].
  apply steady_bind; [apply steady_ask | intros post_id].
  destruct (truthy_opt post_id).
  - apply steady_bind; [apply steady_log_post | intros _; apply steady_ret].
  - apply steady_log_failure.
Qed.

Lemma invokes_post_to_reddit rp content idea subreddit :
  invokes (CallAdapter "reddit" content idea (Some subreddit))
          (post_to_reddit w rp content idea subreddit).
Proof.
  unfold post_to_reddit. apply invokes_emit.
  destruct (negb (reddit rp)); [apply steady_log_failure|].
  apply steady_try;
    [|intros e; destruct (exn_kind e);
      first [apply steady_log_failure | apply steady_raise]].
  apply steady_bind; [now apply steady_emit | intros _].
  apply steady_bind; [apply steady_ask | intros [[sid permalink]|]].
  - apply steady_bind; [apply steady_log_post | intros _; apply steady_ret].
  - apply steady_log_failure.
Qed.
End AdapterFacts.

(** ** The dispatch boundary *)

Section DispatchFacts.
Variable w : World.
Variable self : PostManager.

(** The event with which the adapter of a known platform is entered. *)
Lemma single_invokes platform content idea :
  known_platform platform = true ->
  invokes
    (CallAdapter platform content idea
       (if platform =? "reddit"
        then Some (choose_subreddit (str_lower w) idea) else None))
    (_post_to_single_platform w self platform content idea).
Proof.
  unfold known_platform, _post_to_single_platform, call_adapter. intros Hk.
  apply invokes_try; [|intros e; apply steady_ret].
  destruct (platform =? "twitter") eqn:Et.
  { apply String.eqb_eq in Et. subst. apply invokes_post_tweet. }
  destruct (platform =? "linkedin") eqn:El.
  { apply String.eqb_eq in El. subst. apply invokes_post_to_linkedin. }
  destruct (platform =? "reddit") eqn:Er; [|discriminate].
  apply String.eqb_eq in Er. subst. apply invokes_post_to_reddit.
Qed.

Lemma single_unknown platform content idea st :
  known_platform platform = false ->
  _post_to_single_platform w self platform content idea st
  = (Returns (Failure ("Unknown platform: " +++ platform)), st).
Proof.
  unfold known_platform, _post_to_single_platform, call_adapter, try_except.
  intros Hk.
  destruct (platform =? "twitter"); [discriminate|].
  destruct (platform =? "linkedin"); [discriminate|].
  destruct (platform =? "reddit"); [discriminate|]. reflexivity.
Qed.

(** The dispatch boundary never blocks. *)
Lemma single_not_blocked platform content idea st :
  fst (_post_to_single_platform w self platform content idea st) <> Blocks.
Proof.
  destruct (known_platform platform) eqn:Hk.
  - apply (single_invokes platform content idea Hk st).
  - rewrite single_unknown by assumption. discriminate.
Qed.

(** The dispatch boundary always returns an outcome: whatever the adapter
    raises is turned into a [Failure]. *)
Lemma single_total platform content idea :
  total (_post_to_single_platform w self platform content idea).
Proof.
  intros st.
  pose proof (single_not_blocked platform content idea st) as Hnb.
  assert (Hnr : forall e,
    fst (_post_to_single_platform w self platform content idea st)
    <> Raises e).
  { intros e. unfold _post_to_single_platform. apply try_never_raises. }
  destruct (fst (_post_to_single_platform w self platform content idea st))
    as [a|e|]; [eauto | now contradiction (Hnr e) | now contradiction Hnb].
Qed.

(** What a publish task adds to the trace: exactly one adapter invocation
    for a known platform, none otherwise, and no generator call. *)
Lemma single_effects platform content idea st :
  clock (snd (_post_to_single_platform w self platform content idea st))
  = clock st /\
  exists evs,
    trace (snd (_post_to_single_platform w self platform content idea st))
    = trace st ++ evs /\
    adapter_calls evs = (if known_platform platform then [platform] else []) /\
    generator_calls evs = 0.
Proof.
  destruct (known_platform platform) eqn:Hk.
  - destruct (single_invokes platform content idea Hk st)
      as (_ & Hclk & evs & Htr & Hq).
    split; [assumption|].
    eexists. split; [eassumption|]. simpl.
    rewrite quiet_adapter_calls, quiet_generator_calls by assumption. auto.
  - rewrite single_unknown by assumption. simpl. split; [reflexivity|].
    exists []. now rewrite app_nil_r.
Qed.
End DispatchFacts.

(** ** The two loops of the fan-out, as pure functions *)

Section FanOutTables.
Variable self : PostManager.
Implicit Types (items : list (string * option string)) (results : dict outcome).

Lemma synthetic_keys items results p :
  In p (keys (synthetic_results self items results)) <->
  In p (keys results) \/
  exists c, In (p, c) items /\ dispatched self (p, c) = false.
Proof.
  revert results. induction items as [|[q c] items IH]; intros results; simpl.
  - split; [auto | intros [H|(c & [] & _)]; exact H].
  - rewrite IH. destruct (dispatched self (q, c)) eqn:Hd; simpl.
    + split.
      * intros [H|(c' & Hin & Hnd)]; [auto | right; eauto].
      * intros [H|(c' & [Heq|Hin] & Hnd)]; [auto | | right; eauto].
        inversion Heq; subst. congruence.
    + rewrite keys_dict_set. split.
      * intros [[->|H]|(c' & Hin & Hnd)]; [right; eauto | auto | right; eauto].
      * intros [H|(c' & [Heq|Hin] & Hnd)]; [auto | | right; eauto].
        inversion Heq; subst. auto.
Qed.

Lemma synthetic_NoDup items results :
  NoDup (keys results) -> NoDup (keys (synthetic_results self items results)).
Proof.
  revert results. induction items as [|item items IH]; intros results Hnd; simpl.
  - assumption.
  - apply IH. destruct (dispatched self item); [assumption|].
    now apply NoDup_keys_dict_set.
Qed.

Lemma synthetic_get_other items results p :
  (forall c, In (p, c) items -> dispatched self (p, c) = true) ->
  dict_get (synthetic_results self items results) p = dict_get results p.
Proof.
  revert results. induction items as [|[q c] items IH]; intros results Hall; simpl.
  - reflexivity.
  - rewrite IH by (intros c' Hin; apply Hall; now right).
    destruct (dispatched self (q, c)) eqn:Hd; [reflexivity|].
    simpl. apply dict_get_set_neq. intros ->.
    rewrite (Hall c) in Hd by now left. discriminate.
Qed.

Lemma synthetic_get items results p c :
  NoDup (keys items) -> In (p, c) items -> dispatched self (p, c) = false ->
  dict_get (synthetic_results self items results) p
  = Some (synthetic_failure c).
Proof.
  revert results. induction items as [|[q c'] items IH];
    intros results Hnd Hin Hd; simpl in *.
  - contradiction.
  - inversion Hnd as [|? ? Hnotin Hnd']; subst.
    destruct Hin as [Heq|Hin].
    + inversion Heq; subst. rewrite Hd. simpl.
      rewrite synthetic_get_other.
      * apply dict_get_set_eq.
      * intros c0 Hin0. exfalso. apply Hnotin.
        apply (in_map fst) in Hin0. exact Hin0.
    + now apply IH.
Qed.
End FanOutTables.

Section CollectedTables.
Implicit Types (fs : list future) (results : dict outcome).

Lemma collected_keys fs results p :
  In p (keys (collected_results fs results)) <->
  In p (keys results) \/ In p (map fut_platform fs).
Proof.
  revert results. induction fs as [|f fs IH]; intros results; simpl.
  - intuition.
  - rewrite IH, keys_dict_set. intuition.
Qed.

Lemma collected_NoDup fs results :
  NoDup (keys results) -> NoDup (keys (collected_results fs results)).
Proof.
  revert results. induction fs as [|f fs IH]; intros results Hnd; simpl.
  - assumption.
  - apply IH. now apply NoDup_keys_dict_set.
Qed.

Lemma collected_get_other fs results p :
  ~ In p (map fut_platform fs) ->
  dict_get (collected_results fs results) p = dict_get results p.
Proof.
  revert results. induction fs as [|f fs IH]; intros results Hnotin; simpl in *.
  - reflexivity.
  - rewrite IH by tauto. apply dict_get_set_neq. intros Heq. tauto.
Qed.

Lemma collected_get fs results f :
  NoDup (map fut_platform fs) -> In f fs ->
  dict_get (collected_results fs results) (fut_platform f)
  = Some (outcome_of_future f).
Proof.
  revert results. induction fs as [|g fs IH]; intros results Hnd Hin; simpl in *.
  - contradiction.
  - inversion Hnd as [|? ? Hnotin Hnd']; subst.
    destruct Hin as [->|Hin].
    + rewrite collected_get_other by assumption. apply dict_get_set_eq.
    + now apply IH.
Qed.

Lemma insert_by_done_perm f fs : Permutation (insert_by_done f fs) (f :: fs).
Proof.
  induction fs as [|g fs IH]; simpl.
  - apply Permutation_refl.
  - destruct (done_before f g).
    + apply Permutation_refl.
    + eapply Permutation_trans; [apply perm_skip, IH | apply perm_swap].
Qed.

(** [as_completed] hands out every future it is given, once. *)
Lemma as_completed_perm fs : Permutation (as_completed fs) fs.
Proof.
  induction fs as [|f fs IH]; simpl.
  - apply Permutation_refl.
  - eapply Permutation_trans; [apply insert_by_done_perm|].
    now apply perm_skip.
Qed.
End CollectedTables.

(** ** The fan-out *)

Lemma available_platforms_shape self :
  exists b1 b2 b3,
    available_platforms self
    = [("twitter", b1); ("linkedin", b2); ("reddit", b3)].
Proof.
  unfold available_platforms, _check_platform_availability. simpl.
  eauto.
Qed.

(** Only Twitter, LinkedIn and Reddit can be available. *)
Lemma available_known self platform :
  dict_get_bool (available_platforms self) platform = true ->
  known_platform platform = true.
Proof.
  destruct (available_platforms_shape self) as (b1 & b2 & b3 & ->).
  unfold dict_get_bool, known_platform. cbn [dict_get].
  rewrite (String.eqb_sym platform "twitter"),
          (String.eqb_sym platform "linkedin"),
          (String.eqb_sym platform "reddit").
  destruct ("twitter" =? platform); [reflexivity|].
  destruct ("linkedin" =? platform); [reflexivity|].
  destruct ("reddit" =? platform); [reflexivity | discriminate].
Qed.

Lemma dispatched_known self item :
  dispatched self item = true -> known_platform (fst item) = true.
Proof.
  unfold dispatched. intros H. apply andb_prop in H.
  now apply (available_known self).
Qed.

Section FanOutFacts.
Variable w : World.
Variable self : PostManager.
Variable idea : string.

Lemma submitted_for_weaken item items f :
  submitted_for w self idea items f ->
  submitted_for w self idea (item :: items) f.
Proof.
  intros [(o & c & stp & Hv & Hin & Hd & Hrun) Hdone]. split; [|assumption].
  exists o, c, stp. repeat split; auto. now right.
Qed.

Lemma submit_loop_run items :
  forall results futs st,
  exists new st',
    submit_loop w self idea items results futs st
    = (Returns (synthetic_results self items results, futs ++ new), st') /\
    clock st' = clock st /\
    map fut_platform new = map fst (filter (dispatched self) items) /\
    (exists evs,
       trace st' = trace st ++ evs /\
       adapter_calls evs = map fst (filter (dispatched self) items) /\
       generator_calls evs = 0) /\
    Forall (submitted_for w self idea items) new.
Proof.
  induction items as [|[p c] items IH]; intros results futs st.
  - exists [], st. simpl. rewrite app_nil_r.
    repeat split; auto. exists []. now rewrite app_nil_r.
  - cbn [submit_loop synthetic_results filter].
    change (truthy_opt c && dict_get_bool (available_platforms self) p)
      with (dispatched self (p, c)).
    destruct (dispatched self (p, c)) eqn:Hd.
    + (* a task is submitted *)
      pose proof (dispatched_known self (p, c) Hd) as Hk. simpl in Hk.
      destruct (single_total w self p (text_of c) idea st) as [o Ho].
      destruct (single_effects w self p (text_of c) idea st)
        as (Hclk & evs & Htr & Hac & Hgc).
      rewrite Hk in Hac.
      unfold bind at 1. unfold executor_submit at 1.
      change (match c with Some c0 => c0 | None => "" end) with (text_of c).
      destruct (_post_to_single_platform w self p (text_of c) idea st)
        as [r st1] eqn:Hrun.
      simpl in Ho, Hclk, Htr. subst r.
      set (fut := {| fut_platform := p;
                     fut_done := match latency w (trace st) p with
                                 | Some d => Some (clock st + d)
                                 | None => None
                                 end;
                     fut_value := Returns o |}).
      destruct (IH results (futs ++ [fut])
                   {| trace := trace st1; clock := clock st |})
        as (new & st' & Hloop & Hclk' & Hplat & (evs' & Htr' & Hac' & Hgc') & Hall).
      exists (fut :: new), st'.
      rewrite Hloop, <- app_assoc. simpl in *.
      repeat split; auto.
      * now rewrite Hplat.
      * exists (evs ++ evs'). rewrite Htr', Htr, app_assoc.
        rewrite adapter_calls_app, generator_calls_app, Hac, Hac', Hgc, Hgc'.
        auto.
      * constructor.
        -- split.
           ++ exists o, c, st. simpl. rewrite Hrun. repeat split; auto.
           ++ exists (trace st), (clock st). reflexivity.
        -- eapply Forall_impl; [|exact Hall].
           intros f. apply submitted_for_weaken.
    + (* a synthetic failure is recorded *)
      assert (Hsyn :
        (if negb (truthy_opt c)
         then submit_loop w self idea items
                (dict_set results p (Failure "No content generated")) futs
         else submit_loop w self idea items
                (dict_set results p (Failure "Platform not available")) futs)
        = submit_loop w self idea items
            (dict_set results p (synthetic_failure c)) futs).
      { unfold synthetic_failure. now destruct (negb (truthy_opt c)). }
      rewrite Hsyn. simpl fst. simpl snd.
      destruct (IH (dict_set results p (synthetic_failure c)) futs st)
        as (new & st' & Hloop & Hclk' & Hplat & Hev & Hall).
      exists new, st'. repeat split; auto.
      eapply Forall_impl; [|exact Hall].
      intros f. apply submitted_for_weaken.
Qed.

Lemma collect_step f rest results st t :
  fut_done f = Some t -> fut_value f <> Blocks ->
  collect_loop (f :: rest) results st
  = collect_loop rest
      (dict_set results (fut_platform f) (outcome_of_future f))
      {| trace := trace st; clock := Nat.max (clock st) t |}.
Proof.
  intros Hdone Hv. cbn [collect_loop]. rewrite Hdone.
  unfold bind, wait_until, try_except, future_result, outcome_of_future.
  cbn [trace clock]. rewrite Hdone.
  assert (Hle : (t <=? Nat.max (clock st) t + 60)%nat = true)
    by (apply Nat.leb_le; lia).
  rewrite Hle.
  replace (Nat.max (Nat.max (clock st) t) t) with (Nat.max (clock st) t) by lia.
  destruct (fut_value f) as [o|e|]; [reflexivity | reflexivity |].
  now contradiction Hv.
Qed.

(** The second loop issues no call and never raises. *)
Lemma collect_loop_quiet completed :
  forall results st,
    trace (snd (collect_loop completed results st)) = trace st /\
    forall e, fst (collect_loop completed results st) <> Raises e.
Proof.
  induction completed as [|f rest IH]; intros results st.
  - simpl. split; [reflexivity | discriminate].
  - destruct (fut_done f) as [t|] eqn:Hdone.
    + destruct (fut_value f) as [o|e|] eqn:Hv.
      * rewrite (collect_step f rest results st t Hdone) by congruence.
        apply (IH _ {| trace := trace st; clock := Nat.max (clock st) t |}).
      * rewrite (collect_step f rest results st t Hdone) by congruence.
        apply (IH _ {| trace := trace st; clock := Nat.max (clock st) t |}).
      * cbn [collect_loop]. rewrite Hdone.
        unfold bind, wait_until, try_except, future_result.
        cbn [trace clock]. rewrite Hdone, Hv.
        assert (Hle : (t <=? Nat.max (clock st) t + 60)%nat = true)
          by (apply Nat.leb_le; lia).
        rewrite Hle. simpl. split; [reflexivity | discriminate].
    + cbn [collect_loop]. rewrite Hdone. unfold block. simpl.
      split; [reflexivity | discriminate].
Qed.

(** When every future is done and holds a value or an exception, the
    second loop returns the table [collected_results]. *)
Lemma collect_loop_returns completed :
  forall results st,
    Forall (fun f => fut_done f <> None /\ fut_value f <> Blocks) completed ->
    exists st',
      collect_loop completed results st
      = (Returns (collected_results completed results), st').
Proof.
  induction completed as [|f rest IH]; intros results st Hall.
  - exists st. reflexivity.
  - inversion Hall as [|? ? [Hdone Hv] Hrest]; subst.
    destruct (fut_done f) as [t|] eqn:Ht; [|congruence].
    rewrite (collect_step f rest results st t Ht Hv). simpl.
    apply IH. assumption.
Qed.

(** A value the second loop returns is the table [collected_results]. *)
Lemma collect_loop_result completed :
  forall results st r st',
    Forall (fun f => fut_value f <> Blocks) completed ->
    collect_loop completed results st = (Returns r, st') ->
    r = collected_results completed results.
Proof.
  induction completed as [|f rest IH]; intros results st r st' Hall Hrun.
  - unfold collect_loop, ret in Hrun. simpl. congruence.
  - inversion Hall as [|? ? Hv Hrest]; subst.
    destruct (fut_done f) as [t|] eqn:Hdone.
    + rewrite (collect_step f rest results st t Hdone Hv) in Hrun.
      simpl. eapply IH; eassumption.
    + cbn [collect_loop] in Hrun. rewrite Hdone in Hrun.
      unfold block in Hrun. discriminate.
Qed.

(** The second loop waits for ever when one of the futures is never done. *)
Lemma collect_loop_blocks completed :
  forall results st,
    (exists f, In f completed /\ fut_done f = None) ->
    fst (collect_loop completed results st) = Blocks.
Proof.
  induction completed as [|g rest IH]; intros results st (f & Hin & Hnone).
  - contradiction.
  - destruct (fut_done g) as [t|] eqn:Hdone.
    + destruct Hin as [->|Hin]; [congruence|].
      destruct (fut_value g) as [o|e|] eqn:Hv.
      * rewrite (collect_step g rest results st t Hdone) by congruence.
        apply IH. eauto.
      * rewrite (collect_step g rest results st t Hdone) by congruence.
        apply IH. eauto.
      * cbn [collect_loop]. rewrite Hdone.
        unfold bind, wait_until, try_except, future_result.
        cbn [trace clock]. rewrite Hdone, Hv.
        assert (Hle : (t <=? Nat.max (clock st) t + 60)%nat = true)
          by (apply Nat.leb_le; lia).
        now rewrite Hle.
    + cbn [collect_loop]. now rewrite Hdone.
Qed.
End FanOutFacts.

Lemma NoDup_keys_filter {V : Type} (g : string * V -> bool) (d : dict V) :
  NoDup (keys d) -> NoDup (keys (filter g d)).
Proof.
  unfold keys. induction d as [|item d IH]; simpl; intros Hnd.
  - constructor.
  - inversion Hnd as [|? ? Hnotin Hnd']; subst.
    destruct (g item); simpl; [|auto].
    constructor; [|auto].
    intros Hin. apply Hnotin. apply in_map_iff in Hin.
    destruct Hin as (x & Hx & Hin). apply filter_In in Hin.
    rewrite <- Hx. apply in_map. tauto.
Qed.

Lemma dict_item_unique {V : Type} (d : dict V) k (v v' : V) :
  NoDup (keys d) -> In (k, v) d -> In (k, v') d -> v = v'.
Proof.
  intros Hnd H1 H2.
  apply (dict_get_In d k v Hnd) in H1. apply (dict_get_In d k v' Hnd) in H2.
  congruence.
Qed.

Lemma in_keys_filter {V : Type} (g : string * V -> bool) (d : dict V) k :
  In k (keys (filter g d)) <-> exists v, In (k, v) d /\ g (k, v) = true.
Proof.
  unfold keys. rewrite in_map_iff. split.
  - intros ([k' v] & Hk & Hin). simpl in Hk. subst k'.
    apply filter_In in Hin. eauto.
  - intros (v & Hin & Hg). exists (k, v). split; [reflexivity|].
    apply filter_In. auto.
Qed.

Section FanOut.
Variable w : World.
Variable self : PostManager.
Variable idea : string.

(** Whatever the world does, the fan-out never raises, invokes the adapter
    of exactly the platforms that have content and are available, once
    each and in the order of [posts], and does not call the generator. *)
Lemma fanout_effects posts st :
  (forall e, fst (_post_to_platforms w self posts idea st) <> Raises e) /\
  adapter_calls (trace (snd (_post_to_platforms w self posts idea st)))
  = adapter_calls (trace st) ++ keys (filter (dispatched self) posts) /\
  generator_calls (trace (snd (_post_to_platforms w self posts idea st)))
  = generator_calls (trace st).
Proof.
  unfold _post_to_platforms, bind.
  destruct (submit_loop_run w self idea posts [] [] st)
    as (new & st1 & Hloop & _ & _ & (evs & Htr & Hac & Hgc) & _).
  rewrite Hloop. cbn [fst snd].
  destruct (collect_loop_quiet (as_completed ([] ++ new))
              (synthetic_results self posts []) st1) as [Hq Hnr].
  split; [exact Hnr|].
  rewrite Hq, Htr, adapter_calls_app, generator_calls_app, Hac, Hgc.
  split; [reflexivity | lia].
Qed.

(** The futures of a fan-out: one for each dispatched item of [posts]. *)
Lemma fanout_futures posts st :
  NoDup (keys posts) ->
  exists new st1,
    submit_loop w self idea posts [] [] st
    = (Returns (synthetic_results self posts [], new), st1) /\
    (forall p,
       In p (map fut_platform (as_completed new)) <->
       exists c, In (p, c) posts /\ dispatched self (p, c) = true) /\
    NoDup (map fut_platform (as_completed new)) /\
    Forall (submitted_for w self idea posts) (as_completed new).
Proof.
  intros Hnd.
  destruct (submit_loop_run w self idea posts [] [] st)
    as (new & st1 & Hloop & _ & Hplat & _ & Hall).
  exists new, st1. cbn [app] in Hloop. split; [exact Hloop|].
  pose proof (as_completed_perm new) as Hperm.
  split; [|split].
  - intros p. rewrite <- (in_keys_filter (dispatched self) posts p).
    unfold keys. rewrite <- Hplat. split; apply Permutation_in.
    + now apply Permutation_map.
    + now apply Permutation_map, Permutation_sym.
  - apply (Permutation_NoDup (l := map fut_platform new)).
    + now apply Permutation_map, Permutation_sym.
    + rewrite Hplat. now apply (NoDup_keys_filter (dispatched self) posts).
  - rewrite Forall_forall in *. intros f Hin. apply Hall.
    now apply (Permutation_in f Hperm).
Qed.

(** The table the fan-out builds holds one outcome for every key of
    [posts]: the synthetic failure of a platform that was not dispatched,
    the outcome of its publish task otherwise. *)
Lemma fanout_table posts completed :
  NoDup (keys posts) ->
  (forall p,
     In p (map fut_platform completed) <->
     exists c, In (p, c) posts /\ dispatched self (p, c) = true) ->
  NoDup (map fut_platform completed) ->
  Forall (submitted_for w self idea posts) completed ->
  let results :=
    collected_results completed (synthetic_results self posts []) in
  NoDup (keys results) /\
  (forall p, In p (keys results) <-> In p (keys posts)) /\
  (forall p c, In (p, c) posts -> dispatched self (p, c) = false ->
     dict_get results p = Some (synthetic_failure c)) /\
  (forall p c, In (p, c) posts -> dispatched self (p, c) = true ->
     exists o stp,
       dict_get results p = Some o /\
       fst (_post_to_single_platform w self p (text_of c) idea stp)
       = Returns o).
Proof.
  intros Hnd Hplat Hndf Hall results. unfold results. clear results.
  split; [|split; [|split]].
  - apply collected_NoDup, synthetic_NoDup. constructor.
  - intros p. rewrite collected_keys, synthetic_keys, Hplat. split.
    + intros [[H|(c & Hin & _)]|(c & Hin & _)]; [destruct H | |];
        apply (in_map fst) in Hin; exact Hin.
    + intros Hin. apply in_map_iff in Hin.
      destruct Hin as ([p' c] & Hp & Hin). simpl in Hp. subst p'.
      destruct (dispatched self (p, c)) eqn:Hd; [right | left; right]; eauto.
  - intros p c Hin Hd.
    rewrite collected_get_other.
    + now apply synthetic_get.
    + rewrite Hplat. intros (c' & Hin' & Hd').
      rewrite (dict_item_unique posts p c c' Hnd Hin Hin') in Hd. congruence.
  - intros p c Hin Hd.
    assert (Hp : In p (map fut_platform completed)) by (apply Hplat; eauto).
    apply in_map_iff in Hp. destruct Hp as (f & Hf & Hinf).
    rewrite Forall_forall in Hall.
    destruct (Hall f Hinf) as [(o & c' & stp & Hv & Hin' & _ & Hrun) _].
    rewrite Hf in Hin', Hrun.
    rewrite (dict_item_unique posts p c' c Hnd Hin' Hin) in Hrun.
    exists o, stp. split; [|exact Hrun].
    rewrite <- Hf, (collected_get _ _ f Hndf Hinf).
    unfold outcome_of_future. now rewrite Hv.
Qed.

Lemma submitted_not_blocked posts completed :
  Forall (submitted_for w self idea posts) completed ->
  Forall (fun f => fut_value f <> Blocks) completed.
Proof.
  apply Forall_impl. intros f [(o & c & stp & Hv & _) _]. congruence.
Qed.

(** What the fan-out returns, when it returns. *)
Lemma fanout_result posts st results st' :
  NoDup (keys posts) ->
  _post_to_platforms w self posts idea st = (Returns results, st') ->
  NoDup (keys results) /\
  (forall p, In p (keys results) <-> In p (keys posts)) /\
  (forall p c, In (p, c) posts -> dispatched self (p, c) = false ->
     dict_get results p = Some (synthetic_failure c)) /\
  (forall p c, In (p, c) posts -> dispatched self (p, c) = true ->
     exists o stp,
       dict_get results p = Some o /\
       fst (_post_to_single_platform w self p (text_of c) idea stp)
       = Returns o).
Proof.
  intros Hnd Hrun.
  destruct (fanout_futures posts st Hnd)
    as (new & st1 & Hloop & Hplat & Hndf & Hall).
  unfold _post_to_platforms, bind in Hrun. rewrite Hloop in Hrun.
  cbn [fst snd] in Hrun.
  apply collect_loop_result in Hrun;
    [|now apply (submitted_not_blocked posts)].
  subst results. now apply fanout_table.
Qed.

(** When every worker returns, so does the fan-out. *)
Lemma fanout_returns posts st :
  responsive w -> NoDup (keys posts) ->
  exists results st',
    _post_to_platforms w self posts idea st = (Returns results, st').
Proof.
  intros Hresp Hnd.
  destruct (fanout_futures posts st Hnd)
    as (new & st1 & Hloop & _ & _ & Hall).
  unfold _post_to_platforms, bind. rewrite Hloop. cbn [fst snd].
  destruct (collect_loop_returns (as_completed new)
              (synthetic_results self posts []) st1) as [st' Hcol];
    [|eauto].
  rewrite Forall_forall in *. intros f Hin.
  destruct (Hall f Hin) as [(o & c & stp & Hv & _) (tr & t0 & Hdone)].
  split; [|congruence].
  rewrite Hdone. specialize (Hresp tr (fut_platform f)).
  destruct (latency w tr (fut_platform f)); [discriminate | congruence].
Qed.

(** When the task of a dispatched platform never returns, the fan-out
    never returns either. *)
Lemma fanout_blocks posts st p c :
  NoDup (keys posts) ->
  In (p, c) posts -> dispatched self (p, c) = true ->
  (forall tr, latency w tr p = None) ->
  fst (_post_to_platforms w self posts idea st) = Blocks.
Proof.
  intros Hnd Hin Hd Hstuck.
  destruct (fanout_futures posts st Hnd)
    as (new & st1 & Hloop & Hplat & _ & Hall).
  unfold _post_to_platforms, bind. rewrite Hloop. cbn [fst snd].
  apply collect_loop_blocks.
  assert (Hp : In p (map fut_platform (as_completed new)))
    by (apply Hplat; eauto).
  apply in_map_iff in Hp. destruct Hp as (f & Hf & Hinf).
  exists f. split; [exact Hinf|].
  rewrite Forall_forall in Hall.
  destruct (Hall f Hinf) as [_ (tr & t0 & Hdone)].
  now rewrite Hdone, Hf, Hstuck.
Qed.
End FanOut.

(** ** The generator *)

(** [generate_posts] always returns a dictionary with the three platforms
    of [config.PLATFORMS] as keys, records one invocation, and issues no
    adapter call. *)
Lemma generate_posts_run w idea st :
  exists c1 c2 c3 evs,
    generate_posts w idea st
    = (Returns [("twitter", c1); ("linkedin", c2); ("reddit", c3)],
       {| trace := trace st ++ CallGeneratePosts idea :: evs;
          clock := clock st |}) /\
    forallb quiet evs = true.
Proof.
  unfold generate_posts, PLATFORMS, generate_loop, generate_step,
    _generate_single_post, bind, try_except, emit, ask, ret.
  cbn [fst snd enabled trace clock].
  repeat match goal with
         | |- context [generate_single_post ?w' ?t ?i ?p] =>
             destruct (generate_single_post w' t i p)
         end;
    cbn [dict_set String.eqb Ascii.eqb Bool.eqb trace clock];
    rewrite <- ?app_assoc; cbn [app];
    do 4 eexists; (split; reflexivity).
Qed.

(** ** Routing to a subreddit *)

Section RoutingFacts.
Variable lower : string -> string.

Lemma fold_extend_flat_map topic_lower table acc :
  fold_left (extend_if_match topic_lower) table acc
  = acc ++ flat_map (fun entry : string * list string =>
                       if str_in (fst entry) topic_lower then snd entry else [])
                    table.
Proof.
  revert acc. induction table as [|entry table IH]; intros acc; simpl.
  - now rewrite app_nil_r.
  - rewrite IH. unfold extend_if_match.
    destruct (str_in (fst entry) topic_lower).
    + now rewrite app_assoc.
    + reflexivity.
Qed.

(** The function of the source computes the first three candidates of the
    rule as the specification words it. *)
Lemma get_suitable_subreddits_spec idea :
  get_suitable_subreddits lower idea = firstn 3 (candidates_spec lower idea).
Proof.
  unfold get_suitable_subreddits, candidates_spec.
  rewrite fold_extend_flat_map.
  match goal with
  | |- context [flat_map ?f subreddit_mapping] =>
      generalize (flat_map f subreddit_mapping)
  end.
  intros matched. change ([] ++ matched) with matched.
  destruct matched; reflexivity.
Qed.

Lemma candidates_spec_nonempty idea :
  exists s rest, candidates_spec lower idea = s :: rest.
Proof.
  unfold candidates_spec.
  match goal with
  | |- context [flat_map ?f subreddit_mapping] =>
      generalize (flat_map f subreddit_mapping)
  end.
  intros [|s rest]; cbn [length Nat.eqb]; [|eauto].
  unfold default_subreddits. eauto.
Qed.

Lemma choose_subreddit_spec idea :
  choose_subreddit lower idea = hd "test" (candidates_spec lower idea).
Proof.
  unfold choose_subreddit. rewrite get_suitable_subreddits_spec.
  destruct (candidates_spec_nonempty idea) as (s & rest & ->). reflexivity.
Qed.
End RoutingFacts.

(** C10: for every topic string, [get_suitable_subreddits] returns a list of
    at least one and at most three subreddits; hence taking its first
    element in [_post_to_single_platform] never fails, and the ["test"]
    fallback for an empty list is never taken: the subreddit chosen is that
    first element. *)
Theorem C10_suggestions_between_one_and_three :
  forall (lower : string -> string) (topic : string),
    1 <= length (get_suitable_subreddits lower topic) <= 3 /\
    exists s rest,
      get_suitable_subreddits lower topic = s :: rest /\
      choose_subreddit lower topic = s.
Proof.
  intros lower topic.
  assert (Hne : exists s rest, get_suitable_subreddits lower topic = s :: rest).
  { rewrite get_suitable_subreddits_spec.
    destruct (candidates_spec_nonempty lower topic) as (s & rest & ->).
    simpl. eauto. }
  destruct Hne as (s & rest & Heq). split.
  - split.
    + rewrite Heq. simpl. lia.
    + unfold get_suitable_subreddits. apply firstn_le_length.
  - exists s, rest. split; [assumption|].
    unfold choose_subreddit. now rewrite Heq.
Qed.

(** C9: for every idea, the subreddit the Reddit post goes to is a function
    of the idea alone: the candidates are the subreddits of the table keys
    contained in the lower-cased idea, or the fixed default list when no key
    is contained; the target is the first candidate; and in every run with
    that idea, whatever the manager, the content and the state, the
    coordinator enters the Reddit adapter with that same target, chosen
    before the adapter is called. *)
Theorem C9_routing_is_a_function_of_the_idea :
  forall (w : World) (idea : string),
    get_suitable_subreddits (str_lower w) idea
    = firstn 3 (candidates_spec (str_lower w) idea) /\
    (exists s rest, candidates_spec (str_lower w) idea = s :: rest) /\
    choose_subreddit (str_lower w) idea
    = hd "test" (candidates_spec (str_lower w) idea) /\
    forall (self : PostManager) (content : string) (st : state),
    exists evs,
      trace (snd (_post_to_single_platform w self "reddit" content idea st))
      = trace st
        ++ CallAdapter "reddit" content idea
             (Some (hd "test" (candidates_spec (str_lower w) idea)))
        :: evs /\
      adapter_calls evs = [].
Proof.
  intros w idea.
  split; [apply get_suitable_subreddits_spec|].
  split; [apply candidates_spec_nonempty|].
  split; [apply choose_subreddit_spec|].
  intros self content st.
  destruct (single_invokes w self "reddit" content idea eq_refl st)
    as (_ & _ & evs & Htr & Hq).
  exists evs. split.
  - rewrite Htr. simpl. now rewrite choose_subreddit_spec.
  - now apply quiet_adapter_calls.
Qed.

(** ** process_idea *)

(** The three ways [process_idea] ends: it aborts when nothing was
    generated, it returns the aggregate of the fan-out, or it waits for
    ever on the fan-out.  It never raises. *)
Lemma process_idea_cases w self idea st :
  exists c1 c2 c3 evs,
    let posts := [("twitter", c1); ("linkedin", c2); ("reddit", c3)] in
    let st1 := {| trace := trace st ++ CallGeneratePosts idea :: evs;
                  clock := clock st |} in
    generate_posts w idea st = (Returns posts, st1) /\
    forallb quiet evs = true /\
    if existsb truthy_opt (values posts) then
      match _post_to_platforms w self posts idea st1 with
      | (Returns results, st2) =>
          process_idea w self idea st
          = (Returns
               (Posted (0 <? length (filter succeeded (values results)))%nat
                  results
                  {| successful_posts :=
                       length (filter succeeded (values results));
                     total_platforms :=
                       length (filter (fun item : string * bool => snd item)
                                      (available_platforms self));
                     summary_idea := idea |}),
             st2)
      | (Raises _, _) => False
      | (Blocks, st2) => process_idea w self idea st = (Blocks, st2)
      end
    else
      process_idea w self idea st
      = (Returns (Aborted "Failed to generate any posts"), st1).
Proof.
  destruct (generate_posts_run w idea st) as (c1 & c2 & c3 & evs & Hgen & Hq).
  exists c1, c2, c3, evs. cbv zeta.
  split; [exact Hgen|]. split; [exact Hq|].
  unfold process_idea, try_except, bind. rewrite Hgen.
  destruct (existsb truthy_opt
              (values [("twitter", c1); ("linkedin", c2); ("reddit", c3)]));
    cbn [negb]; [|reflexivity].
  match goal with
  | |- context [_post_to_platforms w self ?posts idea ?s1] =>
      pose proof (fanout_effects w self idea posts s1) as [Hnr _];
      destruct (_post_to_platforms w self posts idea s1) as [[results|e|] st2]
  end; [reflexivity | | reflexivity].
  now apply (Hnr e).
Qed.

Lemma filter_nothing {A : Type} (f : A -> bool) (l : list A) :
  (forall x, In x l -> f x = false) -> filter f l = [].
Proof.
  induction l as [|x l IH]; simpl; intros H; [reflexivity|].
  rewrite (H x) by now left. apply IH. intros y Hy. apply H. now right.
Qed.

(** C7: for every earlier result in which no platform outcome is a failure,
    [retry_failed_posts] returns at once the success
    [{"success": True, "message": "No failed posts to retry"}] and leaves
    the state as it was: neither the generator nor any adapter is called. *)
Theorem C7_retry_without_failures_is_a_noop :
  forall (w : World) (self : PostManager) (original_results : aggregated)
         (idea : string) (st : state),
    (forall platform o,
       In (platform, o) (results_of original_results) -> succeeded o = true) ->
    retry_failed_posts w self original_results idea st
    = (Returns (NothingToRetry "No failed posts to retry"), st) /\
    overall_success (NothingToRetry "No failed posts to retry") = true.
Proof.
  intros w self original_results idea st Hok.
  unfold retry_failed_posts, failed_platforms_of.
  rewrite filter_nothing.
  - split; reflexivity.
  - intros [platform o] Hin. simpl. now rewrite (Hok platform o Hin).
Qed.

Lemma C7_retry_without_failures_witness :
  retry_failed_posts happy all_ready all_succeeded "AI" st0
  = (Returns (NothingToRetry "No failed posts to retry"), st0) /\
  overall_success (NothingToRetry "No failed posts to retry") = true.
Proof.
  apply (C7_retry_without_failures_is_a_noop happy all_ready all_succeeded
           "AI" st0).
  intros platform o Hin. simpl in Hin.
  destruct Hin as [Heq|[Heq|[]]]; inversion Heq; reflexivity.
Defined.

(** C6: every call of [process_idea] calls the content generator exactly
    once; and when every entry of the generated dictionary is absent it
    returns [{"success": False, "error": "Failed to generate any posts"}]
    straight after the generation, with no adapter invoked and no time
    spent waiting. *)
Theorem C6_generation_failure_is_fail_fast :
  forall (w : World) (self : PostManager) (idea : string) (st : state),
    generator_calls (trace (snd (process_idea w self idea st)))
    = generator_calls (trace st) + 1 /\
    forall posts st1,
      generate_posts w idea st = (Returns posts, st1) ->
      existsb truthy_opt (values posts) = false ->
      process_idea w self idea st
      = (Returns (Aborted "Failed to generate any posts"), st1) /\
      overall_success (Aborted "Failed to generate any posts") = false /\
      adapter_calls (trace st1) = adapter_calls (trace st) /\
      clock st1 = clock st.
Proof.
  intros w self idea st.
  destruct (process_idea_cases w self idea st)
    as (c1 & c2 & c3 & evs & Hgen & Hq & Hcase).
  cbv zeta in Hgen, Hcase.
  set (posts0 := [("twitter", c1); ("linkedin", c2); ("reddit", c3)]) in *.
  set (st1' := {| trace := trace st ++ CallGeneratePosts idea :: evs;
                  clock := clock st |}) in *.
  assert (Hg1 : generator_calls (trace st1') = generator_calls (trace st) + 1).
  { unfold st1'. cbn [trace]. rewrite generator_calls_app. simpl.
    now rewrite (quiet_generator_calls evs Hq). }
  split.
  - destruct (existsb truthy_opt (values posts0)).
    + pose proof (fanout_effects w self idea posts0 st1') as (_ & _ & Hgc).
      destruct (_post_to_platforms w self posts0 idea st1')
        as [[results|e|] st2]; [| contradiction |];
        rewrite Hcase; simpl in *; congruence.
    + rewrite Hcase. exact Hg1.
  - intros posts st1 Hgen' Habsent.
    rewrite Hgen in Hgen'. inversion Hgen'; subst posts st1.
    rewrite Habsent in Hcase.
    split; [exact Hcase|]. split; [reflexivity|]. split; [|reflexivity].
    unfold st1'. cbn [trace]. rewrite adapter_calls_app. simpl.
    now rewrite (quiet_adapter_calls evs Hq), app_nil_r.
Qed.

Lemma C6_generation_failure_witness :
  existsb truthy_opt
    (values [("twitter", None); ("linkedin", None); ("reddit", None)]) = false /\
  fst (process_idea no_text all_ready "AI in education" st0)
  = Returns (Aborted "Failed to generate any posts") /\
  adapter_calls (trace (snd (process_idea no_text all_ready "AI in education" st0)))
  = [].
Proof.
  split; [reflexivity|].
  destruct (C6_generation_failure_is_fail_fast no_text all_ready
              "AI in education" st0) as [_ H].
  destruct (H _ _ eq_refl eq_refl) as (Hrun & _ & Hcalls & _).
  rewrite Hrun. split; [reflexivity | exact Hcalls].
Defined.

Lemma three_platforms_NoDup {V : Type} (v1 v2 v3 : V) :
  NoDup (keys [("twitter", v1); ("linkedin", v2); ("reddit", v3)]).
Proof.
  unfold keys. simpl.
  repeat constructor; simpl; intuition discriminate.
Qed.

Lemma get_post_In posts p c :
  NoDup (keys posts) -> In (p, c) posts -> get_post posts p = c.
Proof.
  intros Hnd Hin. unfold get_post. now rewrite (dict_get_In posts p c Hnd Hin).
Qed.

(** A call of [process_idea] for which something was generated: it returns
    when the workers do, and what it returns is the aggregate of what the
    fan-out returned. *)
Lemma process_idea_posted w self idea st posts st1 :
  generate_posts w idea st = (Returns posts, st1) ->
  existsb truthy_opt (values posts) = true ->
  NoDup (keys posts) /\
  keys (available_platforms self) = keys posts /\
  (exists c1 c2 c3,
     posts = [("twitter", c1); ("linkedin", c2); ("reddit", c3)]) /\
  adapter_calls (trace st1) = adapter_calls (trace st) /\
  (responsive w ->
   exists r st2, process_idea w self idea st = (Returns r, st2)) /\
  (forall r st2,
     process_idea w self idea st = (Returns r, st2) ->
     exists results,
       _post_to_platforms w self posts idea st1 = (Returns results, st2) /\
       r = Posted (0 <? length (filter succeeded (values results)))%nat
             results
             {| successful_posts := length (filter succeeded (values results));
                total_platforms :=
                  length (filter (fun item : string * bool => snd item)
                                 (available_platforms self));
                summary_idea := idea |}).
Proof.
  intros Hgen Hsome.
  destruct (process_idea_cases w self idea st)
    as (c1 & c2 & c3 & evs & Hgen0 & Hq & Hcase).
  cbv zeta in Hgen0, Hcase.
  assert (Hposts : posts = [("twitter", c1); ("linkedin", c2); ("reddit", c3)])
    by congruence.
  assert (Hst1 : st1 = {| trace := trace st ++ CallGeneratePosts idea :: evs;
                          clock := clock st |}) by congruence.
  clear Hgen0. rewrite <- Hposts, <- Hst1, Hsome in Hcase.
  assert (Hnd : NoDup (keys posts))
    by (rewrite Hposts; apply three_platforms_NoDup).
  split; [exact Hnd|]. split; [|split; [|split; [|split]]].
  - destruct (available_platforms_shape self) as (b1 & b2 & b3 & ->).
    now rewrite Hposts.
  - eauto.
  - rewrite Hst1. cbn [trace]. rewrite adapter_calls_app. simpl.
    now rewrite (quiet_adapter_calls evs Hq), app_nil_r.
  - intros Hresp.
    destruct (fanout_returns w self idea posts st1 Hresp Hnd)
      as (results & st2 & Hrun).
    rewrite Hrun in Hcase. eauto.
  - intros r st2 Hret.
    destruct (_post_to_platforms w self posts idea st1) as [[results|e|] st2'];
      [| contradiction |].
    + rewrite Hcase in Hret. inversion Hret; subst. eauto.
    + rewrite Hcase in Hret. discriminate.
Qed.

(** C1: when the generated dictionary is not entirely absent,
    [process_idea] returns a [results] dictionary with exactly one outcome
    for every platform among the keys of the generated dictionary and of
    the availability map, and for no other: ["No content generated"] where
    the content is absent, ["Platform not available"] where there is
    content but the platform is not available, and otherwise the outcome
    returned by that platform's publish task.  The adapters invoked are
    those of these last platforms, once each.  The call returns whenever
    every pool worker returns. *)
Theorem C1_one_outcome_per_platform :
  forall (w : World) (self : PostManager) (idea : string) (st : state)
         (posts : dict (option string)) (st1 : state),
    generate_posts w idea st = (Returns posts, st1) ->
    existsb truthy_opt (values posts) = true ->
    (responsive w ->
     exists r st2, process_idea w self idea st = (Returns r, st2)) /\
    forall r st2,
      process_idea w self idea st = (Returns r, st2) ->
      exists ok results s,
        r = Posted ok results s /\
        NoDup (keys results) /\
        (forall p,
           In p (keys results) <->
           In p (keys posts) \/ In p (keys (available_platforms self))) /\
        (forall p,
           In p (keys posts) \/ In p (keys (available_platforms self)) ->
           (truthy_opt (get_post posts p) = false ->
            dict_get results p = Some (Failure "No content generated")) /\
           (truthy_opt (get_post posts p) = true ->
            dict_get_bool (available_platforms self) p = false ->
            dict_get results p = Some (Failure "Platform not available")) /\
           (truthy_opt (get_post posts p) = true ->
            dict_get_bool (available_platforms self) p = true ->
            exists o stp,
              dict_get results p = Some o /\
              fst (_post_to_single_platform w self p
                     (text_of (get_post posts p)) idea stp) = Returns o)) /\
        adapter_calls (trace st2)
        = adapter_calls (trace st) ++ keys (filter (dispatched self) posts) /\
        NoDup (keys (filter (dispatched self) posts)).
Proof.
  intros w self idea st posts st1 Hgen Hsome.
  destruct (process_idea_posted w self idea st posts st1 Hgen Hsome)
    as (Hnd & Hkeys & _ & Hac1 & Hreturns & Hposted).
  split; [exact Hreturns|].
  intros r st2 Hret.
  destruct (Hposted r st2 Hret) as (results & Hrun & ->).
  destruct (fanout_result w self idea posts st1 results st2 Hnd Hrun)
    as (Hndr & Hk & Hsyn & Hreal).
  pose proof (fanout_effects w self idea posts st1) as (_ & Hac & _).
  rewrite Hrun in Hac. cbn [snd] in Hac.
  do 3 eexists. split; [reflexivity|].
  split; [exact Hndr|]. split; [|split; [|split]].
  - intros p. rewrite Hk, Hkeys. tauto.
  - intros p Hp. rewrite Hkeys in Hp.
    assert (Hin : In p (keys posts)) by tauto. clear Hp.
    unfold keys in Hin. apply in_map_iff in Hin.
    destruct Hin as ([p' c] & Hp' & Hin). simpl in Hp'. subst p'.
    rewrite (get_post_In posts p c Hnd Hin).
    repeat split.
    + intros Hc. rewrite (Hsyn p c Hin).
      * unfold synthetic_failure. now rewrite Hc.
      * unfold dispatched. simpl. now rewrite Hc.
    + intros Hc Hav. rewrite (Hsyn p c Hin).
      * unfold synthetic_failure. now rewrite Hc.
      * unfold dispatched. simpl. now rewrite Hc, Hav.
    + intros Hc Hav. apply (Hreal p c Hin).
      unfold dispatched. simpl. now rewrite Hc, Hav.
  - now rewrite Hac, Hac1.
  - now apply NoDup_keys_filter.
Qed.

Lemma responsive_happy_latency (w : World) :
  latency w = latency happy -> responsive w.
Proof. intros H tr platform. rewrite H. discriminate. Qed.

Lemma C1_one_outcome_per_platform_witness :
  responsive no_linkedin_text /\
  exists r st2,
    process_idea no_linkedin_text reddit_down "AI in education" st0
    = (Returns r, st2) /\
    keys (results_of r) = ["linkedin"; "reddit"; "twitter"] /\
    dict_get (results_of r) "linkedin"
    = Some (Failure "No content generated") /\
    dict_get (results_of r) "reddit"
    = Some (Failure "Platform not available") /\
    adapter_calls (trace st2) = ["twitter"].
Proof.
  assert (Hresp : responsive no_linkedin_text)
    by (apply responsive_happy_latency; reflexivity).
  split; [exact Hresp|].
  destruct (C1_one_outcome_per_platform no_linkedin_text reddit_down
              "AI in education" st0 _ _ eq_refl eq_refl) as [Hreturns _].
  destruct (Hreturns Hresp) as (r & st2 & Hrun).
  exists r, st2. split; [exact Hrun|].
  vm_compute in Hrun. inversion Hrun. repeat split; reflexivity.
Defined.

(** C2: the dispatch boundary turns whatever the adapter of a platform
    raises into that platform's failure outcome
    [{"success": False, "error": "Error posting to <platform>: ..."}], and
    the collecting loop does the same for an exception stored in a future;
    nothing is propagated: [process_idea] never raises, and the aggregated
    result it returns holds the outcome of every dispatched platform,
    whatever the others raised. *)
Theorem C2_adapter_exceptions_become_failures :
  forall (w : World) (self : PostManager) (idea : string) (st : state),
    (forall e, fst (process_idea w self idea st) <> Raises e) /\
    (forall platform content st1,
       exists o,
         fst (_post_to_single_platform w self platform content idea st1)
         = Returns o /\
         forall e,
           fst (call_adapter w self platform content idea st1) = Raises e ->
           o = Failure ("Error posting to " +++ platform +++ ": "
                        +++ exn_str e)) /\
    (forall f rest results st1 t e,
       fut_done f = Some t -> fut_value f = Raises e ->
       collect_loop (f :: rest) results st1
       = collect_loop rest
           (dict_set results (fut_platform f)
              (Failure ("Exception posting to " +++ fut_platform f +++ ": "
                        +++ exn_str e)))
           {| trace := trace st1; clock := Nat.max (clock st1) t |}) /\
    (forall posts st1,
       generate_posts w idea st = (Returns posts, st1) ->
       existsb truthy_opt (values posts) = true ->
       (responsive w ->
        exists r st2, process_idea w self idea st = (Returns r, st2)) /\
       forall r st2,
         process_idea w self idea st = (Returns r, st2) ->
         forall q c,
           In (q, c) posts -> dispatched self (q, c) = true ->
           exists o stq,
             dict_get (results_of r) q = Some o /\
             fst (_post_to_single_platform w self q (text_of c) idea stq)
             = Returns o).
Proof.
  intros w self idea st.
  split; [|split; [|split]].
  - intros e.
    destruct (process_idea_cases w self idea st)
      as (c1 & c2 & c3 & evs & _ & _ & Hcase).
    cbv zeta in Hcase.
    destruct (existsb truthy_opt _) in Hcase.
    + destruct (_post_to_platforms w self _ idea _) as [[results|e'|] st2]
        in Hcase; [| contradiction |]; rewrite Hcase; discriminate.
    + rewrite Hcase. discriminate.
  - intros platform content st1.
    destruct (single_total w self platform content idea st1) as [o Ho].
    exists o. split; [exact Ho|].
    intros e He. unfold _post_to_single_platform, try_except in Ho.
    destruct (call_adapter w self platform content idea st1) as [r st2].
    cbn [fst] in He. subst r. unfold ret in Ho. cbn [fst] in Ho.
    now inversion Ho.
  - intros f rest results st1 t e Hdone Hv.
    rewrite (collect_step f rest results st1 t Hdone) by congruence.
    unfold outcome_of_future. now rewrite Hv.
  - intros posts st1 Hgen Hsome.
    destruct (process_idea_posted w self idea st posts st1 Hgen Hsome)
      as (Hnd & _ & _ & _ & Hreturns & Hposted).
    split; [exact Hreturns|].
    intros r st2 Hret.
    destruct (Hposted r st2 Hret) as (results & Hrun & ->).
    apply (fanout_result w self idea posts st1 results st2 Hnd Hrun).
Qed.

Lemma C2_adapter_exceptions_witness :
  responsive twitter_log_down /\
  exists r st2,
    process_idea twitter_log_down all_ready "AI" st0 = (Returns r, st2) /\
    dict_get (results_of r) "twitter"
    = Some (Failure "Error posting to twitter: database is locked") /\
    option_map succeeded (dict_get (results_of r) "linkedin") = Some true /\
    option_map succeeded (dict_get (results_of r) "reddit") = Some true.
Proof.
  assert (Hresp : responsive twitter_log_down)
    by (apply responsive_happy_latency; reflexivity).
  split; [exact Hresp|].
  destruct (C2_adapter_exceptions_become_failures twitter_log_down all_ready
              "AI" st0) as (_ & _ & _ & H).
  destruct (H _ _ eq_refl eq_refl) as [Hreturns _].
  destruct (Hreturns Hresp) as (r & st2 & Hrun).
  exists r, st2. split; [exact Hrun|].
  vm_compute in Hrun. inversion Hrun. repeat split; reflexivity.
Defined.

Lemma dispatched_at_most_available self c1 c2 c3 :
  length (filter (dispatched self)
            [("twitter", c1); ("linkedin", c2); ("reddit", c3)])
  <= length (filter (fun item : string * bool => snd item)
               (available_platforms self)).
Proof.
  unfold dispatched.
  destruct (available_platforms_shape self) as (b1 & b2 & b3 & ->).
  unfold dict_get_bool. cbn [filter fst snd dict_get String.eqb Ascii.eqb Bool.eqb].
  destruct (truthy_opt c1), (truthy_opt c2), (truthy_opt c3), b1, b2, b3;
    simpl; lia.
Qed.

(** C3, as amended: when [process_idea] performs the fan-out, the
    aggregate it returns has [success] true exactly when the number of
    platform outcomes with [success = True] is positive, and its
    [total_platforms] is the number of available platforms, whether or not
    content was generated for them; the number of publish calls issued is
    at most that number.  The call returns whenever every pool worker
    returns. *)
Theorem C3_success_flag_and_platform_count :
  forall (w : World) (self : PostManager) (idea : string) (st : state)
         (posts : dict (option string)) (st1 : state),
    generate_posts w idea st = (Returns posts, st1) ->
    existsb truthy_opt (values posts) = true ->
    (responsive w ->
     exists r st2, process_idea w self idea st = (Returns r, st2)) /\
    forall r st2,
      process_idea w self idea st = (Returns r, st2) ->
      exists ok results s,
        r = Posted ok results s /\
        (ok = true <-> 0 < successful_posts s) /\
        successful_posts s = length (filter succeeded (values results)) /\
        total_platforms s
        = length (filter (fun item : string * bool => snd item)
                         (available_platforms self)) /\
        adapter_calls (trace st2)
        = adapter_calls (trace st) ++ keys (filter (dispatched self) posts) /\
        length (keys (filter (dispatched self) posts)) <= total_platforms s.
Proof.
  intros w self idea st posts st1 Hgen Hsome.
  destruct (process_idea_posted w self idea st posts st1 Hgen Hsome)
    as (Hnd & _ & (c1 & c2 & c3 & Hposts) & Hac1 & Hreturns & Hposted).
  split; [exact Hreturns|].
  intros r st2 Hret.
  destruct (Hposted r st2 Hret) as (results & Hrun & ->).
  pose proof (fanout_effects w self idea posts st1) as (_ & Hac & _).
  rewrite Hrun in Hac. cbn [snd] in Hac.
  do 3 eexists. split; [reflexivity|].
  cbn [successful_posts total_platforms].
  split; [|split; [reflexivity|split; [reflexivity|split]]].
  - rewrite Nat.ltb_lt. tauto.
  - now rewrite Hac, Hac1.
  - unfold keys. rewrite length_map, Hposts.
    apply dispatched_at_most_available.
Qed.

Lemma C3_success_flag_witness :
  responsive no_linkedin_text /\
  exists r st2,
    process_idea no_linkedin_text all_ready "AI in education" st0
    = (Returns r, st2) /\
    overall_success r = true /\
    length (filter succeeded (values (results_of r))) = 2.
Proof.
  assert (Hresp : responsive no_linkedin_text)
    by (apply responsive_happy_latency; reflexivity).
  split; [exact Hresp|].
  destruct (C3_success_flag_and_platform_count no_linkedin_text all_ready
              "AI in education" st0 _ _ eq_refl eq_refl) as [Hreturns _].
  destruct (Hreturns Hresp) as (r & st2 & Hrun).
  exists r, st2. split; [exact Hrun|].
  vm_compute in Hrun. inversion Hrun. repeat split; reflexivity.
Defined.

(** C3 as stated fails: with content generated for Twitter and Reddit
    only and all three platforms available, [total_platforms] is 3 while
    only two platforms had content and were available, and only two
    publish calls were issued. *)
Lemma C3_total_counts_platforms_without_content :
  exists posts st1 ok results s st2,
    generate_posts no_linkedin_text "AI in education" st0
    = (Returns posts, st1) /\
    process_idea no_linkedin_text all_ready "AI in education" st0
    = (Returns (Posted ok results s), st2) /\
    total_platforms s = 3 /\
    length (filter (dispatched all_ready) posts) = 2 /\
    adapter_calls (trace st2) = ["twitter"; "reddit"] /\
    total_platforms s <> length (filter (dispatched all_ready) posts).
Proof.
  do 6 eexists. split; [reflexivity|]. split; [vm_compute; reflexivity|].
  repeat split; try reflexivity. vm_compute. discriminate.
Qed.

(** ** retry_failed_posts *)

Section RetryFacts.
Variable w : World.
Variable self : PostManager.
Variable idea : string.

(** The regeneration loop always returns; it invokes no adapter and fills
    [posts] only for failed platforms that are available. *)
Lemma regenerate_loop_run failed :
  forall posts st,
  exists posts' st',
    regenerate_loop w self idea failed posts st = (Returns posts', st') /\
    adapter_calls (trace st') = adapter_calls (trace st) /\
    (forall p, In p (keys posts') ->
       In p (keys posts) \/
       (In p failed /\ dict_get_bool (available_platforms self) p = true)) /\
    (NoDup (keys posts) -> NoDup (keys posts')).
Proof.
  induction failed as [|q failed IH]; intros posts st.
  - exists posts, st. simpl. repeat split; auto.
  - cbn [regenerate_loop].
    destruct (dict_get_bool (available_platforms self) q) eqn:Hav.
    + destruct (generate_posts_run w idea st)
        as (c1 & c2 & c3 & evs & Hgen & Hq).
      unfold bind at 1, try_except, bind at 1. rewrite Hgen. unfold ret at 1.
      match goal with
      | |- context [regenerate_loop w self idea failed ?posts1 ?st1] =>
          destruct (IH posts1 st1) as (posts' & st' & Hrun & Hac & Hk & Hnd)
      end.
      exists posts', st'. split; [exact Hrun|]. split; [|split].
      * rewrite Hac. cbn [trace]. rewrite adapter_calls_app. simpl.
        now rewrite (quiet_adapter_calls evs Hq), app_nil_r.
      * intros p Hp. destruct (Hk p Hp) as [Hin|[Hin Hav']].
        -- apply keys_dict_set in Hin. destruct Hin as [->|Hin]; [|auto].
           right. split; [now left | assumption].
        -- right. split; [now right | assumption].
      * intros Hndp. apply Hnd. now apply NoDup_keys_dict_set.
    + destruct (IH posts st) as (posts' & st' & Hrun & Hac & Hk & Hnd).
      exists posts', st'. split; [exact Hrun|]. split; [exact Hac|].
      split; [|exact Hnd].
      intros p Hp. destruct (Hk p Hp) as [Hin|[Hin Hav']]; [auto|].
      right. split; [now right | assumption].
Qed.

Lemma failed_platforms_of_In original_results p :
  In p (failed_platforms_of original_results) <->
  exists o, In (p, o) (results_of original_results) /\ succeeded o = false.
Proof.
  unfold failed_platforms_of. rewrite in_map_iff. split.
  - intros ([p' o] & Hp & Hin). simpl in Hp. subst p'.
    apply filter_In in Hin. destruct Hin as [Hin Hf]. simpl in Hf.
    exists o. split; [assumption|]. now destruct (succeeded o).
  - intros (o & Hin & Hf). exists (p, o). split; [reflexivity|].
    apply filter_In. split; [assumption|]. simpl. now rewrite Hf.
Qed.

(** With at least one failed platform, [retry_failed_posts] regenerates,
    fans out and reports. *)
Lemma retry_unfold original_results :
  failed_platforms_of original_results <> [] ->
  retry_failed_posts w self original_results idea
  = (posts <- regenerate_loop w self idea
                (failed_platforms_of original_results) [] ;;
     retry_results <- _post_to_platforms w self posts idea ;;
     ret (Retried (existsb succeeded (values retry_results)) retry_results
            (failed_platforms_of original_results))).
Proof.
  intros Hne. unfold retry_failed_posts.
  destruct (failed_platforms_of original_results); [congruence | reflexivity].
Qed.
End RetryFacts.

(** C4, as amended: for every earlier result with at least one failure,
    [retry_failed_posts] invokes the adapters only of platforms whose
    earlier outcome was a failure and which are available, so the adapter
    of a platform that succeeded is not invoked again; it never raises; it
    returns when every worker does; and the [retried_platforms] it reports
    is the list of all platforms whose earlier outcome was a failure,
    whether or not a publish call was issued for them. *)
Theorem C4_retry_dispatches_failed_available :
  forall (w : World) (self : PostManager) (original_results : aggregated)
         (idea : string) (st : state),
    NoDup (keys (results_of original_results)) ->
    failed_platforms_of original_results <> [] ->
    (exists delta,
       adapter_calls
         (trace (snd (retry_failed_posts w self original_results idea st)))
       = adapter_calls (trace st) ++ delta /\
       forall p, In p delta ->
         In p (failed_platforms_of original_results) /\
         dict_get_bool (available_platforms self) p = true /\
         forall o, In (p, o) (results_of original_results) ->
                   succeeded o = false) /\
    (forall e,
       fst (retry_failed_posts w self original_results idea st) <> Raises e) /\
    (forall p,
       In p (failed_platforms_of original_results) <->
       exists o, In (p, o) (results_of original_results) /\
                 succeeded o = false) /\
    (responsive w ->
     exists r st',
       retry_failed_posts w self original_results idea st = (Returns r, st')) /\
    (forall r st',
       retry_failed_posts w self original_results idea st = (Returns r, st') ->
       exists ok results,
         r = Retried ok results (failed_platforms_of original_results)).
Proof.
  intros w self original_results idea st Hnd Hfailed.
  rewrite (retry_unfold w self idea original_results Hfailed).
  destruct (regenerate_loop_run w self idea
              (failed_platforms_of original_results) [] st)
    as (posts & st1 & Hregen & Hac1 & Hk & Hndp).
  unfold bind. rewrite Hregen.
  pose proof (fanout_effects w self idea posts st1) as (Hnr & Hac & _).
  repeat split.
  - exists (keys (filter (dispatched self) posts)). split.
    + rewrite <- Hac1, <- Hac.
      destruct (_post_to_platforms w self posts idea st1) as [[r|e|] st2];
        reflexivity.
    + intros p Hp. apply in_keys_filter in Hp. destruct Hp as (c & Hin & Hd).
      destruct (Hk p) as [[]|[Hpf Hav]].
      { apply (in_map fst) in Hin. exact Hin. }
      split; [assumption|]. split; [assumption|].
      intros o Ho. apply failed_platforms_of_In in Hpf.
      destruct Hpf as (o' & Ho' & Hfail).
      now rewrite (dict_item_unique _ p o o' Hnd Ho Ho').
  - intros e.
    destruct (_post_to_platforms w self posts idea st1) as [[r|e'|] st2];
      simpl; [discriminate | | discriminate].
    now contradiction (Hnr e').
  - apply failed_platforms_of_In.
  - apply failed_platforms_of_In.
  - intros Hresp.
    destruct (fanout_returns w self idea posts st1 Hresp (Hndp (NoDup_nil _)))
      as (results & st2 & Hrun).
    rewrite Hrun. unfold ret. eauto.
  - intros r st' Hret.
    destruct (_post_to_platforms w self posts idea st1) as [[results|e|] st2];
      [|discriminate..].
    unfold ret in Hret. inversion Hret. eauto.
Qed.

Lemma C4_retry_dispatches_witness :
  NoDup (keys (results_of twitter_ok_reddit_failed)) /\
  failed_platforms_of twitter_ok_reddit_failed = ["reddit"] /\
  adapter_calls
    (trace (snd (retry_failed_posts happy all_ready twitter_ok_reddit_failed
                   "AI" st0)))
  = ["reddit"].
Proof.
  assert (Hnd : NoDup (keys (results_of twitter_ok_reddit_failed))).
  { unfold keys. simpl. repeat constructor; simpl; intuition discriminate. }
  split; [exact Hnd|]. split; [reflexivity|].
  destruct (C4_retry_dispatches_failed_available happy all_ready
              twitter_ok_reddit_failed "AI" st0 Hnd)
    as ((delta & Hcalls & _) & _).
  - discriminate.
  - reflexivity.
Defined.

(** C4 as stated fails: when the failed platform is not available, no
    publish call is issued (the trace stays empty and the results are
    empty), yet [retried_platforms] lists that platform. *)
Lemma C4_retried_platforms_lists_undispatched :
  retry_failed_posts happy reddit_down twitter_ok_reddit_failed "AI" st0
  = (Returns (Retried false [] ["reddit"]), st0) /\
  adapter_calls (trace st0) = [] /\
  ["reddit"] <> adapter_calls (trace st0).
Proof.
  split; [reflexivity|]. split; [reflexivity | discriminate].
Qed.

(** ** The per-platform timeout *)

(** C5: what the code does with a slow platform.  A Twitter task that never
    returns makes [process_idea] wait for ever, although LinkedIn and
    Reddit are done after one time unit; and a Twitter task that needs 100
    time units is waited for until time 100, after which its own outcome,
    not a timeout failure, is reported.  [future.result(timeout=60)] is
    only reached for futures that [as_completed] has handed out, which are
    done. *)
Theorem C5_slow_platform_is_waited_for :
  fst (process_idea stuck_twitter all_ready "AI" st0) = Blocks /\
  latency stuck_twitter [] "linkedin" = Some 1 /\
  latency stuck_twitter [] "reddit" = Some 1 /\
  exists ok results s st2,
    process_idea slow_twitter all_ready "AI" st0
    = (Returns (Posted ok results s), st2) /\
    clock st2 = 100 /\
    option_map succeeded (dict_get results "twitter") = Some true.
Proof.
  split; [vm_compute; reflexivity|].
  split; [reflexivity|]. split; [reflexivity|].
  do 4 eexists. split; [vm_compute; reflexivity|].
  split; reflexivity.
Qed.

(** X1: whatever the other platforms do, [process_idea] never returns when the
    publish task of a platform that has content and is available never
    returns: no timeout bounds the wait of the collecting loop. *)
Theorem process_idea_waits_for_every_task :
  forall (w : World) (self : PostManager) (idea : string) (st : state)
         (posts : dict (option string)) (st1 : state)
         (platform : string) (content : option string),
    generate_posts w idea st = (Returns posts, st1) ->
    In (platform, content) posts ->
    dispatched self (platform, content) = true ->
    (forall tr, latency w tr platform = None) ->
    fst (process_idea w self idea st) = Blocks.
Proof.
  intros w self idea st posts st1 platform content Hgen Hin Hd Hstuck.
  destruct (process_idea_cases w self idea st)
    as (c1 & c2 & c3 & evs & Hgen0 & Hq & Hcase).
  cbv zeta in Hgen0, Hcase.
  assert (Hposts : posts = [("twitter", c1); ("linkedin", c2); ("reddit", c3)])
    by congruence.
  assert (Hst1 : st1 = {| trace := trace st ++ CallGeneratePosts idea :: evs;
                          clock := clock st |}) by congruence.
  clear Hgen0. rewrite <- Hposts, <- Hst1 in Hcase.
  assert (Hsome : existsb truthy_opt (values posts) = true).
  { apply existsb_exists. exists content. split.
    - apply (in_map snd) in Hin. exact Hin.
    - unfold dispatched in Hd. apply andb_prop in Hd. tauto. }
  rewrite Hsome in Hcase.
  assert (Hnd : NoDup (keys posts))
    by (rewrite Hposts; apply three_platforms_NoDup).
  pose proof (fanout_blocks w self idea posts st1 platform content
                Hnd Hin Hd Hstuck) as Hblocks.
  destruct (_post_to_platforms w self posts idea st1) as [[results|e|] st2];
    simpl in Hblocks; try discriminate.
  now rewrite Hcase.
Qed.

Lemma process_idea_waits_witness :
  fst (process_idea stuck_twitter all_ready "AI" st0) = Blocks.
Proof.
  apply (process_idea_waits_for_every_task stuck_twitter all_ready "AI" st0
           _ _ "twitter" (Some "Post about AI for twitter") eq_refl).
  - simpl. tauto.
  - reflexivity.
  - intros tr. reflexivity.
Defined.

(** ** The keys of the fan-out *)

(** X2: for every dictionary of posts, what [_post_to_platforms] returns has
    exactly the keys of [posts], each once: a platform that is a key of the
    availability map but not of [posts] gets no outcome. *)
Theorem fanout_outcomes_are_keyed_by_posts :
  forall (w : World) (self : PostManager) (idea : string)
         (posts : dict (option string)) (st : state)
         (results : dict outcome) (st' : state),
    NoDup (keys posts) ->
    _post_to_platforms w self posts idea st = (Returns results, st') ->
    NoDup (keys results) /\
    forall p, In p (keys results) <-> In p (keys posts).
Proof.
  intros w self idea posts st results st' Hnd Hrun.
  destruct (fanout_result w self idea posts st results st' Hnd Hrun)
    as (Hndr & Hk & _).
  split; assumption.
Qed.

Lemma fanout_outcomes_witness :
  In "reddit" (keys (available_platforms all_ready)) /\
  exists results st',
    _post_to_platforms happy all_ready [("twitter", Some "Hello")] "AI" st0
    = (Returns results, st') /\
    ~ In "reddit" (keys results).
Proof.
  split; [simpl; tauto|].
  assert (Hnd : NoDup (keys [("twitter", Some "Hello")])).
  { unfold keys. simpl. repeat constructor. simpl. tauto. }
  destruct (_post_to_platforms happy all_ready [("twitter", Some "Hello")]
              "AI" st0) as [[results|e|] st'] eqn:Hrun;
    try (vm_compute in Hrun; discriminate).
  exists results, st'. split; [reflexivity|].
  destruct (fanout_outcomes_are_keyed_by_posts happy all_ready "AI"
              [("twitter", Some "Hello")] st0 results st' Hnd Hrun)
    as [_ Hk].
  intros Hin. apply Hk in Hin. simpl in Hin.
  destruct Hin as [Heq|[]]. discriminate.
Defined.

(* ------------------------------------------------------------------ *)
(** * Further properties of the code *)

(** ** Lengths of strings *)

Lemma len_append s1 s2 : len (s1 +++ s2) = len s1 + len s2.
Proof.
  unfold len. induction s1 as [|c s1 IH]; simpl; [reflexivity|].
  now rewrite IH.
Qed.

Lemma len_slice_to n s : len (slice_to n s) = Nat.min n (len s).
Proof.
  unfold len, slice_to. revert n.
  induction s as [|c s IH]; intros [|n]; simpl; try reflexivity.
  now rewrite IH.
Qed.

Lemma slice_from_append s1 s2 : slice_from (len s1) (s1 +++ s2) = s2.
Proof.
  unfold slice_from. rewrite len_append.
  replace (len s1 + len s2 - len s1) with (len s2) by lia.
  unfold len. induction s1 as [|c s1 IH]; simpl; [|exact IH].
  induction s2 as [|c s2 IH]; simpl; [reflexivity|]. now rewrite IH.
Qed.

Lemma prefix_append s1 s2 : prefix s1 (s1 +++ s2) = true.
Proof.
  induction s1 as [|c s1 IH]; simpl.
  - now destruct s2.
  - destruct (ascii_dec c c) as [_|n]; [exact IH | now contradiction n].
Qed.

(** ** utils.py: truncate_content *)

Lemma truncate_content_len content max_length platform :
  10 <= max_length ->
  len (truncate_content content max_length platform)
  = if (len content <=? max_length)%nat then len content
    else if platform =? "twitter" then max_length - 7 else max_length.
Proof.
  intros Hm. unfold truncate_content.
  destruct (len content <=? max_length)%nat eqn:Hfit; [reflexivity|].
  apply Nat.leb_gt in Hfit.
  destruct (platform =? "twitter");
    rewrite len_append, len_slice_to; change (len "...") with 3; lia.
Qed.

Lemma truncate_content_fits content max_length platform :
  10 <= max_length ->
  len (truncate_content content max_length platform) <= max_length.
Proof.
  intros Hm. rewrite truncate_content_len by assumption.
  destruct (len content <=? max_length)%nat eqn:Hfit.
  - now apply Nat.leb_le.
  - destruct (platform =? "twitter"); lia.
Qed.

Lemma truncate_content_short content max_length platform :
  len content <= max_length ->
  truncate_content content max_length platform = content.
Proof.
  intros H. unfold truncate_content.
  now apply Nat.leb_le in H; rewrite H.
Qed.

Lemma truncate_content_nonempty content max_length platform :
  content <> "" -> truncate_content content max_length platform <> "".
Proof.
  intros Hc. unfold truncate_content.
  destruct (len content <=? max_length)%nat; [assumption|].
  assert (Hdots : forall s, s +++ "..." <> "").
  { intros s H. apply (f_equal len) in H. rewrite len_append in H.
    simpl in H. lia. }
  destruct (platform =? "twitter"); apply Hdots.
Qed.

(** X3: For a limit of at least 10 characters, [truncate_content] returns
    a text within the limit: the content itself when it fits, and otherwise
    a text of exactly [max_length - 7] characters for Twitter and of
    exactly [max_length] characters for any other platform.  Truncating a
    second time changes nothing. *)
Theorem truncate_content_respects_the_limit :
  forall (content : string) (max_length : nat) (platform : string),
    10 <= max_length ->
    len (truncate_content content max_length platform) <= max_length /\
    (len content <= max_length ->
     truncate_content content max_length platform = content) /\
    (max_length < len content ->
     len (truncate_content content max_length platform)
     = if platform =? "twitter" then max_length - 7 else max_length) /\
    truncate_content (truncate_content content max_length platform)
                     max_length platform
    = truncate_content content max_length platform.
Proof.
  intros content max_length platform Hm.
  split; [now apply truncate_content_fits|].
  split; [apply truncate_content_short|].
  split.
  - intros Hlong. rewrite truncate_content_len by assumption.
    apply Nat.leb_gt in Hlong. now rewrite Hlong.
  - apply truncate_content_short. now apply truncate_content_fits.
Qed.

Lemma truncate_content_respects_the_limit_witness :
  10 <= 12 /\
  len (truncate_content "The future of remote work" 12 "twitter") = 5 /\
  truncate_content "The future of remote work" 12 "twitter" = "Th...".
Proof.
  split; [lia|].
  destruct (truncate_content_respects_the_limit
              "The future of remote work" 12 "twitter") as (_ & _ & Hlen & _);
    [lia|].
  split; [apply Hlen; simpl; lia | reflexivity].
Defined.

(** ** llm_generator.py: the limit applied to generated content *)

Lemma limit_content_fits content max_length :
  3 <= max_length -> len (limit_content content max_length) <= max_length.
Proof.
  intros Hm. unfold limit_content.
  destruct (max_length <? len content)%nat eqn:Hlong.
  - rewrite len_append, len_slice_to. change (len "...") with 3. lia.
  - now apply Nat.ltb_ge in Hlong.
Qed.

Lemma PLATFORMS_cases platform s :
  dict_get PLATFORMS platform = Some s ->
  (platform = "twitter" /\ max_length s = 280) \/
  (platform = "linkedin" /\ max_length s = 3000) \/
  (platform = "reddit" /\ max_length s = 10000).
Proof.
  unfold PLATFORMS. cbn [dict_get].
  destruct ("twitter" =? platform) eqn:Et.
  { apply String.eqb_eq in Et. intros [= <-]. now left. }
  destruct ("linkedin" =? platform) eqn:El.
  { apply String.eqb_eq in El. intros [= <-]. right. now left. }
  destruct ("reddit" =? platform) eqn:Er; [|discriminate].
  apply String.eqb_eq in Er. intros [= <-]. right. now right.
Qed.

Lemma adapter_limit_config platform s :
  dict_get PLATFORMS platform = Some s ->
  adapter_limit platform = max_length s /\ 10 <= max_length s.
Proof.
  intros H. destruct (PLATFORMS_cases platform s H)
    as [[-> ->]|[[-> ->]|[-> ->]]];
    (split; [reflexivity | apply Nat.leb_le; vm_compute; reflexivity]).
Qed.

(** X4: The limit an adapter passes to [truncate_content] is the platform's
    [max_length] of [config.PLATFORMS], and content that went through the
    generator's own limit fits it: [truncate_content] hands such content to
    the platform unchanged. *)
Theorem generated_content_is_not_truncated_again :
  forall (raw platform : string) (s : settings),
    dict_get PLATFORMS platform = Some s ->
    adapter_limit platform = max_length s /\
    len (limit_content raw (max_length s)) <= max_length s /\
    truncate_content (limit_content raw (max_length s))
                     (adapter_limit platform) platform
    = limit_content raw (max_length s).
Proof.
  intros raw platform s H.
  destruct (adapter_limit_config platform s H) as (Hlim & Hten).
  assert (Hfit : len (limit_content raw (max_length s)) <= max_length s)
    by (apply limit_content_fits; lia).
  repeat split; [assumption | assumption |].
  apply truncate_content_short. now rewrite Hlim.
Qed.

Lemma generated_content_witness :
  dict_get PLATFORMS "twitter"
  = Some {| enabled := true; max_length := 280;
            tone := "concise and engaging" |} /\
  adapter_limit "twitter" = 280 /\
  truncate_content (limit_content "Remote work is here to stay." 280)
                   (adapter_limit "twitter") "twitter"
  = limit_content "Remote work is here to stay." 280.
Proof.
  split; [reflexivity|].
  destruct (generated_content_is_not_truncated_again
              "Remote work is here to stay." "twitter"
              {| enabled := true; max_length := 280;
                 tone := "concise and engaging" |} eq_refl)
    as (Hlim & _ & Hsame).
  split; [exact Hlim | exact Hsame].
Defined.

(** ** post_to_reddit.py: the title *)

(** X5: The title of a Reddit post starts with ["Discussion: "] and has at
    most 112 characters; an idea of more than 100 characters gives a title
    of exactly 112 characters, a shorter one is taken over whole. *)
Theorem generated_title_is_bounded :
  forall idea : string,
    startswith (_generate_title idea) "Discussion: " = true /\
    len (_generate_title idea) <= 112 /\
    len (_generate_title idea)
    = (if (len idea <=? 100)%nat then 12 + len idea else 112) /\
    slice_from 12 (_generate_title idea)
    = (if (len idea <=? 100)%nat then idea else slice_to 97 idea +++ "...").
Proof.
  intros idea. unfold startswith, _generate_title.
  destruct (len idea <=? 100)%nat eqn:Hshort.
  - apply Nat.leb_le in Hshort.
    pose proof (slice_from_append "Discussion: " idea) as Hs.
    change (len "Discussion: ") with 12 in Hs.
    split; [apply prefix_append|].
    rewrite Hs, len_append. change (len "Discussion: ") with 12.
    repeat split; lia.
  - apply Nat.leb_gt in Hshort.
    pose proof (slice_from_append "Discussion: " (slice_to 97 idea +++ "..."))
      as Hs.
    change (len "Discussion: ") with 12 in Hs.
    split; [apply prefix_append|].
    rewrite Hs, !len_append, len_slice_to.
    change (len "Discussion: ") with 12. change (len "...") with 3.
    repeat split; lia.
Qed.

(** ** post_to_reddit.py: the first matching topic decides *)

Lemma first_match_decides (topic_lower : string)
    (table : dict (list string)) :
  Forall (fun entry : string * list string => 3 <= length (snd entry)) table ->
  let matched :=
    flat_map (fun entry : string * list string =>
                if str_in (fst entry) topic_lower then snd entry else [])
             table in
  match find (fun entry : string * list string =>
                str_in (fst entry) topic_lower) table with
  | Some entry => firstn 3 matched = firstn 3 (snd entry) /\ matched <> []
  | None => matched = []
  end.
Proof.
  induction 1 as [|entry table Hlen _ IH]; [reflexivity|].
  cbn [flat_map find].
  destruct (str_in (fst entry) topic_lower); [|exact IH].
  split.
  - rewrite firstn_app.
    replace (3 - length (snd entry)) with 0 by lia.
    cbn [firstn]. now rewrite app_nil_r.
  - destruct (snd entry); [simpl in Hlen; lia | discriminate].
Qed.

Lemma subreddit_mapping_three :
  Forall (fun entry : string * list string => 3 <= length (snd entry))
         subreddit_mapping.
Proof. unfold subreddit_mapping. repeat constructor; simpl; lia. Qed.

Lemma get_suitable_subreddits_find (lower : string -> string) topic :
  get_suitable_subreddits lower topic
  = match find (fun entry : string * list string =>
                  str_in (fst entry) (lower topic)) subreddit_mapping with
    | Some entry => firstn 3 (snd entry)
    | None => default_subreddits
    end.
Proof.
  rewrite get_suitable_subreddits_spec. unfold candidates_spec.
  pose proof (first_match_decides (lower topic) subreddit_mapping
                subreddit_mapping_three) as H.
  cbv zeta in H.
  destruct (find _ subreddit_mapping) as [entry|].
  - destruct H as (Hfirst & Hne).
    destruct (flat_map _ subreddit_mapping) as [|s matched];
      [congruence | exact Hfirst].
  - rewrite H. reflexivity.
Qed.

(** X6: [get_suitable_subreddits] always returns exactly three subreddits:
    the first three of the first key of the table, in table order, that the
    lower-cased topic contains, and the default list when it contains no
    key.  Keys that match further down the table contribute nothing. *)
Theorem first_matching_topic_decides_the_subreddits :
  forall (lower : string -> string) (topic : string),
    length (get_suitable_subreddits lower topic) = 3 /\
    get_suitable_subreddits lower topic
    = match find (fun entry : string * list string =>
                    str_in (fst entry) (lower topic)) subreddit_mapping with
      | Some entry => firstn 3 (snd entry)
      | None => default_subreddits
      end.
Proof.
  intros lower topic. split; [|apply get_suitable_subreddits_find].
  rewrite get_suitable_subreddits_find.
  destruct (find _ subreddit_mapping) as [entry|] eqn:Hfind; [|reflexivity].
  apply find_some in Hfind. destruct Hfind as (Hin & _).
  pose proof subreddit_mapping_three as Hall.
  rewrite Forall_forall in Hall. specialize (Hall entry Hin).
  rewrite length_firstn. lia.
Qed.

(** X7: An idea whose lower-cased text contains ["ai"] anywhere (as in
    "training" or "email") is posted to r/artificial: ["ai"] is the first
    key of the table, so no other topic word of the idea is looked at. *)
Theorem ideas_containing_ai_go_to_artificial :
  forall (w : World) (self : PostManager) (content idea : string)
         (st : state),
    str_in "ai" (str_lower w idea) = true ->
    get_suitable_subreddits (str_lower w) idea
    = ["artificial"; "MachineLearning"; "singularity"] /\
    exists evs,
      trace (snd (_post_to_single_platform w self "reddit" content idea st))
      = trace st ++ CallAdapter "reddit" content idea (Some "artificial") :: evs /\
      adapter_calls evs = [].
Proof.
  intros w self content idea st Hai.
  assert (Hsub : get_suitable_subreddits (str_lower w) idea
                 = ["artificial"; "MachineLearning"; "singularity"]).
  { rewrite get_suitable_subreddits_find. unfold subreddit_mapping.
    cbn [find fst]. rewrite Hai. reflexivity. }
  split; [exact Hsub|].
  destruct (single_invokes w self "reddit" content idea eq_refl st)
    as (_ & _ & evs & Htr & Hq).
  exists evs. split; [|now apply quiet_adapter_calls].
  rewrite Htr. unfold choose_subreddit. rewrite Hsub. reflexivity.
Qed.

Lemma ideas_containing_ai_witness :
  str_in "ai" (str_lower happy "Training for a marathon") = true /\
  get_suitable_subreddits (str_lower happy) "Training for a marathon"
  = ["artificial"; "MachineLearning"; "singularity"].
Proof.
  split; [reflexivity|].
  exact (proj1 (ideas_containing_ai_go_to_artificial
                  happy all_ready "Ready, set, go" "Training for a marathon"
                  st0 eq_refl)).
Defined.

(** ** The publish task, call by call *)

Lemma adapter_limit_reddit : adapter_limit "reddit" = 10000.
Proof. reflexivity. Qed.

Section PublishTask.
Variable w : World.
Variable self : PostManager.

Ltac close_shape :=
  solve [repeat first [reflexivity | split | eexists | eassumption
                       | congruence]].

Ltac find_shape := first [close_shape | left; close_shape | right; find_shape].

(** The runs of a publish task for a known platform.  The adapter is
    entered.  An adapter that is not initialised logs a failure.  Otherwise
    the text is sent, and then a failure is logged, or a success is logged
    and returned, or the row is refused by the log and a failure logged
    after it.  The Reddit adapter can also leave through its [except]
    clauses without logging anything more: after a submission that raised
    an exception other than [RedditAPIException], or after the log refused
    the row of the success. *)
Lemma single_run platform content idea st :
  known_platform platform = true ->
  exists o tail,
    _post_to_single_platform w self platform content idea st
    = (Returns o,
       {| trace := trace st ++ adapter_entry w platform content idea :: tail;
          clock := clock st |}) /\
    let text := sent_text platform content in
    ((adapter_initialized self platform = false /\
      tail = [CallLogPost platform content idea "failed"] /\
      succeeded o = false) \/
     (adapter_initialized self platform = true /\
      tail = [CallRemote platform text;
              CallLogPost platform text idea "failed"] /\
      succeeded o = false) \/
     (adapter_initialized self platform = true /\
      tail = [CallRemote platform text;
              CallLogPost platform text idea "success"] /\
      exists fields url,
        o = Success fields /\
        dict_get fields "url" = Some url /\
        dict_get fields "content" = Some text) \/
     (adapter_initialized self platform = true /\
      tail = [CallRemote platform text;
              CallLogPost platform text idea "success";
              CallLogPost platform text idea "failed"] /\
      succeeded o = false /\
      exists tr e, db_insert w tr platform text idea "success" = Throw e) \/
     (adapter_initialized self platform = true /\
      tail = [CallRemote platform text;
              CallLogPost platform text idea "failed";
              CallLogPost platform text idea "failed"] /\
      succeeded o = false /\
      exists tr e, db_insert w tr platform text idea "failed" = Throw e) \/
     (adapter_initialized self platform = true /\
      tail = [CallRemote platform text] /\
      platform = "reddit" /\
      o = reddit_handler_failure /\
      exists tr subreddit title e,
        subreddit_submit w tr subreddit title text = Throw e /\
        exn_kind e <> RedditAPIException) \/
     (adapter_initialized self platform = true /\
      tail = [CallRemote platform text;
              CallLogPost platform text idea "success"] /\
      platform = "reddit" /\
      o = reddit_handler_failure /\
      exists tr e, db_insert w tr platform text idea "success" = Throw e)).
Proof.
  unfold known_platform, adapter_entry, sent_text. intros Hk.
  destruct (platform =? "twitter") eqn:Et.
  { apply String.eqb_eq in Et. subst platform.
    unfold _post_to_single_platform, call_adapter, post_tweet.
    change ("twitter" =? "twitter") with true.
    change ("twitter" =? "reddit") with false.
    change (adapter_limit "twitter") with 280.
    change (adapter_initialized self "twitter")
      with (client (twitter_poster self)).
    cbv zeta. cbn match.
    set (text := truncate_content content 280 "twitter").
    destruct (client (twitter_poster self)); cbn [negb]; run_calls.
    all: do 2 eexists; (split; [reflexivity|]); find_shape. }
  destruct (platform =? "linkedin") eqn:El.
  { apply String.eqb_eq in El. subst platform.
    unfold _post_to_single_platform, call_adapter, post_to_linkedin.
    change ("linkedin" =? "twitter") with false.
    change ("linkedin" =? "linkedin") with true.
    change ("linkedin" =? "reddit") with false.
    change (adapter_limit "linkedin") with 3000.
    change (adapter_initialized self "linkedin")
      with (truthy_opt (access_token (linkedin_poster self))
            && truthy_opt (user_id (linkedin_poster self))).
    cbv zeta. cbn match.
    set (text := truncate_content content 3000 "linkedin").
    destruct (truthy_opt (access_token (linkedin_poster self)));
      destruct (truthy_opt (user_id (linkedin_poster self)));
      cbn [negb orb andb]; run_calls.
    all: do 2 eexists; (split; [reflexivity|]); find_shape. }
  destruct (platform =? "reddit") eqn:Er; [|discriminate].
  apply String.eqb_eq in Er. subst platform.
  unfold _post_to_single_platform, call_adapter, post_to_reddit.
  change ("reddit" =? "twitter") with false.
  change ("reddit" =? "linkedin") with false.
  change ("reddit" =? "reddit") with true.
  rewrite adapter_limit_reddit.
  change (adapter_initialized self "reddit")
    with (reddit (reddit_poster self)).
  fold (choose_subreddit (str_lower w) idea).
  cbv zeta. cbn match.
  set (text := truncate_content content _ "reddit").
  set (subreddit := choose_subreddit (str_lower w) idea).
  destruct (reddit (reddit_poster self)); cbn [negb]; run_calls.
  all: do 2 eexists; (split; [reflexivity|]); find_shape.
Qed.
End PublishTask.

Lemma unknown_not_initialized self platform :
  known_platform platform = false -> adapter_initialized self platform = false.
Proof.
  unfold known_platform, adapter_initialized.
  destruct (platform =? "twitter"); [discriminate|].
  destruct (platform =? "linkedin"); [discriminate|].
  destruct (platform =? "reddit"); [discriminate | reflexivity].
Qed.

(** ** The logging sink *)

Section LogFacts.
Variable w : World.
Variable self : PostManager.


End LogFacts.





Lemma remote_calls_app tr1 tr2 :
  remote_calls (tr1 ++ tr2) = remote_calls tr1 ++ remote_calls tr2.
Proof.
  induction tr1 as [|[] tr1 IH]; simpl; auto. now rewrite IH.
Qed.

Lemma log_rows_app tr1 tr2 :
  log_rows (tr1 ++ tr2) = log_rows tr1 ++ log_rows tr2.
Proof.
  induction tr1 as [|[] tr1 IH]; simpl; auto. now rewrite IH.
Qed.

Lemma llm_requests_app tr1 tr2 :
  llm_requests (tr1 ++ tr2) = llm_requests tr1 ++ llm_requests tr2.
Proof.
  induction tr1 as [|[] tr1 IH]; simpl; auto. now rewrite IH.
Qed.


(** X8: A publish task whose worker returns has sent exactly one text to
    its platform when the platform's adapter is initialised and none
    otherwise, and the text is the content cut by [truncate_content] to the
    adapter's limit.  It returns a success only for an initialised adapter,
    after the success row was handed to the log, and the success carries
    the text that was sent and a link. *)
Theorem publish_task_sends_one_text :
  forall (w : World) (self : PostManager) (platform content idea : string)
         (st : state),
    latency w (trace st) platform <> None ->
    exists o evs,
      fst (_post_to_single_platform w self platform content idea st)
      = Returns o /\
      trace (snd (_post_to_single_platform w self platform content idea st))
      = trace st ++ evs /\
      remote_calls evs
      = (if adapter_initialized self platform
         then [(platform,
                truncate_content content (adapter_limit platform) platform)]
         else []) /\
      forall fields,
        o = Success fields ->
        adapter_initialized self platform = true /\
        In (CallLogPost platform
              (truncate_content content (adapter_limit platform) platform)
              idea "success") evs /\
        dict_get fields "content"
        = Some (truncate_content content (adapter_limit platform) platform) /\
        exists url, dict_get fields "url" = Some url.
Proof.
  intros w self platform content idea st _.
  destruct (known_platform platform) eqn:Hk.
  - destruct (single_run w self platform content idea st Hk)
      as (o & tail & Hrun & Hshape).
    cbv zeta in Hshape. unfold sent_text in Hshape.
    rewrite Hrun. cbn [fst snd trace].
    exists o. eexists. split; [reflexivity|]. split; [reflexivity|].
    destruct Hshape
      as [(Hi & -> & Ho)
         |[(Hi & -> & Ho)
          |[(Hi & -> & fields & url & -> & Hurl & Hcontent)
           |[(Hi & -> & Ho & _)
            |[(Hi & -> & Ho & _)
             |[(Hi & -> & _ & -> & _)|(Hi & -> & _ & -> & _)]]]]]];
      rewrite Hi; (split; [reflexivity|]); intros fields' Heq;
      try (subst o; discriminate); try discriminate.
    inversion Heq; subst fields'.
    split; [reflexivity|]. split; [simpl; auto|].
    split; [assumption | eauto].
  - rewrite single_unknown by assumption.
    rewrite unknown_not_initialized by assumption.
    eexists. exists []. cbn [fst snd].
    split; [reflexivity|]. split; [now rewrite app_nil_r|].
    split; [reflexivity|]. discriminate.
Qed.

Lemma publish_task_sends_witness :
  latency happy (trace st0) "twitter" <> None /\
  remote_calls
    (trace (snd (_post_to_single_platform happy all_ready "twitter"
                   "Hello" "AI" st0)))
  = [("twitter", "Hello")].
Proof.
  assert (Hreturns : latency happy (trace st0) "twitter" <> None)
    by discriminate.
  split; [exact Hreturns|].
  destruct (publish_task_sends_one_text happy all_ready "twitter"
              "Hello" "AI" st0 Hreturns) as (o & evs & _ & Htr & Hremote & _).
  rewrite Htr. cbn [st0 trace app]. exact Hremote.
Defined.

(** X9: With a log that accepts its rows, a publish task for one of the
    three platforms whose worker returns hands exactly one row to the log,
    and the row's status is ["success"] exactly when the task returns a
    success.  The one exception is a Reddit submission that raised an
    exception other than [RedditAPIException]: then the adapter leaves
    without a row, and the task returns the failure made from the
    [AttributeError] of its [except] clause. *)
Theorem publish_task_logs_its_outcome :
  forall (w : World) (self : PostManager) (platform content idea : string)
         (st : state),
    log_works w ->
    known_platform platform = true ->
    latency w (trace st) platform <> None ->
    exists o evs,
      fst (_post_to_single_platform w self platform content idea st)
      = Returns o /\
      trace (snd (_post_to_single_platform w self platform content idea st))
      = trace st ++ evs /\
      (log_rows evs
       = [(platform, if succeeded o then "success" else "failed")] \/
       (platform = "reddit" /\
        log_rows evs = [] /\
        o = reddit_handler_failure /\
        exists tr subreddit title e,
          subreddit_submit w tr subreddit title (sent_text platform content)
          = Throw e /\
          exn_kind e <> RedditAPIException)).
Proof.
  intros w self platform content idea st Hlog Hk _.
  destruct (single_run w self platform content idea st Hk)
    as (o & tail & Hrun & Hshape).
  cbv zeta in Hshape. rewrite Hrun. cbn [fst snd trace].
  exists o. eexists. split; [reflexivity|]. split; [reflexivity|].
  destruct Hshape
    as [(Hi & -> & Ho)
       |[(Hi & -> & Ho)
        |[(Hi & -> & fields & url & -> & Hurl & Hcontent)
         |[(Hi & -> & Ho & tr & e & Hdb)
          |[(Hi & -> & Ho & tr & e & Hdb)
           |[(Hi & -> & -> & -> & Hsubmit)
            |(Hi & -> & -> & -> & tr & e & Hdb)]]]]]];
    try (rewrite Hlog in Hdb; discriminate);
    try (left; try rewrite Ho; reflexivity).
  right. repeat split; assumption.
Qed.

Lemma publish_task_logs_witness :
  log_works happy /\
  known_platform "twitter" = true /\
  latency happy (trace st0) "twitter" <> None /\
  log_rows
    (trace (snd (_post_to_single_platform happy all_ready "twitter"
                   "Hello" "AI" st0)))
  = [("twitter", "success")].
Proof.
  assert (Hlog : log_works happy) by (intros tr p c i s; reflexivity).
  assert (Hreturns : latency happy (trace st0) "twitter" <> None)
    by discriminate.
  split; [exact Hlog|]. split; [reflexivity|]. split; [exact Hreturns|].
  destruct (publish_task_logs_its_outcome happy all_ready "twitter"
              "Hello" "AI" st0 Hlog eq_refl Hreturns)
    as (o & evs & Ho & Htr & Hrows).
  reflexivity.
Defined.

(** ** Invariants of the calls a computation issues *)

Section EmitsRules.
Variable P : event -> Prop.

Lemma emits_ret {A : Type} (a : A) : emits P (ret a).
Proof. intros st. exists []. simpl. now rewrite app_nil_r. Qed.

Lemma emits_emit (ev : event) : P ev -> emits P (emit ev).
Proof. intros H st. exists [ev]. simpl. auto. Qed.

Lemma emits_ask {A : Type} (oracle : list event -> reply A) :
  emits P (ask oracle).
Proof.
  intros st. exists []. unfold ask.
  destruct (oracle (trace st)); simpl; now rewrite app_nil_r.
Qed.

Lemma emits_bind {A B : Type} (m : M A) (f : A -> M B) :
  emits P m -> (forall a, emits P (f a)) -> emits P (bind m f).
Proof.
  intros Hm Hf st. unfold bind.
  destruct (Hm st) as (evs & Htr & HP).
  destruct (m st) as [[a|e|] st1]; simpl in *; [|exists evs; auto..].
  destruct (Hf a st1) as (evs' & Htr' & HP').
  exists (evs ++ evs'). rewrite Htr', Htr, app_assoc.
  split; [reflexivity | now apply Forall_app].
Qed.

Lemma emits_try {A : Type} (m : M A) (h : exn -> M A) :
  emits P m -> (forall e, emits P (h e)) -> emits P (try_except m h).
Proof.
  intros Hm Hh st. unfold try_except.
  destruct (Hm st) as (evs & Htr & HP).
  destruct (m st) as [[a|e|] st1]; simpl in *; [exists evs; auto| |exists evs; auto].
  destruct (Hh e st1) as (evs' & Htr' & HP').
  exists (evs ++ evs'). rewrite Htr', Htr, app_assoc.
  split; [reflexivity | now apply Forall_app].
Qed.

Lemma emits_same_trace {A : Type} (m : M A) :
  (forall st, trace (snd (m st)) = trace st) -> emits P m.
Proof. intros H st. exists []. now rewrite H, app_nil_r. Qed.
End EmitsRules.

(** ** The generator, call by call *)

Lemma generate_posts_exact w idea st :
  generate_posts w idea st
  = (Returns
       [("twitter",
         generated
           (generate_single_post w
              (trace st ++ [CallGeneratePosts idea;
                            CallGenerateSingle idea "twitter"])
              idea "twitter"));
        ("linkedin",
         generated
           (generate_single_post w
              (trace st ++ [CallGeneratePosts idea;
                            CallGenerateSingle idea "twitter";
                            CallGenerateSingle idea "linkedin"])
              idea "linkedin"));
        ("reddit",
         generated
           (generate_single_post w
              (trace st ++ [CallGeneratePosts idea;
                            CallGenerateSingle idea "twitter";
                            CallGenerateSingle idea "linkedin";
                            CallGenerateSingle idea "reddit"])
              idea "reddit"))],
     {| trace := trace st ++ [CallGeneratePosts idea;
                              CallGenerateSingle idea "twitter";
                              CallGenerateSingle idea "linkedin";
                              CallGenerateSingle idea "reddit"];
        clock := clock st |}).
Proof.
  unfold generate_posts, PLATFORMS, generate_loop, generate_step,
    _generate_single_post, bind, try_except, emit, ask, ret.
  cbn [fst snd enabled trace clock].
  rewrite <- ?app_assoc. cbn [app].
  repeat match goal with
         | |- context [match generate_single_post ?w' ?t ?i ?p with _ => _ end] =>
             destruct (generate_single_post w' t i p);
             cbn [trace clock]; rewrite <- ?app_assoc; cbn [app]
         end;
    cbn [generated dict_set String.eqb Ascii.eqb Bool.eqb trace clock];
    reflexivity.
Qed.

(** X10: [generate_posts] never raises and never stops early.  It makes
    exactly one request per platform, for Twitter, LinkedIn and Reddit in
    that order, and returns an entry for each: the text the request gave, or
    [None] when that request raised, whatever happened to the others. *)
Theorem generate_posts_asks_once_per_platform :
  forall (w : World) (idea : string) (st : state),
  exists c1 c2 c3 st',
    generate_posts w idea st
    = (Returns [("twitter", c1); ("linkedin", c2); ("reddit", c3)], st') /\
    clock st' = clock st /\
    trace st'
    = trace st ++ [CallGeneratePosts idea;
                   CallGenerateSingle idea "twitter";
                   CallGenerateSingle idea "linkedin";
                   CallGenerateSingle idea "reddit"] /\
    llm_requests (trace st')
    = llm_requests (trace st) ++ ["twitter"; "linkedin"; "reddit"] /\
    c1 = generated
           (generate_single_post w
              (trace st ++ [CallGeneratePosts idea;
                            CallGenerateSingle idea "twitter"])
              idea "twitter") /\
    c2 = generated
           (generate_single_post w
              (trace st ++ [CallGeneratePosts idea;
                            CallGenerateSingle idea "twitter";
                            CallGenerateSingle idea "linkedin"])
              idea "linkedin") /\
    c3 = generated
           (generate_single_post w (trace st') idea "reddit").
Proof.
  intros w idea st. rewrite generate_posts_exact.
  do 4 eexists. split; [reflexivity|]. cbn [trace clock].
  split; [reflexivity|]. split; [reflexivity|].
  split; [now rewrite llm_requests_app|].
  repeat split.
Qed.

(** ** Invariants of the fan-out *)

Lemma truthy_text content :
  truthy_opt content = true ->
  match content with Some c => c | None => "" end <> "".
Proof.
  destruct content as [c|]; [|discriminate]. unfold truthy_opt, truthy.
  intros H ->. discriminate.
Qed.

Section FanOutEmits.
Variable w : World.
Variable self : PostManager.
Variable idea : string.
Variable P : event -> Prop.
Hypothesis Hsingle :
  forall platform content,
    content <> "" ->
    emits P (_post_to_single_platform w self platform content idea).

Lemma emits_executor_submit platform content :
  content <> "" -> emits P (executor_submit w self platform content idea).
Proof.
  intros Hc st. unfold executor_submit.
  destruct (Hsingle platform content Hc st) as (evs & Htr & HP).
  destruct (_post_to_single_platform w self platform content idea st)
    as [r st1].
  exists evs. split; assumption.
Qed.

Lemma emits_submit_loop items :
  forall results futs, emits P (submit_loop w self idea items results futs).
Proof.
  induction items as [|[platform content] items IH]; intros results futs.
  - apply emits_ret.
  - cbn [submit_loop].
    destruct (truthy_opt content
              && dict_get_bool (available_platforms self) platform) eqn:Hd.
    + apply andb_true_iff in Hd. destruct Hd as (Hc & _).
      apply emits_bind; [|intros f; apply IH].
      apply emits_executor_submit. now apply truthy_text.
    + destruct (negb (truthy_opt content)); apply IH.
Qed.

Lemma emits_collect_loop completed results :
  emits P (collect_loop completed results).
Proof.
  apply emits_same_trace. intros st.
  apply (collect_loop_quiet completed results st).
Qed.

Lemma emits_fanout posts : emits P (_post_to_platforms w self posts idea).
Proof.
  unfold _post_to_platforms.
  apply emits_bind; [apply emits_submit_loop|].
  intros submitted. apply emits_collect_loop.
Qed.

Hypothesis Hgenerate :
  forall ev, generation_call ev = true -> P ev.

Lemma emits_generate_posts : emits P (generate_posts w idea).
Proof.
  intros st. rewrite generate_posts_exact. eexists.
  split; [reflexivity|]. repeat constructor; now apply Hgenerate.
Qed.

Lemma emits_process_idea : emits P (process_idea w self idea).
Proof.
  unfold process_idea.
  apply emits_try; [|intros e; apply emits_ret].
  apply emits_bind; [apply emits_generate_posts|]. intros posts.
  destruct (negb (existsb truthy_opt (values posts))); [apply emits_ret|].
  apply emits_bind; [apply emits_fanout|]. intros results. apply emits_ret.
Qed.

Lemma emits_regenerate_loop failed :
  forall posts, emits P (regenerate_loop w self idea failed posts).
Proof.
  induction failed as [|platform failed IH]; intros posts.
  - apply emits_ret.
  - cbn [regenerate_loop].
    destruct (dict_get_bool (available_platforms self) platform); [|apply IH].
    apply emits_bind; [|intros posts'; apply IH].
    apply emits_try; [|intros e; apply emits_ret].
    apply emits_bind; [apply emits_generate_posts|].
    intros platform_posts. apply emits_ret.
Qed.

Lemma emits_retry_failed_posts original_results :
  emits P (retry_failed_posts w self original_results idea).
Proof.
  unfold retry_failed_posts.
  destruct (failed_platforms_of original_results) as [|p failed];
    [apply emits_ret|].
  apply emits_bind; [apply emits_regenerate_loop|]. intros posts.
  apply emits_bind; [apply emits_fanout|]. intros results. apply emits_ret.
Qed.
End FanOutEmits.

Lemma adapter_limit_at_least_10 platform : 10 <= adapter_limit platform.
Proof.
  unfold adapter_limit.
  destruct (platform =? "twitter"); [|destruct (platform =? "linkedin")];
    apply Nat.leb_le; vm_compute; reflexivity.
Qed.

Lemma emits_single_publishable w self idea platform content :
  content <> "" ->
  emits publishable (_post_to_single_platform w self platform content idea).
Proof.
  intros Hc st.
  assert (Htext : publishable
    (CallRemote platform
       (truncate_content content (adapter_limit platform) platform))).
  { split; [now apply truncate_content_nonempty|].
    apply truncate_content_fits, adapter_limit_at_least_10. }
  destruct (known_platform platform) eqn:Hk.
  - destruct (single_run w self platform content idea st Hk)
      as (o & tail & Hrun & Hshape).
    cbv zeta in Hshape. rewrite Hrun. cbn [snd trace].
    eexists. split; [reflexivity|].
    constructor; [exact Hc|].
    unfold sent_text in Hshape.
    destruct Hshape
      as [(_ & -> & _)|[(_ & -> & _)|[(_ & -> & _)|[(_ & -> & _)
         |[(_ & -> & _)|[(_ & -> & _)|(_ & -> & _)]]]]]];
      repeat constructor; apply Htext.
  - rewrite single_unknown by assumption. exists []. simpl.
    now rewrite app_nil_r.
Qed.

Lemma publishable_generation ev : generation_call ev = true -> publishable ev.
Proof. destruct ev; simpl; intros H; try discriminate; exact I. Qed.

Lemma publishable_In evs :
  Forall publishable evs ->
  (forall platform content original_idea subreddit,
     In (CallAdapter platform content original_idea subreddit) evs ->
     content <> "") /\
  (forall platform text,
     In (CallRemote platform text) evs ->
     text <> "" /\ len text <= adapter_limit platform).
Proof.
  intros H. rewrite Forall_forall in H. split.
  - intros platform content i sub Hin. exact (H _ Hin).
  - intros platform text Hin. exact (H _ Hin).
Qed.

(** X11: Whatever the language model and the platforms answer,
    [process_idea] and [retry_failed_posts] hand an adapter only content
    that is not empty, and every text they send to a platform is not empty
    and within the adapter's limit for that platform (280, 3000 and 10000
    characters). *)
Theorem only_fitting_posts_are_published :
  forall (w : World) (self : PostManager) (idea : string)
         (original_results : aggregated) (st : state),
    (exists evs,
       trace (snd (process_idea w self idea st)) = trace st ++ evs /\
       (forall platform content original_idea subreddit,
          In (CallAdapter platform content original_idea subreddit) evs ->
          content <> "") /\
       (forall platform text,
          In (CallRemote platform text) evs ->
          text <> "" /\ len text <= adapter_limit platform)) /\
    (exists evs,
       trace (snd (retry_failed_posts w self original_results idea st))
       = trace st ++ evs /\
       (forall platform content original_idea subreddit,
          In (CallAdapter platform content original_idea subreddit) evs ->
          content <> "") /\
       (forall platform text,
          In (CallRemote platform text) evs ->
          text <> "" /\ len text <= adapter_limit platform)) /\
    adapter_limit "twitter" = 280 /\
    adapter_limit "linkedin" = 3000 /\
    adapter_limit "reddit" = 10000.
Proof.
  intros w self idea original_results st.
  split; [|split; [|repeat split]].
  - destruct (emits_process_idea w self idea publishable
                (emits_single_publishable w self idea)
                publishable_generation st) as (evs & Htr & HP).
    exists evs. split; [exact Htr | now apply publishable_In].
  - destruct (emits_retry_failed_posts w self idea publishable
                (emits_single_publishable w self idea)
                publishable_generation original_results st)
      as (evs & Htr & HP).
    exists evs. split; [exact Htr | now apply publishable_In].
Qed.

(** ** The cost and the results of a retry *)

Lemma generation_free evs :
  Forall (fun ev => generation_call ev = false) evs ->
  generator_calls evs = 0 /\ llm_requests evs = [].
Proof.
  induction 1 as [|ev evs Hev _ IH]; [now split|].
  destruct IH as (IH1 & IH2).
  destruct ev; simpl in *; try discriminate; now split.
Qed.

Lemma emits_single_generation_free w self idea platform content :
  content <> "" ->
  emits (fun ev => generation_call ev = false)
        (_post_to_single_platform w self platform content idea).
Proof.
  intros _ st.
  destruct (known_platform platform) eqn:Hk.
  - destruct (single_run w self platform content idea st Hk)
      as (o & tail & Hrun & Hshape).
    cbv zeta in Hshape. rewrite Hrun. cbn [snd trace].
    eexists. split; [reflexivity|].
    constructor; [reflexivity|].
    destruct Hshape
      as [(_ & -> & _)|[(_ & -> & _)|[(_ & -> & _)|[(_ & -> & _)
         |[(_ & -> & _)|[(_ & -> & _)|(_ & -> & _)]]]]]];
      repeat constructor.
  - rewrite single_unknown by assumption. exists []. simpl.
    now rewrite app_nil_r.
Qed.

Section RetryRuns.
Variable w : World.
Variable self : PostManager.
Variable idea : string.

Lemma regenerate_loop_step platform failed posts st :
  dict_get_bool (available_platforms self) platform = true ->
  exists c st1,
    regenerate_loop w self idea (platform :: failed) posts st
    = regenerate_loop w self idea failed (dict_set posts platform c) st1 /\
    trace st1 = trace st ++ [CallGeneratePosts idea;
                             CallGenerateSingle idea "twitter";
                             CallGenerateSingle idea "linkedin";
                             CallGenerateSingle idea "reddit"].
Proof.
  intros Hav. cbn [regenerate_loop]. rewrite Hav.
  unfold bind at 1, try_except, bind at 1.
  rewrite generate_posts_exact. unfold ret at 1.
  do 2 eexists. split; reflexivity.
Qed.

(** What the regeneration loop issues and which platforms it fills in. *)
Lemma regenerate_loop_exact failed :
  forall posts st,
  exists posts' st',
    regenerate_loop w self idea failed posts st = (Returns posts', st') /\
    (exists evs,
       trace st' = trace st ++ evs /\
       generator_calls evs
       = length (filter (dict_get_bool (available_platforms self)) failed) /\
       llm_requests evs
       = flat_map (fun _ : string => ["twitter"; "linkedin"; "reddit"])
           (filter (dict_get_bool (available_platforms self)) failed)) /\
    (forall p,
       In p (keys posts') <->
       In p (keys posts) \/
       (In p failed /\ dict_get_bool (available_platforms self) p = true)) /\
    (NoDup (keys posts) -> NoDup (keys posts')).
Proof.
  induction failed as [|q failed IH]; intros posts st.
  - exists posts, st. split; [reflexivity|]. split; [|split].
    + exists []. now rewrite app_nil_r.
    + intros p. simpl. tauto.
    + auto.
  - destruct (dict_get_bool (available_platforms self) q) eqn:Hav.
    + destruct (regenerate_loop_step q failed posts st Hav)
        as (c & st1 & Hstep & Htr1).
      destruct (IH (dict_set posts q c) st1)
        as (posts' & st' & Hrun & (evs & Htr & Hgen & Hllm) & Hk & Hnd).
      exists posts', st'. split; [now rewrite Hstep|]. split; [|split].
      * eexists. split; [rewrite Htr, Htr1, <- app_assoc; reflexivity|].
        cbn [filter]. rewrite Hav.
        rewrite generator_calls_app, llm_requests_app, Hgen, Hllm.
        split; reflexivity.
      * intros p. rewrite Hk, keys_dict_set. simpl. split.
        -- intros [[->|Hin]|[Hin Hp]]; auto.
        -- intros [Hin|[[->|Hin] Hp]]; auto.
      * intros Hndp. apply Hnd. now apply NoDup_keys_dict_set.
    + destruct (IH posts st)
        as (posts' & st' & Hrun & (evs & Htr & Hgen & Hllm) & Hk & Hnd).
      exists posts', st'. cbn [regenerate_loop]. rewrite Hav.
      split; [exact Hrun|]. split; [|split; [|exact Hnd]].
      * exists evs. cbn [filter]. rewrite Hav. auto.
      * intros p. rewrite Hk. simpl. split.
        -- intros [Hin|[Hin Hp]]; auto.
        -- intros [Hin|[[->|Hin] Hp]]; auto. congruence.
Qed.

Lemma fanout_generation_free posts st :
  exists evs,
    trace (snd (_post_to_platforms w self posts idea st)) = trace st ++ evs /\
    generator_calls evs = 0 /\ llm_requests evs = [].
Proof.
  destruct (emits_fanout w self idea _
              (emits_single_generation_free w self idea) posts st)
    as (evs & Htr & Hfree).
  exists evs. split; [exact Htr | now apply generation_free].
Qed.
End RetryRuns.


(** X13: When some platform failed, the results of [retry_failed_posts]
    hold one outcome for every failed platform that is available, and
    nothing else: a failed platform that is not available has no entry in
    the retry results.  The [success] flag says whether one of these
    outcomes is a success. *)
Theorem retry_results_cover_failed_available :
  forall (w : World) (self : PostManager) (original_results : aggregated)
         (idea : string) (st : state),
    failed_platforms_of original_results <> [] ->
    (responsive w ->
     exists r st',
       retry_failed_posts w self original_results idea st = (Returns r, st')) /\
    forall r st',
      retry_failed_posts w self original_results idea st = (Returns r, st') ->
      exists results,
        r = Retried (existsb succeeded (values results)) results
              (failed_platforms_of original_results) /\
        NoDup (keys results) /\
        forall p,
          In p (keys results) <->
          In p (failed_platforms_of original_results) /\
          dict_get_bool (available_platforms self) p = true.
Proof.
  intros w self original_results idea st Hfailed.
  rewrite (retry_unfold w self idea original_results Hfailed).
  destruct (regenerate_loop_exact w self idea
              (failed_platforms_of original_results) [] st)
    as (posts & st1 & Hregen & _ & Hk & Hndp).
  specialize (Hndp (NoDup_nil _)).
  unfold bind. rewrite Hregen. split.
  - intros Hresp.
    destruct (fanout_returns w self idea posts st1 Hresp Hndp)
      as (results & st2 & Hrun).
    rewrite Hrun. unfold ret. eauto.
  - intros r st' Hret.
    destruct (_post_to_platforms w self posts idea st1)
      as [[results|e|] st2] eqn:Hrun; [|discriminate..].
    unfold ret in Hret. inversion Hret; subst r st'.
    destruct (fanout_result w self idea posts st1 results st2 Hndp Hrun)
      as (Hnd & Hkeys & _).
    exists results. split; [reflexivity|]. split; [exact Hnd|].
    intros p. rewrite Hkeys, Hk. simpl. tauto.
Qed.

Lemma retry_results_witness :
  failed_platforms_of twitter_ok_reddit_failed <> [] /\
  responsive happy /\
  exists r st',
    retry_failed_posts happy all_ready twitter_ok_reddit_failed "AI" st0
    = (Returns r, st') /\
    keys (results_of r) = ["reddit"].
Proof.
  assert (Hfailed : failed_platforms_of twitter_ok_reddit_failed <> [])
    by discriminate.
  assert (Hresp : responsive happy) by (intros tr p; discriminate).
  split; [exact Hfailed|]. split; [exact Hresp|].
  destruct (retry_results_cover_failed_available happy all_ready
              twitter_ok_reddit_failed "AI" st0 Hfailed) as (Hreturns & _).
  destruct (Hreturns Hresp) as (r & st' & Hrun).
  exists r, st'. split; [exact Hrun|].
  vm_compute in Hrun. inversion Hrun. reflexivity.
Defined.

(** ** The summary of process_idea *)

Lemma succeeded_count (results : dict outcome) :
  length (filter succeeded (values results))
  = length (keys (filter (fun item : string * outcome => succeeded (snd item))
                         results)).
Proof.
  unfold values, keys. induction results as [|[p o] results IH]; simpl; auto.
  destruct (succeeded o); simpl; now rewrite IH.
Qed.

Lemma synthetic_failure_failed c : succeeded (synthetic_failure c) = false.
Proof. unfold synthetic_failure. now destruct (negb (truthy_opt c)). Qed.

Lemma successes_were_dispatched w self idea posts st results st' :
  NoDup (keys posts) ->
  _post_to_platforms w self posts idea st = (Returns results, st') ->
  length (filter succeeded (values results))
  <= length (filter (dispatched self) posts).
Proof.
  intros Hnd Hrun.
  destruct (fanout_result w self idea posts st results st' Hnd Hrun)
    as (Hndr & Hkeys & Hsyn & _).
  rewrite succeeded_count.
  replace (length (filter (dispatched self) posts))
    with (length (keys (filter (dispatched self) posts)))
    by (unfold keys; apply length_map).
  apply NoDup_incl_length; [now apply NoDup_keys_filter|].
  intros p Hp. apply in_keys_filter in Hp. destruct Hp as (o & Hin & Hok).
  simpl in Hok.
  assert (Hpk : In p (keys posts)).
  { apply Hkeys. unfold keys. now apply (in_map fst) in Hin. }
  unfold keys in Hpk. apply in_map_iff in Hpk.
  destruct Hpk as ([p' c] & Hfst & Hpin). simpl in Hfst. subst p'.
  apply in_keys_filter. exists c. split; [assumption|].
  destruct (dispatched self (p, c)) eqn:Hd; [reflexivity|].
  specialize (Hsyn p c Hpin Hd).
  rewrite (dict_get_In results p o Hndr Hin) in Hsyn.
  inversion Hsyn; subst o. now rewrite synthetic_failure_failed in Hok.
Qed.

Lemma known_platform_In p :
  known_platform p = true <-> In p ["twitter"; "linkedin"; "reddit"].
Proof.
  unfold known_platform. rewrite !orb_true_iff, !String.eqb_eq. simpl.
  intuition congruence.
Qed.

(** The two ways in which [process_idea] returns. *)
Lemma process_idea_shape w self idea st r st2 :
  process_idea w self idea st = (Returns r, st2) ->
  r = Aborted "Failed to generate any posts" \/
  exists results,
    r = Posted (0 <? length (filter succeeded (values results)))%nat results
          {| successful_posts := length (filter succeeded (values results));
             total_platforms :=
               length (filter (fun item : string * bool => snd item)
                              (available_platforms self));
             summary_idea := idea |} /\
    NoDup (keys results) /\
    (forall p, In p (keys results) <-> known_platform p = true) /\
    length (filter succeeded (values results))
    <= length (filter (fun item : string * bool => snd item)
                      (available_platforms self)) /\
    length (filter (fun item : string * bool => snd item)
                   (available_platforms self)) <= 3.
Proof.
  intros Hrun.
  destruct (process_idea_cases w self idea st)
    as (c1 & c2 & c3 & evs & Hcases).
  cbv zeta in Hcases. destruct Hcases as (Hgen & _ & Hcases).
  destruct (existsb truthy_opt
              (values [("twitter", c1); ("linkedin", c2); ("reddit", c3)])).
  2: { rewrite Hcases in Hrun. inversion Hrun. now left. }
  destruct (_post_to_platforms w self
              [("twitter", c1); ("linkedin", c2); ("reddit", c3)] idea _)
    as [[results|e|] st3] eqn:Hfan; [|contradiction|].
  2: { rewrite Hcases in Hrun. discriminate. }
  rewrite Hcases in Hrun. inversion Hrun; subst r st3. clear Hrun.
  pose proof (three_platforms_NoDup c1 c2 c3) as Hnd.
  destruct (fanout_result w self idea _ _ results st2 Hnd Hfan)
    as (Hndr & Hkeys & _).
  right. exists results. split; [reflexivity|].
  split; [exact Hndr|]. split.
  { intros p. rewrite Hkeys, known_platform_In. reflexivity. }
  split.
  - etransitivity;
      [exact (successes_were_dispatched w self idea _ _ _ _ Hnd Hfan)|].
    apply dispatched_at_most_available.
  - destruct (available_platforms_shape self) as (b1 & b2 & b3 & ->).
    cbn [filter snd]. destruct b1, b2, b3; simpl; lia.
Qed.

Lemma process_idea_never_raises w self idea st e :
  fst (process_idea w self idea st) <> Raises e.
Proof.
  destruct (process_idea_cases w self idea st)
    as (c1 & c2 & c3 & evs & Hcases).
  cbv zeta in Hcases. destruct Hcases as (_ & _ & Hcases).
  destruct (existsb truthy_opt
              (values [("twitter", c1); ("linkedin", c2); ("reddit", c3)]));
    [|rewrite Hcases; discriminate].
  destruct (_post_to_platforms w self
              [("twitter", c1); ("linkedin", c2); ("reddit", c3)] idea _)
    as [[results|e'|] st3]; [| contradiction |];
    rewrite Hcases; discriminate.
Qed.

(** X14: Whatever the language model, the platforms and the log answer,
    [process_idea] returns either the generation failure or a summary; no
    failure of theirs reaches its own handler.  In a summary the results
    hold exactly one outcome for each of Twitter, LinkedIn and Reddit, and
    [successful_posts] is at most [total_platforms], which is at most
    three. *)
Theorem process_idea_reports_a_consistent_summary :
  forall (w : World) (self : PostManager) (idea : string) (st : state)
         (r : aggregated) (st2 : state),
    process_idea w self idea st = (Returns r, st2) ->
    r = Aborted "Failed to generate any posts" \/
    exists ok results s,
      r = Posted ok results s /\
      NoDup (keys results) /\
      (forall p, In p (keys results) <-> known_platform p = true) /\
      successful_posts s = length (filter succeeded (values results)) /\
      successful_posts s <= total_platforms s /\
      total_platforms s <= 3 /\
      summary_idea s = idea.
Proof.
  intros w self idea st r st2 Hrun.
  destruct (process_idea_shape w self idea st r st2 Hrun)
    as [->|(results & -> & Hnd & Hkeys & Hsucc & Htotal)]; [now left|].
  right. do 3 eexists. split; [reflexivity|].
  split; [exact Hnd|]. split; [exact Hkeys|].
  split; [reflexivity|]. split; [exact Hsucc|].
  split; [exact Htotal | reflexivity].
Qed.

Lemma process_idea_summary_witness :
  exists r st2,
    process_idea no_linkedin_text all_ready "AI in education" st0
    = (Returns r, st2) /\
    (r = Aborted "Failed to generate any posts" \/
     exists ok results s,
       r = Posted ok results s /\
       successful_posts s <= total_platforms s /\ total_platforms s <= 3).
Proof.
  destruct (process_idea no_linkedin_text all_ready "AI in education" st0)
    as [[r|e|] st2] eqn:Hrun; try (vm_compute in Hrun; discriminate).
  exists r, st2. split; [reflexivity|].
  destruct (process_idea_reports_a_consistent_summary
              no_linkedin_text all_ready "AI in education" st0 r st2 Hrun)
    as [Hab|(ok & results & s & Hr & _ & _ & _ & Hle & Htot & _)];
    [now left | right; exists ok, results, s; auto].
Defined.

(** ** What the user is told *)

Lemma no_success_all_failed (results : dict outcome) :
  (0 <? length (filter succeeded (values results)))%nat = false ->
  forall p o, In (p, o) results -> succeeded o = false.
Proof.
  intros Hnone p o Hin. apply Nat.ltb_ge in Hnone.
  destruct (succeeded o) eqn:Ho; [|reflexivity].
  assert (Hf : In o (filter succeeded (values results))).
  { apply filter_In. split; [|exact Ho].
    unfold values. now apply (in_map snd) in Hin. }
  destruct (filter succeeded (values results)); [contradiction|].
  simpl in Hnone. lia.
Qed.

(** X15: When [process_idea] returns without a single success, the answer
    composed for the user is one of two fixed messages: the generation
    failure, or, when every platform's outcome is a failure, the generic
    "Unknown error".  The errors recorded for the platforms are not shown. *)
Theorem failures_are_reported_without_detail :
  forall (w : World) (self : PostManager) (str_title : string -> string)
         (idea : string) (st : state) (r : aggregated) (st2 : state),
    process_idea w self idea st = (Returns r, st2) ->
    overall_success r = false ->
    (r = Aborted "Failed to generate any posts" /\
     format_telegram_response str_title r
     = format_error_message "Failed to generate any posts") \/
    (exists results s,
       r = Posted false results s /\
       (forall p o, In (p, o) results -> succeeded o = false) /\
       format_telegram_response str_title r
       = format_error_message "Unknown error").
Proof.
  intros w self str_title idea st r st2 Hrun Hfail.
  destruct (process_idea_shape w self idea st r st2 Hrun)
    as [->|(results & -> & _)]; [now left|].
  right. simpl in Hfail. rewrite Hfail.
  do 2 eexists. split; [reflexivity|].
  split; [now apply no_success_all_failed | reflexivity].
Qed.

Lemma failures_are_reported_witness :
  exists r st2,
    process_idea log_down all_ready "AI" st0 = (Returns r, st2) /\
    overall_success r = false /\
    dict_get (results_of r) "twitter"
    = Some (Failure "Error posting to twitter: database is locked") /\
    format_telegram_response (fun s => s) r
    = format_error_message "Unknown error".
Proof.
  destruct (process_idea log_down all_ready "AI" st0)
    as [[r|e|] st2] eqn:Hrun; try (vm_compute in Hrun; discriminate).
  exists r, st2. split; [reflexivity|].
  assert (Hfail : overall_success r = false).
  { vm_compute in Hrun. inversion Hrun. reflexivity. }
  split; [exact Hfail|].
  split; [vm_compute in Hrun; inversion Hrun; reflexivity|].
  destruct (failures_are_reported_without_detail log_down all_ready
              (fun s => s) "AI" st0 r st2 Hrun Hfail)
    as [(Hr & _)|(results & s & _ & _ & Hmsg)]; [|exact Hmsg].
  vm_compute in Hrun. rewrite Hr in Hrun. discriminate.
Defined.

(** ** The retry button *)

Section BotFacts.
Variable w : World.
Variable self : PostManager.
Variable str_title : string -> string.

Lemma handle_callback_run idea st :
  handle_callback w self str_title ("retry:" +++ idea) st
  = match process_idea w self idea st with
    | (Returns r, st') =>
        (Returns (Some ("🔄 **Retry Results:**" +++ nl +++ nl
                        +++ format_telegram_response str_title r)), st')
    | (Raises e, st') => (Returns (Some ("❌ **Retry Failed**: " +++ exn_str e)), st')
    | (Blocks, st') => (Blocks, st')
    end.
Proof.
  unfold handle_callback, startswith. rewrite prefix_append.
  pose proof (slice_from_append "retry:" idea) as Hslice.
  change (len "retry:") with 6 in Hslice. rewrite Hslice.
  unfold try_except, bind.
  destruct (process_idea w self idea st) as [[r|e|] st']; reflexivity.
Qed.

Lemma handle_message_run user_message st :
  handle_message w self str_title user_message st
  = match process_idea w self user_message st with
    | (Returns r, st') =>
        (Returns
           (format_telegram_response str_title r,
            if overall_success r then
              match failed_platforms_of r with
              | [] => None
              | _ :: _ => Some ("retry:" +++ user_message)
              end
            else None), st')
    | (Raises e, st') =>
        (Returns ("❌ **Error**: " +++ exn_str e +++ nl +++ nl
                  +++ "Please try again or check `/status` for platform issues.",
                  None), st')
    | (Blocks, st') => (Blocks, st')
    end.
Proof.
  unfold handle_message, try_except, bind.
  destruct (process_idea w self user_message st) as [[r|e|] st'];
    reflexivity.
Qed.
End BotFacts.

Lemma process_idea_adapter_calls w self idea st posts st1 :
  generate_posts w idea st = (Returns posts, st1) ->
  existsb truthy_opt (values posts) = true ->
  adapter_calls (trace (snd (process_idea w self idea st)))
  = adapter_calls (trace st) ++ keys (filter (dispatched self) posts).
Proof.
  intros Hgen Hany.
  destruct (process_idea_cases w self idea st)
    as (c1 & c2 & c3 & evs & Hcases).
  cbv zeta in Hcases. destruct Hcases as (Hgen' & Hq & Hcases).
  rewrite Hgen in Hgen'. inversion Hgen'; subst posts st1. clear Hgen'.
  rewrite Hany in Hcases.
  match type of Hcases with
  | context [_post_to_platforms w self ?p idea ?s1] =>
      pose proof (fanout_effects w self idea p s1) as (_ & Hcalls & _);
      destruct (_post_to_platforms w self p idea s1) as [[results|e|] st2]
  end; [|contradiction|]; rewrite Hcases; cbn [snd] in *;
    rewrite Hcalls; cbn [trace]; rewrite adapter_calls_app; simpl;
    now rewrite (quiet_adapter_calls evs Hq), app_nil_r.
Qed.

(** X16: The [callback_data] of the retry button carries the idea, and
    [handle_callback] recovers it exactly.  Pressing the button runs
    [process_idea] on the whole idea again, not [retry_failed_posts]: the
    adapter of every available platform that gets content is invoked,
    whether or not that platform had succeeded before. *)
Theorem retry_button_runs_the_whole_idea_again :
  forall (w : World) (self : PostManager) (str_title : string -> string)
         (idea : string) (st : state),
    startswith ("retry:" +++ idea) "retry:" = true /\
    slice_from 6 ("retry:" +++ idea) = idea /\
    snd (handle_callback w self str_title ("retry:" +++ idea) st)
    = snd (process_idea w self idea st) /\
    (forall r st',
       process_idea w self idea st = (Returns r, st') ->
       handle_callback w self str_title ("retry:" +++ idea) st
       = (Returns (Some ("🔄 **Retry Results:**" +++ nl +++ nl
                         +++ format_telegram_response str_title r)), st')) /\
    (forall posts st1,
       generate_posts w idea st = (Returns posts, st1) ->
       existsb truthy_opt (values posts) = true ->
       adapter_calls
         (trace (snd (handle_callback w self str_title ("retry:" +++ idea) st)))
       = adapter_calls (trace st) ++ keys (filter (dispatched self) posts)).
Proof.
  intros w self str_title idea st.
  split; [apply prefix_append|].
  split; [exact (slice_from_append "retry:" idea)|].
  assert (Hsnd :
    snd (handle_callback w self str_title ("retry:" +++ idea) st)
    = snd (process_idea w self idea st)).
  { rewrite handle_callback_run.
    destruct (process_idea w self idea st) as [[r|e|] st']; reflexivity. }
  split; [exact Hsnd|]. split.
  - intros r st' Hrun. now rewrite handle_callback_run, Hrun.
  - intros posts st1 Hgen Hany. rewrite Hsnd.
    now apply (process_idea_adapter_calls w self idea st posts st1).
Qed.

(** X17: [handle_message] answers with the text [format_telegram_response]
    composes for the result of [process_idea], and offers the retry button
    exactly when that result has a success and at least one failed
    platform.  When every platform failed, or nothing was generated, no
    retry is offered. *)
Theorem retry_is_offered_only_after_a_partial_success :
  forall (w : World) (self : PostManager) (str_title : string -> string)
         (user_message : string) (st : state) (r : aggregated) (st' : state),
    process_idea w self user_message st = (Returns r, st') ->
    exists keyboard,
      handle_message w self str_title user_message st
      = (Returns (format_telegram_response str_title r, keyboard), st') /\
      (keyboard = None \/ keyboard = Some ("retry:" +++ user_message)) /\
      (keyboard <> None <->
       overall_success r = true /\
       exists p o, In (p, o) (results_of r) /\ succeeded o = false) /\
      (overall_success r = false -> keyboard = None).
Proof.
  intros w self str_title user_message st r st' Hrun.
  rewrite handle_message_run, Hrun. eexists. split; [reflexivity|].
  destruct (overall_success r).
  - destruct (failed_platforms_of r) as [|p failed] eqn:Hf.
    + split; [now left|]. split; [|reflexivity]. split; [congruence|].
      intros (_ & p & o & Hin & Ho).
      assert (Hp : In p (failed_platforms_of r))
        by (apply failed_platforms_of_In; eauto).
      rewrite Hf in Hp. contradiction.
    + split; [now right|]. split; [|discriminate]. split; [|discriminate].
      intros _. split; [reflexivity|].
      assert (Hp : In p (failed_platforms_of r)) by (rewrite Hf; now left).
      apply failed_platforms_of_In in Hp. destruct Hp as (o & Hin & Ho).
      eauto.
  - split; [now left|]. split; [|reflexivity]. split; [congruence|].
    intros (Hok & _). discriminate.
Qed.

Lemma retry_is_offered_witness :
  exists r st' keyboard,
    process_idea no_linkedin_text all_ready "AI in education" st0
    = (Returns r, st') /\
    handle_message no_linkedin_text all_ready (fun s => s)
      "AI in education" st0
    = (Returns (format_telegram_response (fun s => s) r, keyboard), st') /\
    keyboard = Some "retry:AI in education".
Proof.
  destruct (process_idea no_linkedin_text all_ready "AI in education" st0)
    as [[r|e|] st'] eqn:Hrun; try (vm_compute in Hrun; discriminate).
  destruct (retry_is_offered_only_after_a_partial_success
              no_linkedin_text all_ready (fun s => s) "AI in education"
              st0 r st' Hrun) as (keyboard & Hanswer & Hor & Hiff & _).
  exists r, st', keyboard. split; [reflexivity|]. split; [exact Hanswer|].
  assert (Hpartial :
    overall_success r = true /\
    exists p o, In (p, o) (results_of r) /\ succeeded o = false).
  { vm_compute in Hrun. inversion Hrun. split; [reflexivity|].
    exists "linkedin", (Failure "No content generated").
    split; [now left | reflexivity]. }
  apply Hiff in Hpartial.
  destruct Hor as [Hnone|Hsome]; [contradiction | exact Hsome].
Defined.

(** ** Start-up *)

Lemma PostManager_init_returns cfg boot self :
  PostManager_init cfg boot = Returns self ->
  (exists u, sqlite_init boot = Reply u) /\
  truthy_opt (OPENROUTER_API_KEY cfg) = true /\
  twitter_poster self = TwitterPoster_init cfg boot /\
  reddit_poster self = RedditPoster_init cfg boot /\
  access_token (linkedin_poster self) = LINKEDIN_ACCESS_TOKEN cfg /\
  ((LINKEDIN_ACCESS_TOKEN cfg = None /\ user_id (linkedin_poster self) = None) \/
   (truthy_opt (LINKEDIN_ACCESS_TOKEN cfg) = true /\
    user_id (linkedin_poster self) = _get_user_id boot)).
Proof.
  unfold PostManager_init, LinkedInPoster_init.
  destruct (sqlite_init boot) as [u|e]; [|discriminate].
  destruct (truthy_opt (OPENROUTER_API_KEY cfg)); [|discriminate].
  cbn [negb].
  destruct (LINKEDIN_ACCESS_TOKEN cfg) as [token|] eqn:Htoken.
  - destruct (truthy_opt (Some token)) eqn:Htruthy;
      cbn [negb attr_user_id attr_access_token].
    + intros [= <-]. cbn. repeat split; eauto.
    + change (platform_enabled "linkedin") with true.
      cbn [is_not_None andb]. discriminate.
  - cbn [truthy_opt negb attr_user_id attr_access_token is_not_None].
    rewrite andb_false_r. intros [= <-]. cbn. repeat split; eauto.
Qed.

(** X18: [PostManager()] can be constructed exactly when the database
    initialises, an OpenRouter API key is set, and the LinkedIn access token
    is not the empty string.  With an empty LinkedIn token (a variable that
    is set but blank) the constructor raises from
    [_check_platform_availability]: the poster never assigned the [user_id]
    the check reads; with no token at all the manager starts. *)
Theorem manager_starts_unless_token_is_blank :
  forall (cfg : Config) (boot : Startup),
    ((exists self, PostManager_init cfg boot = Returns self) <->
     (exists u, sqlite_init boot = Reply u) /\
     truthy_opt (OPENROUTER_API_KEY cfg) = true /\
     LINKEDIN_ACCESS_TOKEN cfg <> Some "") /\
    ((exists u, sqlite_init boot = Reply u) ->
     truthy_opt (OPENROUTER_API_KEY cfg) = true ->
     LINKEDIN_ACCESS_TOKEN cfg = Some "" ->
     PostManager_init cfg boot
     = Raises {| exn_kind := OtherException;
                 exn_str := "'LinkedInPoster' object has no attribute 'user_id'" |}) /\
    PostManager_init cfg boot <> Blocks.
Proof.
  intros cfg boot.
  assert (Hblank :
    (exists u, sqlite_init boot = Reply u) ->
    truthy_opt (OPENROUTER_API_KEY cfg) = true ->
    LINKEDIN_ACCESS_TOKEN cfg = Some "" ->
    PostManager_init cfg boot
    = Raises {| exn_kind := OtherException;
                exn_str := "'LinkedInPoster' object has no attribute 'user_id'" |}).
  { intros (u & Hdb) Hkey Htoken.
    unfold PostManager_init, LinkedInPoster_init.
    rewrite Hdb, Hkey, Htoken. reflexivity. }
  split; [|split; [exact Hblank|]].
  - split.
    + intros (self & Hinit).
      destruct (PostManager_init_returns cfg boot self Hinit)
        as (Hdb & Hkey & _).
      split; [exact Hdb|]. split; [exact Hkey|].
      intros Htoken. rewrite (Hblank Hdb Hkey Htoken) in Hinit.
      discriminate.
    + intros ((u & Hdb) & Hkey & Htoken).
      unfold PostManager_init, LinkedInPoster_init. rewrite Hdb, Hkey.
      cbn [negb].
      destruct (LINKEDIN_ACCESS_TOKEN cfg) as [[|c token]|];
        [now contradiction Htoken | |];
        cbn [truthy_opt truthy String.eqb negb attr_user_id
             attr_access_token is_not_None];
        rewrite ?andb_false_r; eauto.
  - unfold PostManager_init.
    destruct (sqlite_init boot); [|discriminate].
    destruct (negb (truthy_opt (OPENROUTER_API_KEY cfg))); [discriminate|].
    destruct (attr_user_id (LinkedInPoster_init cfg boot));
      [discriminate|].
    destruct (platform_enabled "linkedin" && _); discriminate.
Qed.

Lemma manager_blank_token_witness :
  PostManager_init blank_linkedin_env startup_ok
  = Raises {| exn_kind := OtherException;
              exn_str := "'LinkedInPoster' object has no attribute 'user_id'" |}.
Proof.
  apply (proj1 (proj2 (manager_starts_unless_token_is_blank
                         blank_linkedin_env startup_ok)));
    [now exists tt | reflexivity | reflexivity].
Defined.

(** ** The status page *)

Lemma get_platform_status_items cfg self :
  get_platform_status cfg self
  = [("twitter",
      {| status_enabled := true;
         status_available := dict_get_bool (available_platforms self) "twitter";
         status_configured :=
           all_truthy [TWITTER_API_KEY cfg; TWITTER_API_SECRET cfg;
                       TWITTER_ACCESS_TOKEN cfg; TWITTER_ACCESS_SECRET cfg] |});
     ("linkedin",
      {| status_enabled := true;
         status_available := dict_get_bool (available_platforms self) "linkedin";
         status_configured := truthy_opt (LINKEDIN_ACCESS_TOKEN cfg) |});
     ("reddit",
      {| status_enabled := true;
         status_available := dict_get_bool (available_platforms self) "reddit";
         status_configured :=
           all_truthy [REDDIT_CLIENT_ID cfg; REDDIT_SECRET cfg;
                       REDDIT_USERNAME cfg; REDDIT_PASSWORD cfg] |})].
Proof. reflexivity. Qed.

Lemma availability_items self :
  dict_get_bool (available_platforms self) "twitter"
  = client (twitter_poster self) /\
  dict_get_bool (available_platforms self) "linkedin"
  = (is_not_None (access_token (linkedin_poster self))
     && is_not_None (user_id (linkedin_poster self))) /\
  dict_get_bool (available_platforms self) "reddit"
  = reddit (reddit_poster self).
Proof. repeat split. Qed.

Lemma twitter_client_configured cfg boot :
  client (TwitterPoster_init cfg boot) = true ->
  all_truthy [TWITTER_API_KEY cfg; TWITTER_API_SECRET cfg;
              TWITTER_ACCESS_TOKEN cfg; TWITTER_ACCESS_SECRET cfg] = true.
Proof.
  unfold TwitterPoster_init.
  destruct (all_truthy _); [reflexivity | discriminate].
Qed.

Lemma reddit_client_configured cfg boot :
  reddit (RedditPoster_init cfg boot) = true ->
  all_truthy [REDDIT_CLIENT_ID cfg; REDDIT_SECRET cfg;
              REDDIT_USERNAME cfg; REDDIT_PASSWORD cfg] = true.
Proof.
  unfold RedditPoster_init.
  destruct (all_truthy _); [reflexivity | discriminate].
Qed.

Lemma available_is_configured cfg boot self platform status :
  PostManager_init cfg boot = Returns self ->
  dict_get (get_platform_status cfg self) platform = Some status ->
  known_platform platform = true /\
  status_enabled status = true /\
  status_available status
  = dict_get_bool (available_platforms self) platform /\
  status_configured status = dict_get_bool (validate_api_keys cfg) platform /\
  (status_available status = true -> status_configured status = true).
Proof.
  intros Hinit.
  destruct (PostManager_init_returns cfg boot self Hinit)
    as (_ & _ & Htw & Hrd & Htoken & Hli).
  destruct (availability_items self) as (Hatw & Hali & Hard).
  rewrite get_platform_status_items. cbn [dict_get].
  destruct ("twitter" =? platform) eqn:Et.
  { apply String.eqb_eq in Et. subst platform. intros [= <-].
    cbn [status_enabled status_available status_configured].
    repeat split. rewrite Hatw, Htw. apply twitter_client_configured. }
  destruct ("linkedin" =? platform) eqn:El.
  { apply String.eqb_eq in El. subst platform. intros [= <-].
    cbn [status_enabled status_available status_configured].
    repeat split. rewrite Hali.
    destruct Hli as [(Hnone & Huid)|(Hsome & _)]; [|now intros _].
    rewrite Huid, andb_false_r. discriminate. }
  destruct ("reddit" =? platform) eqn:Er; [|discriminate].
  apply String.eqb_eq in Er. subst platform. intros [= <-].
  cbn [status_enabled status_available status_configured].
  repeat split. rewrite Hard, Hrd. apply reddit_client_configured.
Qed.

(** X19: For a manager that [PostManager()] constructed,
    [get_platform_status] reports the three platforms, each enabled, with
    the same [configured] flag as [validate_api_keys], and never a platform
    that is available without being configured.  So the status page shows
    "Ready" exactly for the available platforms, and never "Disabled". *)
Theorem status_page_shows_ready_for_available :
  forall (cfg : Config) (boot : Startup) (self : PostManager)
         (platform : string) (status : platform_status),
    PostManager_init cfg boot = Returns self ->
    dict_get (get_platform_status cfg self) platform = Some status ->
    known_platform platform = true /\
    status_configured status = dict_get_bool (validate_api_keys cfg) platform /\
    (status_available status = true -> status_configured status = true) /\
    (status_text status = "Ready" <->
     dict_get_bool (available_platforms self) platform = true) /\
    status_text status <> "Disabled".
Proof.
  intros cfg boot self platform status Hinit Hstatus.
  destruct (available_is_configured cfg boot self platform status
              Hinit Hstatus) as (Hk & Hen & Hav & Hcf & Himp).
  split; [exact Hk|]. split; [exact Hcf|]. split; [exact Himp|].
  rewrite <- Hav. unfold status_text. rewrite Hen. cbn [andb].
  destruct (status_available status).
  - rewrite (Himp eq_refl). cbn [andb]. split; [tauto | discriminate].
  - rewrite andb_false_r.
    destruct (status_configured status); cbn [andb];
      (split; [split; discriminate | discriminate]).
Qed.

Lemma status_page_witness :
  exists self status,
    PostManager_init full_env startup_linkedin_down = Returns self /\
    dict_get (get_platform_status full_env self) "linkedin" = Some status /\
    dict_get_bool (available_platforms self) "linkedin" = false /\
    status_text status <> "Ready" /\
    status_text status <> "Disabled".
Proof.
  destruct (PostManager_init full_env startup_linkedin_down)
    as [self|e|] eqn:Hinit; try (vm_compute in Hinit; discriminate).
  destruct (dict_get (get_platform_status full_env self) "linkedin")
    as [status|] eqn:Hstatus;
    [|vm_compute in Hinit; inversion Hinit; subst self;
      vm_compute in Hstatus; discriminate].
  exists self, status. split; [reflexivity|]. split; [exact Hstatus|].
  destruct (status_page_shows_ready_for_available full_env
              startup_linkedin_down self "linkedin" status Hinit Hstatus)
    as (_ & _ & _ & Hready & Hshown).
  assert (Hdown : dict_get_bool (available_platforms self) "linkedin" = false).
  { vm_compute in Hinit. inversion Hinit. reflexivity. }
  split; [exact Hdown|]. split; [|exact Hshown].
  intros Htext. apply Hready in Htext. congruence.
Defined.

(** ** The connection tests *)

(** X20: [test_all_connections] answers for the language model and the
    three platforms, in that order, and reports a platform as connected
    only when its adapter is initialised and the platform's probe answered:
    a connected Twitter or Reddit is an available one, and a connected
    LinkedIn has a non-empty access token. *)
Theorem connected_platforms_are_initialized :
  forall (probes : Probes) (self : PostManager),
    keys (test_all_connections probes self)
    = ["llm"; "twitter"; "linkedin"; "reddit"] /\
    (dict_get_bool (test_all_connections probes self) "twitter" = true ->
     dict_get_bool (available_platforms self) "twitter" = true /\
     twitter_get_me probes = Reply true) /\
    (dict_get_bool (test_all_connections probes self) "reddit" = true ->
     dict_get_bool (available_platforms self) "reddit" = true /\
     reddit_user_me probes = Reply true) /\
    (dict_get_bool (test_all_connections probes self) "linkedin" = true ->
     truthy_opt (access_token (linkedin_poster self)) = true /\
     linkedin_status_code probes = Reply 200).
Proof.
  intros probes self.
  destruct (availability_items self) as (Hatw & _ & Hard).
  split; [reflexivity|]. split; [|split].
  - rewrite Hatw.
    change (dict_get_bool (test_all_connections probes self) "twitter")
      with (if client (twitter_poster self)
            then TwitterPoster_test_connection probes (twitter_poster self)
            else false).
    unfold TwitterPoster_test_connection.
    destruct (client (twitter_poster self)); [|discriminate]. cbn [negb].
    destruct (twitter_get_me probes) as [[|]|e]; try discriminate. auto.
  - rewrite Hard.
    change (dict_get_bool (test_all_connections probes self) "reddit")
      with (if reddit (reddit_poster self)
            then RedditPoster_test_connection probes (reddit_poster self)
            else false).
    unfold RedditPoster_test_connection.
    destruct (reddit (reddit_poster self)); [|discriminate]. cbn [negb].
    destruct (reddit_user_me probes) as [[|]|e]; try discriminate. auto.
  - change (dict_get_bool (test_all_connections probes self) "linkedin")
      with (if truthy_opt (access_token (linkedin_poster self))
            then LinkedInPoster_test_connection probes (linkedin_poster self)
            else false).
    unfold LinkedInPoster_test_connection.
    destruct (truthy_opt (access_token (linkedin_poster self)));
      [|discriminate]. cbn [negb].
    destruct (linkedin_status_code probes) as [code|e]; [|discriminate].
    intros Hcode. apply Nat.eqb_eq in Hcode. now subst code.
Qed.

(** ** The log of a whole attempt *)

Section RowsOfTasks.
Context {A B : Type}.
Variable R : A -> list B -> Prop.

Lemma rows_of_some_task (tasks : list A) (rowss : list (list B)) x :
  Forall2 R tasks rowss -> In x (concat rowss) ->
  exists f rows, In f tasks /\ In x rows /\ R f rows.
Proof.
  induction 1 as [|f rows tasks rowss HR _ IH]; [contradiction|].
  cbn [concat]. rewrite in_app_iff. intros [Hin|Hin].
  - exists f, rows. repeat split; [now left | assumption..].
  - destruct (IH Hin) as (f' & rows' & Hf & Hx & HR').
    exists f', rows'. repeat split; [now right | assumption..].
Qed.

Lemma task_has_rows (tasks : list A) (rowss : list (list B)) f :
  Forall2 R tasks rowss -> In f tasks ->
  exists rows, R f rows /\ incl rows (concat rowss).
Proof.
  induction 1 as [|f' rows tasks rowss HR _ IH]; [contradiction|].
  intros [->|Hin].
  - exists rows. split; [assumption|]. cbn [concat]. now apply incl_appl.
  - destruct (IH Hin) as (rows' & HR' & Hincl).
    exists rows'. split; [assumption|]. cbn [concat]. now apply incl_appr.
Qed.
End RowsOfTasks.

Section LogAccounting.
Variable w : World.
Variable self : PostManager.
Variable idea : string.
Hypothesis Hlog : log_works w.

Lemma single_logs_row platform content st :
  known_platform platform = true ->
  exists o st1 evs,
    _post_to_single_platform w self platform content idea st
    = (Returns o, st1) /\
    trace st1 = trace st ++ evs /\
    adapter_calls evs = [platform] /\
    (log_rows evs = [(platform, if succeeded o then "success" else "failed")]
     \/ (platform = "reddit" /\ log_rows evs = [] /\
         o = reddit_handler_failure)).
Proof.
  intros Hk.
  destruct (single_run w self platform content idea st Hk)
    as (o & tail & Hrun & Hshape).
  cbv zeta in Hshape. rewrite Hrun.
  exists o. do 2 eexists. split; [reflexivity|]. cbn [trace].
  split; [reflexivity|].
  destruct Hshape
    as [(Hi & -> & Ho)
       |[(Hi & -> & Ho)
        |[(Hi & -> & fields & url & -> & Hurl & Hcontent)
         |[(Hi & -> & Ho & tr & e & Hdb)
          |[(Hi & -> & Ho & tr & e & Hdb)
           |[(Hi & -> & -> & -> & Hsubmit)
            |(Hi & -> & -> & -> & tr & e & Hdb)]]]]]];
    try (rewrite Hlog in Hdb; discriminate);
    (split; [reflexivity|]);
    try (left; try rewrite Ho; reflexivity).
  right. repeat split.
Qed.

(** The rows a submitted task leaves in the log. *)
Lemma submit_loop_logs items :
  forall results futs st,
  exists new st' evs rowss,
    submit_loop w self idea items results futs st
    = (Returns (synthetic_results self items results, futs ++ new), st') /\
    trace st' = trace st ++ evs /\
    map fut_platform new = map fst (filter (dispatched self) items) /\
    adapter_calls evs = map fut_platform new /\
    log_rows evs = concat rowss /\
    Forall2
      (fun f rows =>
         rows = [(fut_platform f,
                  if succeeded (outcome_of_future f)
                  then "success" else "failed")] \/
         (fut_platform f = "reddit" /\ rows = [] /\
          outcome_of_future f = reddit_handler_failure))
      new rowss /\
    Forall (fun f => fut_value f <> Blocks) new.
Proof.
  induction items as [|[p c] items IH]; intros results futs st.
  - exists [], st, [], []. simpl. rewrite !app_nil_r. repeat split; auto.
  - cbn [submit_loop synthetic_results filter].
    change (truthy_opt c && dict_get_bool (available_platforms self) p)
      with (dispatched self (p, c)).
    destruct (dispatched self (p, c)) eqn:Hd.
    + pose proof (dispatched_known self (p, c) Hd) as Hk. simpl in Hk.
      change (match c with Some c0 => c0 | None => "" end) with (text_of c).
      destruct (single_logs_row p (text_of c) st Hk)
        as (o & st1 & evs & Hrun & Htr & Hac & Hrows).
      unfold bind at 1. unfold executor_submit at 1. rewrite Hrun.
      set (fut := {| fut_platform := p;
                     fut_done := match latency w (trace st) p with
                                 | Some d => Some (clock st + d)
                                 | None => None
                                 end;
                     fut_value := Returns o |}).
      destruct (IH results (futs ++ [fut])
                   {| trace := trace st1; clock := clock st |})
        as (new & st' & evs' & rowss & Hloop & Htr' & Hplat & Hac' & Hrows'
            & Hall2 & Hall).
      exists (fut :: new), st', (evs ++ evs'), (log_rows evs :: rowss).
      rewrite Hloop, <- app_assoc. cbn [trace] in Htr'.
      split; [reflexivity|].
      split; [now rewrite Htr', Htr, app_assoc|].
      split; [simpl; now rewrite Hplat|].
      split; [rewrite adapter_calls_app, Hac, Hac'; reflexivity|].
      split; [rewrite log_rows_app, Hrows'; reflexivity|].
      split; [|constructor; [discriminate | exact Hall]].
      constructor; [|exact Hall2].
      destruct Hrows as [->|(-> & -> & ->)]; [now left | now right].
    + assert (Hsyn :
        (if negb (truthy_opt c)
         then submit_loop w self idea items
                (dict_set results p (Failure "No content generated")) futs
         else submit_loop w self idea items
                (dict_set results p (Failure "Platform not available")) futs)
        = submit_loop w self idea items
            (dict_set results p (synthetic_failure c)) futs).
      { unfold synthetic_failure. now destruct (negb (truthy_opt c)). }
      rewrite Hsyn. simpl fst. simpl snd.
      apply IH.
Qed.

Lemma task_rows_NoDup (new : list future) rowss :
  Forall2
    (fun f rows =>
       rows = [(fut_platform f,
                if succeeded (outcome_of_future f)
                then "success" else "failed")] \/
       (fut_platform f = "reddit" /\ rows = [] /\
        outcome_of_future f = reddit_handler_failure))
    new rowss ->
  NoDup (map fut_platform new) ->
  NoDup (map fst (concat rowss)).
Proof.
  induction 1 as [|f rows new rowss HR Hall2 IH]; intros Hndnew;
    [constructor|].
  cbn [concat]. rewrite map_app.
  inversion Hndnew as [|x l Hnotin Hndrest]; subst x l.
  specialize (IH Hndrest).
  destruct HR as [->|(_ & -> & _)]; [|exact IH].
  cbn [map app fst]. constructor; [|exact IH].
  intros Hin. apply in_map_iff in Hin.
  destruct Hin as ([p s] & Hp & Hin). simpl in Hp. subst p.
  destruct (rows_of_some_task _ new rowss _ Hall2 Hin)
    as (f' & rows' & Hf' & Hx & HR').
  apply Hnotin.
  destruct HR' as [->|(_ & -> & _)]; [|contradiction].
  destruct Hx as [Heq|[]]. inversion Heq.
  now apply in_map.
Qed.

Lemma fanout_logs posts st results st2 :
  NoDup (keys posts) ->
  _post_to_platforms w self posts idea st = (Returns results, st2) ->
  exists evs,
    trace st2 = trace st ++ evs /\
    NoDup (map fst (log_rows evs)) /\
    (forall p s,
       In (p, s) (log_rows evs) ->
       In p (adapter_calls evs) /\
       exists o,
         dict_get results p = Some o /\
         s = if succeeded o then "success" else "failed") /\
    (forall p,
       In p (adapter_calls evs) ->
       (exists s, In (p, s) (log_rows evs)) \/
       (p = "reddit" /\ dict_get results p = Some reddit_handler_failure)).
Proof.
  intros Hnd Hrun.
  destruct (submit_loop_logs posts [] [] st)
    as (new & st1 & evs & rowss & Hloop & Htr & Hplat & Hac & Hrows & Hall2
        & Hall).
  cbn [app] in Hloop.
  unfold _post_to_platforms, bind in Hrun. rewrite Hloop in Hrun.
  cbn [fst snd] in Hrun.
  pose proof (as_completed_perm new) as Hperm.
  pose proof (collect_loop_quiet (as_completed new)
                (synthetic_results self posts []) st1) as (Hquiet & _).
  rewrite Hrun in Hquiet. cbn [snd] in Hquiet.
  apply collect_loop_result in Hrun.
  2: { rewrite Forall_forall in *. intros f Hin. apply Hall.
       now apply (Permutation_in f Hperm). }
  assert (Hndnew : NoDup (map fut_platform new)).
  { rewrite Hplat. now apply (NoDup_keys_filter (dispatched self) posts). }
  assert (Hndf : NoDup (map fut_platform (as_completed new))).
  { apply (Permutation_NoDup (l := map fut_platform new)); [|assumption].
    now apply Permutation_map, Permutation_sym. }
  assert (Hget : forall f, In f new ->
    dict_get results (fut_platform f) = Some (outcome_of_future f)).
  { intros f Hin. subst results.
    apply (collected_get (as_completed new) _ f Hndf).
    now apply (Permutation_in f (Permutation_sym Hperm)). }
  exists evs. split; [now rewrite Hquiet|].
  rewrite Hrows, Hac. split; [|split].
  - exact (task_rows_NoDup new rowss Hall2 Hndnew).
  - intros p s Hin.
    destruct (rows_of_some_task _ new rowss _ Hall2 Hin)
      as (f & rows & Hf & Hx & HR).
    destruct HR as [->|(_ & -> & _)]; [|contradiction].
    destruct Hx as [Heq|[]]. inversion Heq.
    split; [now apply in_map|].
    exists (outcome_of_future f). split; [now apply Hget | reflexivity].
  - intros p Hin. apply in_map_iff in Hin.
    destruct Hin as (f & <- & Hf).
    destruct (task_has_rows _ new rowss f Hall2 Hf) as (rows & HR & Hincl).
    destruct HR as [->|(Hreddit & _ & Ho)].
    + left. eexists. apply Hincl. now left.
    + right. split; [exact Hreddit|]. rewrite <- Ho. now apply Hget.
Qed.
End LogAccounting.

(** X21: With a log that accepts its rows, a run of [process_idea] that
    returns has handed rows to the log for distinct platforms, each the
    platform of an adapter invocation, and the status of each row is
    ["success"] exactly when the outcome reported for that platform is a
    success.  Every adapter invocation leaves its row, except that of
    Reddit when the adapter left through its [except] clauses without
    logging: Reddit is then reported with the failure made from the
    [AttributeError].  A platform that was skipped, for lack of content or
    of availability, leaves no row. *)
Theorem every_publish_attempt_is_logged_once :
  forall (w : World) (self : PostManager) (idea : string) (st : state)
         (r : aggregated) (st2 : state),
    log_works w ->
    process_idea w self idea st = (Returns r, st2) ->
    exists evs,
      trace st2 = trace st ++ evs /\
      NoDup (map fst (log_rows evs)) /\
      (forall p s,
         In (p, s) (log_rows evs) ->
         In p (adapter_calls evs) /\
         exists o,
           dict_get (results_of r) p = Some o /\
           s = if succeeded o then "success" else "failed") /\
      (forall p,
         In p (adapter_calls evs) ->
         (exists s, In (p, s) (log_rows evs)) \/
         (p = "reddit" /\
          dict_get (results_of r) p = Some reddit_handler_failure)).
Proof.
  intros w self idea st r st2 Hlog Hrun.
  unfold process_idea, try_except, bind in Hrun.
  rewrite generate_posts_exact in Hrun.
  match type of Hrun with
  | context [existsb truthy_opt (values ?generated_posts)] =>
      assert (Hnd : NoDup (keys generated_posts))
        by apply three_platforms_NoDup;
      set (posts := generated_posts) in *
  end.
  destruct (existsb truthy_opt (values posts)); cbn [negb] in Hrun.
  - match type of Hrun with
    | context [_post_to_platforms w self posts idea ?s1] =>
        destruct (_post_to_platforms w self posts idea s1)
          as [[results|e|] st3] eqn:Hfan
    end; try discriminate.
    + unfold ret in Hrun. inversion Hrun; subst r st3. clear Hrun.
      destruct (fanout_logs w self idea Hlog posts _ results st2 Hnd Hfan)
        as (evs & Htr & Hndrows & Hrows & Hcalls).
      cbn [trace] in Htr.
      eexists. split; [rewrite Htr, <- app_assoc; reflexivity|].
      rewrite log_rows_app, adapter_calls_app. cbn [results_of].
      split; [exact Hndrows|]. split; [exact Hrows | exact Hcalls].
    + pose proof (fanout_effects w self idea posts
                    {| trace := trace st ++ [CallGeneratePosts idea;
                                             CallGenerateSingle idea "twitter";
                                             CallGenerateSingle idea "linkedin";
                                             CallGenerateSingle idea "reddit"];
                       clock := clock st |}) as (Hnr & _).
      rewrite Hfan in Hnr. now contradiction (Hnr e).
  - unfold ret in Hrun. inversion Hrun; subst r st2.
    eexists. split; [reflexivity|]. cbn [log_rows adapter_calls map].
    split; [constructor|]. split; intros; contradiction.
Qed.

Lemma every_publish_attempt_witness :
  log_works no_linkedin_text /\
  exists r st2,
    process_idea no_linkedin_text reddit_down "AI in education" st0
    = (Returns r, st2) /\
    exists evs,
      trace st2 = trace st0 ++ evs /\
      NoDup (map fst (log_rows evs)) /\
      (forall p s,
         In (p, s) (log_rows evs) ->
         In p (adapter_calls evs) /\
         exists o,
           dict_get (results_of r) p = Some o /\
           s = if succeeded o then "success" else "failed") /\
      (forall p,
         In p (adapter_calls evs) ->
         (exists s, In (p, s) (log_rows evs)) \/
         (p = "reddit" /\
          dict_get (results_of r) p = Some reddit_handler_failure)).
Proof.
  assert (Hlog : log_works no_linkedin_text)
    by (intros tr p c i s; reflexivity).
  split; [exact Hlog|].
  destruct (process_idea no_linkedin_text reddit_down "AI in education" st0)
    as [[r|e|] st2] eqn:Hrun; try (vm_compute in Hrun; discriminate).
  exists r, st2. split; [reflexivity|].
  exact (every_publish_attempt_is_logged_once no_linkedin_text reddit_down
           "AI in education" st0 r st2 Hlog Hrun).
Defined.

(** ** Availability and the adapters' own tests *)

(** X22: For a manager that [PostManager()] constructed, a platform that
    [_check_platform_availability] marks available passes the test its
    adapter makes before calling the platform (for LinkedIn: unless the
    profile request gave an empty id).  So every publish task for an
    available platform does send its text: the adapter's "not initialized"
    branch is not taken. *)
Theorem available_adapters_reach_the_platform :
  forall (w : World) (cfg : Config) (boot : Startup) (self : PostManager)
         (platform content idea : string) (st : state),
    PostManager_init cfg boot = Returns self ->
    dict_get_bool (available_platforms self) platform = true ->
    user_id (linkedin_poster self) <> Some "" ->
    adapter_initialized self platform = true /\
    exists evs,
      trace (snd (_post_to_single_platform w self platform content idea st))
      = trace st ++ evs /\
      remote_calls evs
      = [(platform,
          truncate_content content (adapter_limit platform) platform)].
Proof.
  intros w cfg boot self platform content idea st Hinit Hav Hid.
  assert (Hready : adapter_initialized self platform = true).
  { destruct (PostManager_init_returns cfg boot self Hinit)
      as (_ & _ & _ & _ & Htoken & Hli).
    destruct (availability_items self) as (Hatw & Hali & Hard).
    pose proof (available_known self platform Hav) as Hk.
    unfold known_platform in Hk. unfold adapter_initialized.
    destruct (platform =? "twitter") eqn:Et.
    { apply String.eqb_eq in Et. subst platform. now rewrite <- Hatw. }
    destruct (platform =? "linkedin") eqn:El.
    { apply String.eqb_eq in El. subst platform.
      rewrite Hali in Hav. apply andb_true_iff in Hav.
      destruct Hav as (Ht & Hu).
      destruct Hli as [(Hnone & _)|(Htruthy & _)].
      - rewrite Htoken, Hnone in Ht. discriminate.
      - rewrite Htoken, Htruthy. cbn [andb].
        destruct (user_id (linkedin_poster self)) as [[|c u]|];
          [now contradiction Hid | reflexivity | discriminate]. }
    destruct (platform =? "reddit") eqn:Er; [|discriminate].
    apply String.eqb_eq in Er. subst platform. now rewrite <- Hard. }
  split; [exact Hready|].
  destruct (single_run w self platform content idea st
              (available_known self platform Hav))
    as (o & tail & Hrun & Hshape).
  cbv zeta in Hshape. rewrite Hrun. cbn [snd trace].
  eexists. split; [reflexivity|].
  unfold sent_text in Hshape.
  destruct Hshape
    as [(Hi & _)|[(_ & -> & _)|[(_ & -> & _)|[(_ & -> & _)
       |[(_ & -> & _)|[(_ & -> & _)|(_ & -> & _)]]]]]];
    [congruence | reflexivity..].
Qed.

Lemma available_adapters_witness :
  exists self,
    PostManager_init full_env startup_ok = Returns self /\
    dict_get_bool (available_platforms self) "linkedin" = true /\
    user_id (linkedin_poster self) <> Some "" /\
    remote_calls
      (trace (snd (_post_to_single_platform happy self "linkedin"
                     "Hello" "AI" st0)))
    = [("linkedin", "Hello")].
Proof.
  destruct (PostManager_init full_env startup_ok) as [self|e|] eqn:Hinit;
    try (vm_compute in Hinit; discriminate).
  assert (Hself : self = all_ready)
    by (vm_compute in Hinit; inversion Hinit; reflexivity).
  assert (Hav : dict_get_bool (available_platforms self) "linkedin" = true)
    by (rewrite Hself; reflexivity).
  assert (Hid : user_id (linkedin_poster self) <> Some "")
    by (rewrite Hself; discriminate).
  exists self. split; [reflexivity|]. split; [exact Hav|].
  split; [exact Hid|].
  destruct (available_adapters_reach_the_platform happy full_env startup_ok
              self "linkedin" "Hello" "AI" st0 Hinit Hav Hid)
    as (_ & evs & Htr & Hremote).
  rewrite Htr. cbn [st0 trace app]. exact Hremote.
Defined.

(** ** No platform available *)

Lemma nothing_dispatched self (posts : dict (option string)) :
  (forall platform,
     dict_get_bool (available_platforms self) platform = false) ->
  filter (dispatched self) posts = [].
Proof.
  intros Hnone. apply filter_nothing. intros [p c] _.
  unfold dispatched. cbn [fst snd]. rewrite Hnone. apply andb_false_r.
Qed.

(** X23: When no platform is available, [process_idea] still asks the
    language model for the three posts, then invokes no adapter and returns
    at once: either the generation failure, or a result without success in
    which every platform's outcome is "No content generated" or "Platform
    not available".  The user is told "Unknown error" in the second case. *)
Theorem nothing_is_published_without_a_platform :
  forall (w : World) (self : PostManager) (str_title : string -> string)
         (idea : string) (st : state),
    (forall platform,
       dict_get_bool (available_platforms self) platform = false) ->
    exists r st2,
      process_idea w self idea st = (Returns r, st2) /\
      clock st2 = clock st /\
      adapter_calls (trace st2) = adapter_calls (trace st) /\
      llm_requests (trace st2)
      = llm_requests (trace st) ++ ["twitter"; "linkedin"; "reddit"] /\
      overall_success r = false /\
      (forall p o,
         In (p, o) (results_of r) ->
         o = Failure "No content generated" \/
         o = Failure "Platform not available") /\
      (format_telegram_response str_title r
       = format_error_message "Failed to generate any posts" \/
       format_telegram_response str_title r
       = format_error_message "Unknown error").
Proof.
  intros w self str_title idea st Hnone.
  unfold process_idea, try_except, bind.
  rewrite generate_posts_exact.
  match goal with
  | |- context [existsb truthy_opt (values ?generated_posts)] =>
      assert (Hnd : NoDup (keys generated_posts))
        by apply three_platforms_NoDup;
      set (posts := generated_posts) in *
  end.
  set (st1 := {| trace := trace st ++ [CallGeneratePosts idea;
                                       CallGenerateSingle idea "twitter";
                                       CallGenerateSingle idea "linkedin";
                                       CallGenerateSingle idea "reddit"];
                 clock := clock st |}).
  assert (Hllm : llm_requests (trace st1)
                 = llm_requests (trace st) ++ ["twitter"; "linkedin"; "reddit"])
    by (unfold st1; cbn [trace]; now rewrite llm_requests_app).
  assert (Hcalls : adapter_calls (trace st1) = adapter_calls (trace st))
    by (unfold st1; cbn [trace]; rewrite adapter_calls_app; simpl;
        now rewrite app_nil_r).
  destruct (existsb truthy_opt (values posts)); cbn [negb].
  2: { do 2 eexists. split; [reflexivity|]. cbn [results_of].
       repeat split; auto; try contradiction. }
  destruct (submit_loop_run w self idea posts [] [] st1)
    as (new & st' & Hloop & Hclk & Hplat & (evs & Htr & Hac & _) & _).
  rewrite (nothing_dispatched self posts Hnone) in Hplat, Hac.
  destruct new as [|f new]; [|discriminate]. cbn [app] in Hloop.
  assert (Hfan : _post_to_platforms w self posts idea st1
                 = (Returns (synthetic_results self posts []), st')).
  { unfold _post_to_platforms, bind. rewrite Hloop. reflexivity. }
  rewrite Hfan. unfold ret.
  destruct (fanout_result w self idea posts st1 _ st' Hnd Hfan)
    as (Hndr & Hkeys & Hsyn & _).
  assert (Hfailed : forall p o,
    In (p, o) (synthetic_results self posts []) ->
    o = Failure "No content generated" \/ o = Failure "Platform not available").
  { intros p o Hin.
    assert (Hp : In p (keys posts)).
    { apply Hkeys. unfold keys. now apply (in_map fst) in Hin. }
    unfold keys in Hp. apply in_map_iff in Hp.
    destruct Hp as ([p' c] & Hfst & Hpin). simpl in Hfst. subst p'.
    assert (Hd : dispatched self (p, c) = false).
    { unfold dispatched. cbn [fst snd]. rewrite Hnone. apply andb_false_r. }
    specialize (Hsyn p c Hpin Hd).
    rewrite (dict_get_In _ p o Hndr Hin) in Hsyn. inversion Hsyn.
    unfold synthetic_failure. destruct (negb (truthy_opt c)); auto. }
  assert (Hcount : filter succeeded (values (synthetic_results self posts []))
                   = []).
  { apply filter_nothing. intros o Ho. unfold values in Ho.
    apply in_map_iff in Ho. destruct Ho as ([p o'] & Hsnd & Hin).
    simpl in Hsnd. subst o'.
    destruct (Hfailed p o Hin) as [->| ->]; reflexivity. }
  do 2 eexists. split; [reflexivity|].
  rewrite Hcount. cbn [length Nat.ltb Nat.leb overall_success results_of].
  split; [exact Hclk|].
  split; [rewrite Htr, adapter_calls_app, Hac, app_nil_r; exact Hcalls|].
  split.
  { assert (Hevs : llm_requests evs = []).
    { destruct (fanout_generation_free w self idea posts st1)
        as (evs' & Htr' & _ & Hfree).
      rewrite Hfan in Htr'. cbn [snd] in Htr'. rewrite Htr in Htr'.
      apply app_inv_head in Htr'. now subst evs'. }
    now rewrite Htr, llm_requests_app, Hevs, app_nil_r. }
  split; [reflexivity|]. split; [exact Hfailed|]. now right.
Qed.

Lemma nothing_is_published_witness :
  (forall platform,
     dict_get_bool (available_platforms none_ready) platform = false) /\
  exists r st2,
    process_idea happy none_ready "AI" st0 = (Returns r, st2) /\
    adapter_calls (trace st2) = [] /\
    dict_get (results_of r) "twitter"
    = Some (Failure "Platform not available").
Proof.
  assert (Hnone : forall platform,
    dict_get_bool (available_platforms none_ready) platform = false).
  { intros platform.
    change (available_platforms none_ready)
      with [("twitter", false); ("linkedin", false); ("reddit", false)].
    unfold dict_get_bool. cbn [dict_get].
    destruct ("twitter" =? platform); [reflexivity|].
    destruct ("linkedin" =? platform); [reflexivity|].
    destruct ("reddit" =? platform); reflexivity. }
  split; [exact Hnone|].
  destruct (nothing_is_published_without_a_platform happy none_ready
              (fun s => s) "AI" st0 Hnone)
    as (r & st2 & Hrun & _ & Hcalls & _).
  exists r, st2. split; [exact Hrun|]. split; [exact Hcalls|].
  vm_compute in Hrun. inversion Hrun. reflexivity.
Defined.
